(** * PENVCreator: a shallow embedding of [PENVCreator.py]

    The program is an interactive helper around [python -m venv] and
    [pip].  Everything it does is a sequence of prompts, log lines,
    progress-bar updates and subprocess calls, glued together by a
    handful of Python string operations.  This development embeds

    - the Python [str] built-ins the program uses ([strip], [split],
      [lower], [splitlines], [startswith], [in], [re.split],
      [re.search]), over strings of code points below 256;
    - the operating system as an interface ([Platform]) that answers
      path queries, file accesses, HTTP requests and subprocess calls;
    - every function of the program as a computation in a state and
      exception monad whose state holds the operating system, the
      remaining lines of standard input and the trace of observable
      events.

    Conventions of the model:

    - a subprocess is run to its end when it is started: its exit
      code and the text of its two streams are the answer of [spawn];
      a text stream is read as Python delivers it in text mode, with
      line ends already translated to LF;
    - standard input is a finite list of lines, and [input] raises
      [EOFError] when it is used up, so that [main] ends on every
      input;
    - an exception is a value of [exn]; [sys.exit] raises [SystemExit]
      and an exception that leaves [main] ends the process with
      status 1;
    - writing and removing files do not fail.

    Theorems about the embedding follow the definitions. *)

From Stdlib Require Import ZArith Ascii String DecimalString.
From stdpp Require Import gmap strings list.

Local Open Scope string_scope.
Local Open Scope nat_scope.
Local Open Scope list_scope.
Local Open Scope stdpp_scope.

(** ** Python [str] operations *)

Module PyStr.

(** [str.isspace] on one code point: the ASCII table of CPython
    (TAB, LF, VT, FF, CR, FS, GS, RS, US, SPACE) and the two Latin-1
    white-space characters NEL and NBSP. *)
Definition isspace (c : ascii) : bool :=
  let n := nat_of_ascii c in
  ((9 <=? n) && (n <=? 13)) || ((28 <=? n) && (n <=? 32))
  || (n =? 133) || (n =? 160).

Definition LF : ascii := ascii_of_nat 10.
Definition CR : ascii := ascii_of_nat 13.

(** [str.lower] on one code point: [A-Z] and the upper-case Latin-1
    letters (U+00C0..U+00DE without the multiplication sign). *)
Definition lower_char (c : ascii) : ascii :=
  let n := nat_of_ascii c in
  if ((65 <=? n) && (n <=? 90))
     || ((192 <=? n) && (n <=? 222) && negb (n =? 215))
  then ascii_of_nat (n + 32) else c.

Fixpoint lower (s : string) : string :=
  match s with
  | EmptyString => EmptyString
  | String c t => String (lower_char c) (lower t)
  end.

Fixpoint lstrip (s : string) : string :=
  match s with
  | EmptyString => EmptyString
  | String c t => if isspace c then lstrip t else s
  end.

Fixpoint rstrip (s : string) : string :=
  match s with
  | EmptyString => EmptyString
  | String c t =>
      match rstrip t with
      | EmptyString => if isspace c then EmptyString else String c EmptyString
      | t' => String c t'
      end
  end.

(** [s.strip()] *)
Definition strip (s : string) : string := rstrip (lstrip s).

Definition is_empty (s : string) : bool :=
  match s with EmptyString => true | String _ _ => false end.

(** [s.startswith(p)] *)
Definition startswith (p s : string) : bool := String.prefix p s.

(** [sub in s] *)
Fixpoint contains (sub s : string) : bool :=
  String.prefix sub s
  || match s with
     | EmptyString => false
     | String _ t => contains sub t
     end.

(** Appends one character to the token being scanned. *)
Definition snoc (tok : string) (c : ascii) : string :=
  tok +:+ String c EmptyString.

(** [s.split()]: the maximal runs of non-white-space characters. *)
Fixpoint split_whitespace_from (tok s : string) : list string :=
  match s with
  | EmptyString => if is_empty tok then [] else [tok]
  | String c t =>
      if isspace c
      then (if is_empty tok then split_whitespace_from EmptyString t
            else tok :: split_whitespace_from EmptyString t)
      else split_whitespace_from (snoc tok c) t
  end.

Definition split_whitespace (s : string) : list string :=
  split_whitespace_from EmptyString s.

(** Splitting at every character that satisfies [p], empty fields
    kept: [s.split(c)] for a one-character separator and
    [re.split("[...]", s)] for a character class. *)
Fixpoint split_by (p : ascii -> bool) (s : string) : list string :=
  match s with
  | EmptyString => [EmptyString]
  | String c t =>
      if p c then EmptyString :: split_by p t
      else match split_by p t with
           | h :: r => String c h :: r
           | [] => [String c EmptyString]
           end
  end.

Definition split_char (sep : ascii) (s : string) : list string :=
  split_by (Ascii.eqb sep) s.

(** [s.split(sep)] for a separator of one or more characters: the
    occurrences are found from the left and do not overlap; [skip]
    counts the characters of the separator still to pass over. *)
Fixpoint split_sep_from (sep : string) (skip : nat) (s : string) : list string :=
  match s with
  | EmptyString => [EmptyString]
  | String c t =>
      match skip with
      | S k => split_sep_from sep k t
      | O =>
          if String.prefix sep s
          then EmptyString :: split_sep_from sep (String.length sep - 1) t
          else match split_sep_from sep 0 t with
               | h :: r => String c h :: r
               | [] => [String c EmptyString]
               end
      end
  end.

Definition split_sep (sep s : string) : list string :=
  split_sep_from sep 0 s.

(** The line boundaries of [str.splitlines]: LF, VT, FF, CR, FS, GS,
    RS and NEL; CR LF counts as one boundary. *)
Definition is_linebreak (c : ascii) : bool :=
  let n := nat_of_ascii c in
  ((10 <=? n) && (n <=? 13)) || ((28 <=? n) && (n <=? 30)) || (n =? 133).

Fixpoint splitlines_from (cur s : string) : list string :=
  match s with
  | EmptyString => if is_empty cur then [] else [cur]
  | String c t =>
      if is_linebreak c
      then cur :: (if Ascii.eqb c CR
                   then match t with
                        | String c' t' =>
                            if Ascii.eqb c' LF then splitlines_from EmptyString t'
                            else splitlines_from EmptyString t
                        | EmptyString => splitlines_from EmptyString t
                        end
                   else splitlines_from EmptyString t)
      else splitlines_from (snoc cur c) t
  end.

(** [s.splitlines()] *)
Definition splitlines (s : string) : list string :=
  splitlines_from EmptyString s.

(** Iterating a text stream ([for line in f], [iter(f.readline, "")]):
    the lines end at LF and keep it; a last line without LF is
    yielded as it is. *)
Fixpoint readlines_from (cur s : string) : list string :=
  match s with
  | EmptyString => if is_empty cur then [] else [cur]
  | String c t =>
      if Ascii.eqb c LF then snoc cur c :: readlines_from EmptyString t
      else readlines_from (snoc cur c) t
  end.

Definition readlines (s : string) : list string :=
  readlines_from EmptyString s.

Fixpoint take_while (p : ascii -> bool) (s : string) : string :=
  match s with
  | EmptyString => EmptyString
  | String c t => if p c then String c (take_while p t) else EmptyString
  end.

Fixpoint drop_chars (n : nat) (s : string) : string :=
  match n, s with
  | S k, String _ t => drop_chars k t
  | _, _ => s
  end.

(** [str(n)] for a non-negative integer. *)
Definition str_of_nat (n : nat) : string :=
  NilZero.string_of_uint (Nat.to_uint n).

End PyStr.

Import PyStr.

(** ** The regular expressions of the program *)

(** A match of [Collecting (\S+)] that starts at the head of [s]:
    the literal, then the longest non-empty run of characters that are
    not white space, which is group 1. *)
Definition match_collecting_here (s : string) : option string :=
  if String.prefix "Collecting " s
  then let g := take_while (fun c => negb (isspace c)) (drop_chars 11 s) in
       if is_empty g then None else Some g
  else None.

(** [re.search(r"Collecting (\S+)", s)], giving [match.group(1)] of the
    leftmost match. *)
Fixpoint search_collecting (s : string) : option string :=
  match match_collecting_here s with
  | Some g => Some g
  | None =>
      match s with
      | EmptyString => None
      | String _ t => search_collecting t
      end
  end.

(** The character class [[=<>]]. *)
Definition is_version_operator (c : ascii) : bool :=
  Ascii.eqb c "=" || Ascii.eqb c "<" || Ascii.eqb c ">".

(** ** The operating system *)

(** What a finished subprocess leaves behind. *)
Record completed := Completed {
  returncode : Z;
  proc_stdout : string;
  proc_stderr : string
}.

(** The ways [requests.get] ends: a response, [requests.ConnectionError],
    or another exception of the library. *)
Inductive http_outcome :=
| HttpResponse (body : string)
| HttpConnectionError
| HttpOtherError.

(** The services of the platform the program runs on.  [os_name] is
    [os.name] and [path_join] is [os.path.join]; the other operations
    act on the state [W] of the machine.  [spawn] answers [None] when
    the executable cannot be found. *)
Class Platform (W : Type) := {
  os_name : string;
  path_join : string -> list string -> string;
  path_exists : W -> string -> bool;
  read_text : W -> string -> option string;
  write_file : W -> string -> string -> W;
  remove_file : W -> string -> W;
  spawn : W -> list string -> option completed * W;
  http_get : W -> string -> http_outcome * W
}.

(** ** Exceptions, events and the monad of the program *)

Inductive exn :=
| SystemExit (code : Z)
| FileNotFoundError
| CalledProcessError (code : Z) (argv : list string)
| ConnectionError
| RequestException
| OSError
| EOFError
| IndexError
| UnboundLocalError (name : string).

(** What an observer of the process sees, in order. *)
Inductive event :=
| Print (line : string)
| Prompt (text : string)
| Spawn (argv : list string)
| ChildOutput (text : string)
| Request (url : string)
| Sleep (seconds : nat)
| TqdmOpen (total : option nat) (desc : string)
| TqdmDesc (desc : string)
| TqdmUpdate (n : nat)
| TqdmClose.

(** The exit status of the interpreter: 0 when [main] returns, the
    argument of [sys.exit], and 1 after any other uncaught exception. *)
Definition exit_status (r : exn + unit) : Z :=
  match r with
  | inr _ => 0
  | inl (SystemExit code) => code
  | inl _ => 1
  end.

(** The monad: a state [S] threaded through, and an exception or a
    value as the result. *)
Definition M (S A : Type) : Type := S -> (exn + A) * S.

Definition ret {S A} (a : A) : M S A := fun st => (inr a, st).

Definition raise {S A} (e : exn) : M S A := fun st => (inl e, st).

Definition bind {S A B} (m : M S A) (k : A -> M S B) : M S B :=
  fun st =>
    match m st with
    | (inr a, st') => k a st'
    | (inl e, st') => (inl e, st')
    end.

Notation "x <- m ;; k" := (bind m (fun x => k))
  (at level 100, m at next level, right associativity, only parsing).
Notation "m ;;; k" := (bind m (fun _ => k))
  (at level 100, right associativity, only parsing).

(** [finally]: [cleanup] runs whether [m] returns or raises. *)
Definition finally {S A} (m : M S A) (cleanup : M S unit) : M S A :=
  fun st =>
    match m st with
    | (r, st') =>
        match cleanup st' with
        | (inr _, st'') => (r, st'')
        | (inl e, st'') => (inl e, st'')
        end
    end.

(** [for x in xs: acc = body(acc, x)] *)
Fixpoint for_fold {S A B} (body : B -> A -> M S B) (xs : list A) (acc : B) : M S B :=
  match xs with
  | [] => ret acc
  | x :: xs' => acc' <- body acc x ;; for_fold body xs' acc'
  end.

(** [for x in xs: body(x)] *)
Definition for_each {S A} (body : A -> M S unit) (xs : list A) : M S unit :=
  for_fold (fun _ x => body x) xs tt.

(** [xs[i]] *)
Definition index {A} (xs : list A) (i : nat) : exn + A :=
  match xs !! i with
  | Some x => inr x
  | None => inl IndexError
  end.

Definition lift {S A} (r : exn + A) : M S A := fun st => (r, st).

(** [try: m  except E: handler], where [caught] recognises [E]. *)
Definition try_except {S A} (m : M S A) (caught : exn -> bool) (handler : M S A) : M S A :=
  fun st =>
    match m st with
    | (inl e, st') => if caught e then handler st' else (inl e, st')
    | (inr a, st') => (inr a, st')
    end.

(** A list comprehension [[f(x) for x in xs]] whose element expression
    can raise: the first exception ends it. *)
Fixpoint comprehension {A B} (f : A -> exn + B) (xs : list A) : exn + list B :=
  match xs with
  | [] => inr []
  | x :: xs' =>
      match f x with
      | inl e => inl e
      | inr y =>
          match comprehension f xs' with
          | inl e => inl e
          | inr ys => inr (y :: ys)
          end
      end
  end.

(** The state of a run: the machine, the lines of standard input not
    yet read, and the events so far. *)
Record state (W : Type) := State {
  os : W;
  stdin : list string;
  trace : list event
}.
Arguments State {W} _ _ _.
Arguments os {W} _.
Arguments stdin {W} _.
Arguments trace {W} _.

Section Program.

Context {W : Type} `{Platform W}.

(** Computations of the program. *)
Definition Prog (A : Type) : Type := M (state W) A.

Definition emit (e : event) : Prog unit :=
  fun st => (inr tt, State (os st) (stdin st) (trace st ++ [e])).

(** *** Primitives *)

Definition print (line : string) : Prog unit := emit (Print line).

(** [input(prompt)]: the next line of standard input, [EOFError]
    when there is none. *)
Definition input (prompt : string) : Prog string :=
  fun st =>
    match stdin st with
    | [] => (inl EOFError, State (os st) [] (trace st ++ [Prompt prompt]))
    | l :: rest => (inr l, State (os st) rest (trace st ++ [Prompt prompt]))
    end.

(** Starts a subprocess and lets it finish: [subprocess.Popen]
    followed by reading its pipes and [wait], or [subprocess.run]
    without [check]. *)
Definition Popen (argv : list string) : Prog completed :=
  fun st =>
    match spawn (os st) argv with
    | (Some p, w) => (inr p, State w (stdin st) (trace st ++ [Spawn argv]))
    | (None, w) => (inl FileNotFoundError, State w (stdin st) (trace st ++ [Spawn argv]))
    end.

(** [subprocess.run(argv, check=True)] *)
Definition run_checked (argv : list string) : Prog completed :=
  p <- Popen argv ;;
  if (returncode p =? 0)%Z then ret p
  else raise (CalledProcessError (returncode p) argv).

Definition os_path_exists (path : string) : Prog bool :=
  fun st => (inr (path_exists (os st) path), st).

Definition open_read (path : string) : Prog string :=
  fun st =>
    match read_text (os st) path with
    | Some text => (inr text, st)
    | None => (inl OSError, st)
    end.

Definition open_write (path text : string) : Prog unit :=
  fun st => (inr tt, State (write_file (os st) path text) (stdin st) (trace st)).

Definition os_remove (path : string) : Prog unit :=
  fun st => (inr tt, State (remove_file (os st) path) (stdin st) (trace st)).

(** [requests.get(url)] *)
Definition requests_get (url : string) : Prog string :=
  fun st =>
    match http_get (os st) url with
    | (HttpResponse body, w) =>
        (inr body, State w (stdin st) (trace st ++ [Request url]))
    | (HttpConnectionError, w) =>
        (inl ConnectionError, State w (stdin st) (trace st ++ [Request url]))
    | (HttpOtherError, w) =>
        (inl RequestException, State w (stdin st) (trace st ++ [Request url]))
    end.

(** [with tqdm(total=..., desc=...) as pbar: body]; the bar is closed
    when the block is left, also by an exception. *)
Definition with_tqdm {A} (total : option nat) (desc : string) (body : Prog A) : Prog A :=
  emit (TqdmOpen total desc) ;;; finally body (emit TqdmClose).

Definition set_description (desc : string) : Prog unit := emit (TqdmDesc desc).
Definition update (n : nat) : Prog unit := emit (TqdmUpdate n).

(** *** Constants *)

Definition PYTHON_VERSION : string := "3.10.6".
Definition PYTHON_INSTALLER : string := "python-" +:+ PYTHON_VERSION +:+ "-amd64.exe".
Definition PYTHON_URL : string :=
  "https://www.python.org/ftp/python/" +:+ PYTHON_VERSION +:+ "/" +:+ PYTHON_INSTALLER.
Definition PYTHON_INSTALL_PATH : string :=
  if String.eqb os_name "nt" then "C:\Python310" else "/usr/local/bin/python3".

Definition log (message : string) : Prog unit := print ("[INFO] " +:+ message).

Definition get_python_executable (venv_name : string) : string :=
  if String.eqb os_name "nt"
  then path_join venv_name ["Scripts"; "python.exe"]
  else path_join venv_name ["bin"; "python"].


(** *** Checking and installing the runtime *)

Definition is_FileNotFoundError (e : exn) : bool :=
  match e with FileNotFoundError => true | _ => false end.

Definition is_ConnectionError (e : exn) : bool :=
  match e with ConnectionError => true | _ => false end.

Definition check_python : Prog bool :=
  try_except
    (run_checked ["python"; "--version"] ;;;
     log "Python is already installed." ;;;
     ret true)
    is_FileNotFoundError
    (ret false).

(** The installer is streamed to disk in chunks; the file ends up
    holding the body of the response. *)
Definition download_python : Prog unit :=
  log ("Downloading " +:+ PYTHON_INSTALLER +:+ "...") ;;;
  body <- requests_get PYTHON_URL ;;
  open_write PYTHON_INSTALLER body ;;;
  log "Python installer downloaded.".

Definition install_python : Prog unit :=
  log "Installing Python..." ;;;
  run_checked [PYTHON_INSTALLER; "/quiet"; "InstallAllUsers=1"; "PrependPath=1";
               "TargetDir=" +:+ PYTHON_INSTALL_PATH] ;;;
  os_remove PYTHON_INSTALLER ;;;
  log "Python installed successfully!".

Definition create_virtual_env (venv_name : string) : Prog unit :=
  log ("Creating virtual environment: " +:+ venv_name +:+ "...") ;;;
  run_checked ["python"; "-m"; "venv"; venv_name] ;;;
  log ("Virtual environment '" +:+ venv_name +:+ "' created successfully.").

(** *** Parsing the output of the package manager *)

(** [{line.split()[0].lower() for line in stdout.splitlines()[2:] if line.strip()}] *)
Definition installed_packages (stdout : string) : exn + gset string :=
  match comprehension
          (fun line =>
             match index (split_whitespace line) 0 with
             | inl e => inl e
             | inr name => inr (lower name)
             end)
          (List.filter (fun line => negb (is_empty (strip line)))
                       (drop 2 (splitlines stdout)))
  with
  | inl e => inl e
  | inr names => inr (list_to_set names)
  end.

(** [x in s] for a set of strings. *)
Definition member (x : string) (s : gset string) : bool := bool_decide (x ∈ s).

(** [stdout_line.split(' ')[1].split('[')[0].strip()], the expression
    that reads a package name off a [Collecting] or [Uninstalling]
    line. *)
Definition marker_package (stdout_line : string) : exn + string :=
  match index (split_char " " stdout_line) 1 with
  | inl e => inl e
  | inr field =>
      match index (split_char "[" field) 0 with
      | inl e => inl e
      | inr name => inr (strip name)
      end
  end.

(** [[re.split(r"[=<>]", line.strip())[0] for line in file
      if line.strip() and not line.startswith("#")]] *)
Definition parse_requirements (text : string) : exn + list string :=
  comprehension
    (fun line => index (split_by is_version_operator (strip line)) 0)
    (List.filter
       (fun line => negb (is_empty (strip line)) && negb (startswith "#" line))
       (readlines text)).

(** *** Package operations *)

Definition pip (venv_name : string) (args : list string) : list string :=
  get_python_executable venv_name :: "-m" :: "pip" :: args.

Definition is_package_installed (venv_name package_name : string) : Prog bool :=
  result <- Popen (pip venv_name ["list"]) ;;
  installed <- lift (installed_packages (proc_stdout result)) ;;
  ret (member (lower package_name) installed).

(** Reading a local variable that may not have been assigned. *)
Definition read_local (name : string) (value : option string) : Prog string :=
  match value with
  | Some v => ret v
  | None => raise (UnboundLocalError name)
  end.

Definition install_package (venv_name package_name : string) : Prog unit :=
  installed <- is_package_installed venv_name package_name ;;
  if installed
  then log ("ERROR: " +:+ package_name +:+ " (skipped, already installed)")
  else
    log ("Installing: " +:+ package_name +:+ "...") ;;;
    process <- Popen (pip venv_name ["install"; package_name]) ;;
    current_package <-
      with_tqdm None ("Installing " +:+ package_name)
        (for_fold
           (fun current line =>
              match search_collecting (strip line) with
              | Some name =>
                  set_description ("Installing: " +:+ name) ;;;
                  update 1 ;;;
                  ret (Some name)
              | None => ret current
              end)
           (readlines (proc_stdout process)) None) ;;
    if (returncode process =? 0)%Z
    then name <- read_local "current_package" current_package ;;
         set_description ("Installing: " +:+ name +:+ " (success)")
    else name <- read_local "current_package" current_package ;;
         set_description ("Installing: " +:+ name +:+ " (failed)").

(** The end of [install_from_requirements], from its [with tqdm] block
    on: one tick per line of output, the label following the
    [Collecting] lines, then the log line chosen by the exit status. *)
Definition watch_batch_install (process : completed) : Prog unit :=
  with_tqdm None "Installing packages"
    (for_each
       (fun stdout_line =>
          let stdout_line := strip stdout_line in
          (if contains "Collecting" stdout_line
           then current_pkg <- lift (marker_package stdout_line) ;;
                set_description ("Installing: " +:+ current_pkg)
           else ret tt) ;;;
          update 1)
       (readlines (proc_stdout process))) ;;;
  if (returncode process =? 0)%Z
  then log "Installation process complete."
  else log "ERROR: Installation failed for some packages. Check the output for details.".

Definition install_from_requirements (venv_name requirements_file : string) : Prog unit :=
  present <- os_path_exists requirements_file ;;
  if negb present
  then log ("ERROR: '" +:+ requirements_file +:+ "' not found.")
  else
    text <- open_read requirements_file ;;
    packages <- lift (parse_requirements text) ;;
    if bool_decide (packages = [])
    then log "No valid packages found in requirements.txt."
    else
      log "Checking for installed packages before installation..." ;;;
      result <- Popen (pip venv_name ["list"]) ;;
      installed <- lift (installed_packages (proc_stdout result)) ;;
      let to_install :=
        List.filter (fun pkg => negb (member (lower pkg) installed)) packages in
      let already_installed :=
        List.filter (fun pkg => member (lower pkg) installed) packages in
      for_each
        (fun pkg => log ("INFO: " +:+ pkg +:+ " is already installed (skipping)"))
        already_installed ;;;
      if bool_decide (to_install = [])
      then log "All required packages are already installed. Nothing to install."
      else
        log ("Installing " +:+ str_of_nat (length to_install) +:+ " packages from '"
             +:+ requirements_file +:+ "'...") ;;;
        process <- Popen (pip venv_name ["install"; "-r"; requirements_file]) ;;
        watch_batch_install process.

(** The two loops over the pipes of an uninstall or upgrade process:
    the label follows the lines of standard output that carry [marker];
    the lines of standard error are read and dropped. *)
Definition follow_process (marker label : string) (process : completed) : Prog unit :=
  for_each
    (fun stdout_line =>
       if contains marker stdout_line
       then package_name_clean <- lift (marker_package stdout_line) ;;
            set_description (label +:+ package_name_clean)
       else ret tt)
    (readlines (proc_stdout process)) ;;;
  for_each (fun stderr_line => ret tt) (readlines (proc_stderr process)).

Definition remove_package (venv_name package_name : string) : Prog unit :=
  log ("Removing package: " +:+ package_name +:+ "...") ;;;
  process <- Popen (pip venv_name ["uninstall"; "-y"; package_name]) ;;
  with_tqdm (Some 1) ("Removing " +:+ package_name)
    (follow_process "Uninstalling" "Removing: " process ;;;
     update 1) ;;;
  log ("Package '" +:+ package_name +:+ "' removed successfully.").

Definition remove_all_packages (venv_name : string) : Prog unit :=
  log "Removing all installed packages..." ;;;
  result <- Popen (pip venv_name ["freeze"]) ;;
  packages <- lift (comprehension (fun line => index (split_sep "==" line) 0)
                                  (splitlines (proc_stdout result))) ;;
  if bool_decide (packages = [])
  then log "No packages to remove."
  else
    with_tqdm (Some (length packages)) "Removing packages"
      (for_each
         (fun package =>
            process <- Popen (pip venv_name ["uninstall"; "-y"; package]) ;;
            follow_process "Uninstalling" "Removing: " process ;;;
            update 1)
         packages) ;;;
    log "All packages removed successfully.".

Definition update_packages (venv_name : string) (packages : list string) : Prog unit :=
  with_tqdm (Some (length packages)) "Updating packages"
    (for_each
       (fun package =>
          process <- Popen (pip venv_name ["install"; "--upgrade"; package]) ;;
          follow_process "Collecting" "Updating: " process ;;;
          update 1)
       packages) ;;;
  log "All selected packages updated successfully.".

(** [if len(lines) > 2: for line in lines[2:]: ... line.split()[0]] *)
Definition outdated_names (lines : list string) : exn + list string :=
  if 2 <? length lines
  then comprehension (fun line => index (split_whitespace line) 0) (drop 2 lines)
  else inr [].

Definition check_for_updates (venv_name : string) : Prog unit :=
  log "Checking for outdated packages..." ;;;
  result <- Popen (pip venv_name ["list"; "--outdated"]) ;;
  outdated_packages <- lift (outdated_names (splitlines (proc_stdout result))) ;;
  if bool_decide (outdated_packages = [])
  then log "All packages are up to date."
  else
    log ("Found " +:+ str_of_nat (length outdated_packages) +:+ " outdated package(s).") ;;;
    answer <- input "Do you want to update all outdated packages? (y/n): " ;;
    if String.eqb (lower (strip answer)) "y"
    then update_packages venv_name outdated_packages
    else ret tt.

Definition check_internet : Prog bool :=
  try_except
    (requests_get "https://www.google.com" ;;; ret true)
    is_ConnectionError
    (ret false).


(** *** The interactive menu *)

Definition menu_text : list string :=
  [String LF "Choose an option:";
   "[1] Install a package";
   "[2] Remove a package";
   "[3] Remove all packages";
   "[4] Install from requirements.txt";
   "[5] List installed packages";
   "[6] Generate requirements.txt";
   "[7] Check for updates";
   "[8] Exit"].

(** The [if]/[elif] chain on the choice; the result says whether the
    loop goes on ([true]) or was left by [break] ([false]). *)
Definition menu_dispatch (venv_name choice : string) : Prog bool :=
  if String.eqb choice "1" then
    line <- input "Enter package name to install: " ;;
    let package_name := strip line in
    (if is_empty package_name then ret tt
     else install_package venv_name package_name) ;;;
    ret true
  else if String.eqb choice "2" then
    line <- input "Enter package name to remove: " ;;
    let package_name := strip line in
    (if is_empty package_name then ret tt
     else remove_package venv_name package_name) ;;;
    ret true
  else if String.eqb choice "3" then
    line <- input "Are you sure you want to remove all packages? (y/n): " ;;
    (if String.eqb (lower (strip line)) "y"
     then remove_all_packages venv_name else ret tt) ;;;
    ret true
  else if String.eqb choice "4" then
    line <- input "Enter the path to requirements.txt: " ;;
    let requirements_file := strip line in
    (if is_empty requirements_file then ret tt
     else install_from_requirements venv_name requirements_file) ;;;
    ret true
  else if String.eqb choice "5" then
    listing <- Popen (pip venv_name ["list"]) ;;
    emit (ChildOutput (proc_stdout listing)) ;;;
    ret true
  else if String.eqb choice "6" then
    log "Generating requirements.txt..." ;;;
    open_write "requirements.txt" "" ;;;
    frozen <- Popen (pip venv_name ["freeze"]) ;;
    open_write "requirements.txt" (proc_stdout frozen) ;;;
    log "requirements.txt created successfully." ;;;
    ret true
  else if String.eqb choice "7" then
    check_for_updates venv_name ;;;
    ret true
  else if String.eqb choice "8" then
    log "Exiting... Goodbye!" ;;;
    ret false
  else
    log "Invalid choice. Please enter a number between 1 and 8." ;;;
    ret true.

(** One pass through the body of [while True]. *)
Definition menu_iteration (venv_name : string) : Prog bool :=
  for_each print menu_text ;;;
  line <- input "Enter your choice (1-8): " ;;
  menu_dispatch venv_name (strip line).

(** [while True: ...], unrolled at most [fuel] times; [None] when the
    fuel does not suffice. *)
Fixpoint menu_loop (fuel : nat) (venv_name : string) (st : state W)
  : option ((exn + unit) * state W) :=
  match fuel with
  | O => None
  | S fuel' =>
      match menu_iteration venv_name st with
      | (inr true, st') => menu_loop fuel' venv_name st'
      | (inr false, st') => Some (inr tt, st')
      | (inl e, st') => Some (inl e, st')
      end
  end.

(** [if not os.path.exists(venv_name): create_virtual_env(venv_name)],
    the environment step of [main]. *)
Definition ensure_virtual_env (venv_name : string) : Prog unit :=
  present <- os_path_exists venv_name ;;
  if negb present then create_virtual_env venv_name else ret tt.

(** What [main] does between the connectivity check and the
    environment step: runtime check and environment name.  It returns
    the environment name. *)
Definition prepare : Prog string :=
  have_python <- check_python ;;
  (if negb have_python
   then log "Python is not installed. Downloading and installing..." ;;;
        download_python ;;;
        install_python
   else ret tt) ;;;
  line <- input "Enter the virtual environment name (default: venv): " ;;
  ret (if is_empty (strip line) then "venv" else strip line).

(** The first part of [main]: connectivity check, then [prepare]. *)
Definition startup : Prog string :=
  online <- check_internet ;;
  (if negb online
   then log "ERROR: PENVCreator requires an internet connection to function." ;;;
        log "Please check your connection and try again." ;;;
        emit (Sleep 3) ;;;
        raise (SystemExit 1)
   else ret tt) ;;;
  prepare.

(** The second part of [main], from the environment step on:
    environment creation, first check for updates, menu loop. *)
Definition session (fuel : nat) (venv_name : string) (st : state W)
  : option ((exn + unit) * state W) :=
  match (ensure_virtual_env venv_name ;;; check_for_updates venv_name) st with
  | (inr _, st') => menu_loop fuel venv_name st'
  | (inl e, st') => Some (inl e, st')
  end.

Definition main_with_fuel (fuel : nat) (st : state W)
  : option ((exn + unit) * state W) :=
  match startup st with
  | (inr venv_name, st') => session fuel venv_name st'
  | (inl e, st') => Some (inl e, st')
  end.

(** Every pass through the menu reads at least one line, so one more
    pass than there are lines of input is enough. *)
Definition main (st : state W) : option ((exn + unit) * state W) :=
  main_with_fuel (S (length (stdin st))) st.

End Program.

(** The exit status of the process on a run from [st]. *)
Definition process_status {W} `{Platform W} (st : state W) : option Z :=
  match main st with
  | Some (r, _) => Some (exit_status r)
  | None => None
  end.

(** The subprocess calls among the events. *)
Definition spawned (events : list event) : list (list string) :=
  omap (fun e => match e with Spawn argv => Some argv | _ => None end) events.

(** ** Observations on runs *)

(** The command line that creates the environment. *)
Definition venv_command (venv_name : string) : list string :=
  ["python"; "-m"; "venv"; venv_name].

(** The events of one display of the menu. *)
Definition menu_events : list event :=
  map Print menu_text ++ [Prompt "Enter your choice (1-8): "].

(** The events of a start without network. *)
Definition offline_events : list event :=
  [Request "https://www.google.com";
   Print "[INFO] ERROR: PENVCreator requires an internet connection to function.";
   Print "[INFO] Please check your connection and try again.";
   Sleep 3].

(** The choices the menu knows. *)
Definition choices : list string := ["1"; "2"; "3"; "4"; "5"; "6"; "7"; "8"].

(** The names that [pip list] shows: the first token of every line
    after the header that has one. *)
Definition listed_names (stdout : string) : list string :=
  omap (fun line => split_whitespace line !! 0) (drop 2 (splitlines stdout)).

(** The log lines for the packages of a manifest that are installed. *)
Definition skipped_events (installed : list string) (packages : list string) : list event :=
  map (fun pkg => Print ("[INFO] INFO: " +:+ pkg +:+ " is already installed (skipping)"))
      (List.filter (fun pkg => bool_decide (lower pkg ∈ installed)) packages).

(** How often the events start [python -m venv venv_name]. *)
Definition creations (venv_name : string) (events : list event) : nat :=
  length (List.filter (fun argv => bool_decide (argv = venv_command venv_name))
                      (spawned events)).

(** A command line of the package manager: its third word is [pip]. *)
Definition is_pip (argv : list string) : bool :=
  match argv with
  | _ :: _ :: third :: _ => String.eqb third "pip"
  | _ => false
  end.

(** [pbar.update] among the events. *)
Definition is_tick (e : event) : bool :=
  match e with TqdmUpdate _ => true | _ => false end.

(** The number of [pbar.update] calls among the events. *)
Definition ticks (events : list event) : nat := length (List.filter is_tick events).

(** ** The per-line reading of a manifest *)

(** What the specification says a manifest line stands for: nothing
    for a blank line or a line that starts with the comment marker,
    and otherwise the stripped line up to its first [=], [<] or [>]. *)
Definition requirement_name (line : string) : option string :=
  if is_empty (strip line) || startswith "#" line then None
  else Some (take_while (fun c => negb (is_version_operator c)) (strip line)).


(** Whether a string has a white-space character in it. *)
Fixpoint has_space (s : string) : bool :=
  match s with
  | EmptyString => false
  | String c t => isspace c || has_space t
  end.

(** The names on the [Collecting] lines of an installation, in the
    order of the lines. *)
Definition collected (stdout : string) : list string :=
  omap (fun line => search_collecting (strip line)) (readlines stdout).

(** What [install_package] shows for these names: a label and a tick
    each. *)
Definition collecting_events (names : list string) : list event :=
  flat_map (fun name => [TqdmDesc ("Installing: " +:+ name); TqdmUpdate 1]) names.

(** The package names that [remove_all_packages] reads off the output
    of [pip freeze]: every line up to its first [==]. *)
Definition frozen_names (stdout : string) : list string :=
  map (fun line => default line (split_sep "==" line !! 0)) (splitlines stdout).

(** The environment name that [main] makes of the line it reads. *)
Definition environment_name (line : string) : string :=
  if is_empty (strip line) then "venv" else strip line.

(** The command line of the runtime check. *)
Definition version_command : list string := ["python"; "--version"].

(** ** Predicates on computations *)

Section Predicates.

Context {W : Type}.

(** [calm m]: [m] does not end in [SystemExit], and it leaves no more
    lines of input than it found. *)
Definition calm {A} (m : M (state W) A) : Prop :=
  forall st,
    (forall code, fst (m st) <> inl (SystemExit code))
    /\ length (stdin (snd (m st))) <= length (stdin st).

(** [quiet m]: [m] only adds events, none of them a subprocess call,
    and leaves the machine and the input alone. *)
Definition quiet {A} (m : M (state W) A) : Prop :=
  forall st, exists new,
    snd (m st) = State (os st) (stdin st) (trace st ++ new) /\ spawned new = [].

(** [counted n m]: [m] only adds events, and when it returns it has
    ticked the progress bar [n] times. *)
Definition counted {A} (n : nat) (m : M (state W) A) : Prop :=
  forall st, exists new,
    trace (snd (m st)) = trace st ++ new
    /\ forall a, fst (m st) = inr a -> ticks new = n.

(** [only_pip m]: [m] only adds events, and every subprocess it
    starts is the package manager. *)
Definition only_pip {A} (m : M (state W) A) : Prop :=
  forall st, exists new,
    trace (snd (m st)) = trace st ++ new
    /\ forallb is_pip (spawned new) = true.

(** The command line of the installer, as [install_python] builds it. *)
Definition installer_command `{Platform W} : list string :=
  [PYTHON_INSTALLER; "/quiet"; "InstallAllUsers=1"; "PrependPath=1";
   "TargetDir=" +:+ PYTHON_INSTALL_PATH].

(** [launching cmds m]: when [m] returns, it has only added events,
    and the subprocesses it started are [cmds], in this order. *)
Definition launching {A} (cmds : list (list string)) (m : M (state W) A) : Prop :=
  forall st a,
    fst (m st) = inr a ->
    exists new, trace (snd (m st)) = trace st ++ new /\ spawned new = cmds.

(** [reading m]: the input that [m] leaves is an end of the input it
    found. *)
Definition reading {A} (m : M (state W) A) : Prop :=
  forall st, stdin (snd (m st)) `suffix_of` stdin st.

(** [confined P m]: [m] only adds events, and every command line it
    starts satisfies [P]. *)
Definition confined {A} (P : list string -> Prop) (m : M (state W) A) : Prop :=
  forall st, exists new,
    trace (snd (m st)) = trace st ++ new /\ Forall P (spawned new).

(** [unasked m]: [m] reads no input. *)
Definition unasked {A} (m : M (state W) A) : Prop :=
  forall st, stdin (snd (m st)) = stdin st.

End Predicates.

(** ** A small machine to run the program on *)

Module Demo.

(** [posixpath.join] *)
Definition posix_join (a : string) (ps : list string) : string :=
  fold_left
    (fun path b =>
       if startswith "/" b then b
       else if is_empty path || startswith "/" (String.rev path) then path +:+ b
       else path +:+ "/" +:+ b)
    ps a.

(** A machine with a fixed answer to every request and to every
    command line it knows; [python -m venv E] creates [E] when it
    succeeds. *)
Record machine := Machine {
  network : http_outcome;
  paths : list string;
  files : list (string * string);
  commands : list (list string * completed)
}.

Definition lookup_command (argv : list string) (m : machine) : option completed :=
  snd <$> List.find (fun entry => bool_decide (fst entry = argv)) (commands m).

Definition lookup_file (path : string) (m : machine) : option string :=
  snd <$> List.find (fun entry => String.eqb (fst entry) path) (files m).

Definition run_command (m : machine) (argv : list string) : option completed * machine :=
  match lookup_command argv m with
  | Some p =>
      match argv with
      | ["python"; "-m"; "venv"; name] =>
          if (returncode p =? 0)%Z
          then (Some p, Machine (network m) (name :: paths m) (files m) (commands m))
          else (Some p, m)
      | _ => (Some p, m)
      end
  | None => (None, m)
  end.

#[export] Instance demo_platform : Platform machine := {
  os_name := "posix";
  path_join := posix_join;
  path_exists m path :=
    existsb (String.eqb path) (paths m)
    || match lookup_file path m with Some _ => true | None => false end;
  read_text m path := lookup_file path m;
  write_file m path text := Machine (network m) (paths m) ((path, text) :: files m) (commands m);
  remove_file m path :=
    Machine (network m) (paths m)
            (List.filter (fun entry => negb (String.eqb (fst entry) path)) (files m))
            (commands m);
  spawn := run_command;
  http_get m url := (network m, m)
}.

Definition ok (out : string) : completed := Completed 0 out "".
Definition failed (code : Z) (err : string) : completed := Completed code "" err.

(** The two header lines of [pip list]. *)
Definition header : string :=
  "Package    Version" +:+ String LF "---------- -------" +:+ String LF "".

Definition lines (ls : list string) : string :=
  fold_right (fun l rest => l +:+ String LF rest) "" ls.

(** An environment [venv] that exists, with the given files and
    command lines. *)
Definition with_venv (fs : list (string * string))
           (cmds : list (list string * completed)) : machine :=
  Machine (HttpResponse "") ["venv"] fs cmds.

Definition start (m : machine) (input : list string) : state machine :=
  State m input [].

Definition py : string := "venv/bin/python".

(** [numpy] and [requests] are installed. *)
Definition numpy_listing : string :=
  header +:+ lines ["numpy      1.26.0"; "requests   2.31.0"].

Definition numpy_machine : machine :=
  with_venv [] [([py; "-m"; "pip"; "list"], ok numpy_listing)].

(** Nothing is installed, and [pip install six] prints no
    [Collecting] line. *)
Definition satisfied_machine : machine :=
  with_venv []
    [([py; "-m"; "pip"; "list"], ok header);
     ([py; "-m"; "pip"; "install"; "six"],
      ok (lines ["Requirement already satisfied: six in ./venv/lib"]))].

(** A manifest with [a], [b] and [c], of which [b] is installed. *)
Definition manifest_machine : machine :=
  with_venv [("abc.txt", lines ["a"; "b"; "c"])]
    [([py; "-m"; "pip"; "list"], ok (header +:+ lines ["b          1.0"]));
     ([py; "-m"; "pip"; "install"; "-r"; "abc.txt"],
      ok (lines ["Collecting a"; "Collecting c"]))].

(** [pip uninstall] fails. *)
Definition stubborn_machine : machine :=
  with_venv []
    [([py; "-m"; "pip"; "uninstall"; "-y"; "six"],
      Completed 1 "" "ERROR: Exception")].

(** Nothing is outdated. *)
Definition current_machine : machine :=
  with_venv []
    [([py; "-m"; "pip"; "list"; "--outdated"],
      ok ("Package Version Latest Type" +:+ String LF "------- ------- ------ ----"
          +:+ String LF ""))].

(** The list of outdated packages has an empty line in it. *)
Definition gap_machine : machine :=
  with_venv []
    [([py; "-m"; "pip"; "list"; "--outdated"],
      ok (lines ["Package Version Latest Type"; "------- ------- ------ ----";
                 "six     1.15.0  1.16.0 wheel"; ""; "idna    3.3     3.7    wheel"]))].

(** No environment yet; [python -m venv venv] works. *)
Definition fresh_machine : machine :=
  Machine (HttpResponse "") [] []
    [(["python"; "--version"], ok "Python 3.10.6");
     (["python"; "-m"; "venv"; "venv"], ok "")].

(** No environment yet, and [python -m venv venv] fails. *)
Definition readonly_machine : machine :=
  Machine (HttpResponse "") [] []
    [(["python"; "--version"], ok "Python 3.10.6");
     (["python"; "-m"; "venv"; "venv"], failed 1 "Error: [Errno 13] Permission denied")].

(** No network. *)
Definition offline_machine : machine :=
  Machine HttpConnectionError [] [] [].

(** The command line of the installer on this platform. *)
Definition posix_installer : list string :=
  ["python-3.10.6-amd64.exe"; "/quiet"; "InstallAllUsers=1"; "PrependPath=1";
   "TargetDir=/usr/local/bin/python3"].

(** No [python] yet; the installer can be downloaded and works. *)
Definition bare_machine : machine :=
  Machine (HttpResponse "MZ") [] [] [(posix_installer, ok "")].

(** No [python] yet, and the installer fails. *)
Definition broken_installer_machine : machine :=
  Machine (HttpResponse "MZ") [] [] [(posix_installer, failed 1603 "")].

(** The request for the connectivity check times out. *)
Definition timeout_machine : machine :=
  Machine HttpOtherError [] [] [].

(** [pip uninstall] prints a bare [Uninstalling]. *)
Definition terse_machine : machine :=
  with_venv []
    [([py; "-m"; "pip"; "uninstall"; "-y"; "six"],
      ok (lines ["Found existing installation: six 1.16.0"; "Uninstalling"]))].

(** [pip install flask] collects two packages. *)
Definition flask_output : string :=
  lines ["Collecting flask"; "  Downloading flask-3.0.0-py3-none-any.whl";
         "Collecting click>=8.0 (from flask)";
         "Installing collected packages: click, flask"].

Definition flask_machine : machine :=
  with_venv []
    [([py; "-m"; "pip"; "list"], ok header);
     ([py; "-m"; "pip"; "install"; "flask"], ok flask_output)].

(** Two packages are installed, one of them from a repository. *)
Definition frozen_output : string :=
  lines ["six==1.16.0"; "-e git+https://example.org/tool.git#egg=tool"].

Definition frozen_machine : machine :=
  with_venv []
    [([py; "-m"; "pip"; "freeze"], ok frozen_output);
     ([py; "-m"; "pip"; "uninstall"; "-y"; "six"], ok "");
     ([py; "-m"; "pip"; "uninstall"; "-y";
       "-e git+https://example.org/tool.git#egg=tool"], failed 1 "")].

(** [six] is outdated and can be upgraded. *)
Definition outdated_output : string :=
  lines ["Package Version Latest Type"; "------- ------- ------ ----";
         "six     1.15.0  1.16.0 wheel"].

Definition outdated_machine : machine :=
  with_venv []
    [([py; "-m"; "pip"; "list"; "--outdated"], ok outdated_output);
     ([py; "-m"; "pip"; "install"; "--upgrade"; "six"], ok (lines ["Collecting six"]))].

(** A manifest whose only line has a space before the operator, for a
    package that is installed. *)
Definition spaced_machine : machine :=
  with_venv [("spaced.txt", lines ["requests >= 2.0"])]
    [([py; "-m"; "pip"; "list"], ok numpy_listing);
     ([py; "-m"; "pip"; "install"; "-r"; "spaced.txt"], ok "")].

(** A first run: [python] is there, the environment is not, nothing
    is outdated after its creation. *)
Definition first_run_machine : machine :=
  Machine (HttpResponse "") [] []
    [(["python"; "--version"], ok "Python 3.10.6");
     (["python"; "-m"; "venv"; "venv"], ok "");
     ([py; "-m"; "pip"; "list"; "--outdated"], ok header)].

(** [os.path.isdir] on the machine: the entries of [paths] are its
    directories, those of [files] its regular files. *)
Definition is_directory (m : machine) (path : string) : bool :=
  existsb (String.eqb path) (paths m).

(** No environment, but a regular file named [venv]; [python -m venv
    venv] would fail on it. *)
Definition occupied_machine : machine :=
  Machine (HttpResponse "") [] [("venv", "")]
    [(["python"; "--version"], ok "Python 3.10.6");
     (["python"; "-m"; "venv"; "venv"],
      failed 1 "Error: [Errno 17] File exists: 'venv'")].

End Demo.

(** ** The exit status as the specification has it *)

(** "The process exits with a non-zero status only when the initial
    connectivity check fails." *)
Definition nonzero_status_only_offline : Prop :=
  forall (W : Type) (P : Platform W) (st : state W) (code : Z),
    process_status st = Some code -> code <> 0%Z ->
    fst (check_internet st) = inr false.

(** ** The environment step as the specification has it *)

(** "If no directory named E exists, the environment-creation step is
    invoked exactly once and a directory E exists afterward; if a
    directory named E already exists at startup, no
    environment-creation subprocess is invoked at all."  The program
    asks [os.path.exists] and never [os.path.isdir]; [isdir] stands
    for the latter, and a directory is a path that exists. *)
Definition directory_created_once : Prop :=
  forall (W : Type) (P : Platform W) (isdir : W -> string -> bool),
    (forall w path, isdir w path = true -> path_exists w path = true) ->
    forall (venv_name : string) (st : state W),
      (isdir (os st) venv_name = false ->
       creations venv_name (trace (snd (ensure_virtual_env venv_name st)))
       = S (creations venv_name (trace st))
       /\ isdir (os (snd (ensure_virtual_env venv_name st))) venv_name = true)
      /\ (isdir (os st) venv_name = true ->
          creations venv_name (trace (snd (ensure_virtual_env venv_name st)))
          = creations venv_name (trace st)).

(** * Properties *)

(** ** Strings *)

Example strip_ex : strip "  foo>=1 " = "foo>=1".
Proof. reflexivity. Qed.

Lemma snoc_not_empty tok c : is_empty (snoc tok c) = false.
Proof. unfold snoc. destruct tok; reflexivity. Qed.

Lemma split_whitespace_from_token tok s :
  is_empty tok = false -> split_whitespace_from tok s <> [].
Proof.
  revert tok. induction s as [|c t IH]; intros tok Htok; simpl.
  - rewrite Htok. discriminate.
  - destruct (isspace c).
    + rewrite Htok. discriminate.
    + apply IH, snoc_not_empty.
Qed.

Lemma split_whitespace_lstrip s :
  is_empty (lstrip s) = false -> split_whitespace_from EmptyString s <> [].
Proof.
  induction s as [|c t IH]; simpl; intros Hs.
  - discriminate.
  - destruct (isspace c).
    + apply IH, Hs.
    + apply split_whitespace_from_token, snoc_not_empty.
Qed.

Lemma rstrip_empty s : is_empty s = true -> is_empty (rstrip s) = true.
Proof. destruct s; [reflexivity | discriminate]. Qed.

(** A line that [strip] does not empty has a first token. *)
Lemma split_whitespace_nonblank s :
  is_empty (strip s) = false -> exists tok rest, split_whitespace s = tok :: rest.
Proof.
  intros Hs. unfold split_whitespace.
  destruct (split_whitespace_from EmptyString s) as [|tok rest] eqn:E.
  - exfalso. revert E. apply split_whitespace_lstrip.
    destruct (is_empty (lstrip s)) eqn:El; [|reflexivity].
    unfold strip in Hs. rewrite rstrip_empty in Hs by assumption. discriminate.
  - eauto.
Qed.

Lemma lstrip_all_space s :
  is_empty (lstrip s) = true -> split_whitespace_from EmptyString s = [].
Proof.
  induction s as [|c t IH]; simpl; intros Hs.
  - reflexivity.
  - destruct (isspace c); [apply IH, Hs | discriminate].
Qed.

Lemma lstrip_head s c t : lstrip s = String c t -> isspace c = false.
Proof.
  induction s as [|c' t' IH]; simpl; intros Hs.
  - discriminate.
  - destruct (isspace c') eqn:Ec; [apply IH, Hs | congruence].
Qed.

Lemma rstrip_head c t : isspace c = false -> is_empty (rstrip (String c t)) = false.
Proof. intros Hc. simpl. rewrite Hc. destruct (rstrip t); reflexivity. Qed.

(** A blank or white-space-only line has no token at all. *)
Lemma split_whitespace_blank s :
  is_empty (strip s) = true -> split_whitespace s = [].
Proof.
  intros Hs. apply lstrip_all_space.
  destruct (lstrip s) as [|c t] eqn:El; [reflexivity|].
  unfold strip in Hs. rewrite El in Hs.
  rewrite rstrip_head in Hs by (eapply lstrip_head, El). discriminate.
Qed.

Lemma split_by_head p s :
  split_by p s !! 0 = Some (take_while (fun c => negb (p c)) s).
Proof.
  induction s as [|c t IH]; simpl.
  - reflexivity.
  - destruct (p c); simpl; [reflexivity|].
    destruct (split_by p t) as [|h r]; simpl in *; congruence.
Qed.

Lemma append_cons c s r : String c s +:+ r = String c (s +:+ r).
Proof. reflexivity. Qed.

Lemma take_while_split p s :
  exists rest, s = take_while p s +:+ rest
               /\ match rest with
                  | EmptyString => True
                  | String c _ => p c = false
                  end.
Proof.
  induction s as [|c t [rest [Ht Hrest]]]; simpl.
  - exists EmptyString. split; reflexivity.
  - destruct (p c) eqn:Ec.
    + exists rest. split; [rewrite append_cons; f_equal; exact Ht | assumption].
    + exists (String c t). split; [reflexivity | assumption].
Qed.

Lemma take_while_all p s :
  Forall (fun c => p c = true) (list_ascii_of_string (take_while p s)).
Proof.
  induction s as [|c t IH]; simpl.
  - constructor.
  - destruct (p c) eqn:Ec; simpl; [constructor; assumption | constructor].
Qed.

Lemma startswith_hash_cons t : startswith "#" (String "#" t) = true.
Proof.
  unfold startswith. cbn [String.prefix].
  destruct (ascii_dec "#" "#"); [destruct t; reflexivity | congruence].
Qed.

Lemma startswith_hash s : startswith "#" s = true -> exists t, s = String "#" t.
Proof.
  destruct s as [|c t]; [discriminate|]. unfold startswith. cbn [String.prefix].
  destruct (ascii_dec "#" c) as [<-|]; [eauto | discriminate].
Qed.

(** ** List comprehensions *)

Lemma comprehension_map {A B} (f : A -> exn + B) (g : A -> B) xs :
  (forall x, x ∈ xs -> f x = inr (g x)) -> comprehension f xs = inr (map g xs).
Proof.
  induction xs as [|x xs IH]; simpl; intros Hf.
  - reflexivity.
  - rewrite Hf by left. rewrite IH; [reflexivity|].
    intros y Hy. apply Hf. right. exact Hy.
Qed.

Lemma comprehension_fault {A B} (f : A -> exn + B) (e : exn) xs :
  (forall x e', f x = inl e' -> e' = e) ->
  (exists x e', x ∈ xs /\ f x = inl e') ->
  comprehension f xs = inl e.
Proof.
  intros Honly. induction xs as [|x xs IH]; simpl; intros (y & e' & Hy & Hfy).
  - inversion Hy.
  - destruct (f x) as [e0|b] eqn:Ex.
    + f_equal. eapply Honly, Ex.
    + rewrite IH; [reflexivity|].
      inversion Hy; subst; [congruence | eauto].
Qed.

Lemma comprehension_only {A B} (f : A -> exn + B) (e : exn) xs e' :
  (forall x e', f x = inl e' -> e' = e) ->
  comprehension f xs = inl e' -> e' = e.
Proof.
  intros Honly. induction xs as [|x xs IH]; simpl.
  - discriminate.
  - destruct (f x) as [e0|b] eqn:Ex.
    + intros [= <-]. eapply Honly, Ex.
    + destruct (comprehension f xs); [|discriminate].
      intros [= <-]. apply IH. reflexivity.
Qed.

Lemma omap_cons_eq {A B} (f : A -> option B) x xs :
  omap f (x :: xs)
  = match f x with Some y => y :: omap f xs | None => omap f xs end.
Proof. reflexivity. Qed.

Lemma omap_filter_map {A B} (keep : A -> bool) (g : A -> B) xs :
  omap (fun x => if keep x then Some (g x) else None) xs
  = map g (List.filter keep xs).
Proof.
  induction xs as [|x xs IH]; [reflexivity|].
  rewrite omap_cons_eq. simpl. destruct (keep x); simpl; rewrite IH; reflexivity.
Qed.

(** ** Parsing *)

Section Parsing.

Lemma index_fault {A} (xs : list A) i e : index xs i = inl e -> e = IndexError.
Proof. unfold index. destruct (xs !! i); congruence. Qed.

(** The manifest parser never raises, and reads every line on its own. *)
Lemma parse_requirements_lines text :
  parse_requirements text = inr (omap requirement_name (readlines text)).
Proof.
  unfold parse_requirements.
  rewrite (comprehension_map _
             (fun line => take_while (fun c => negb (is_version_operator c)) (strip line))).
  - f_equal. symmetry.
    rewrite <- (omap_filter_map
                  (fun line => negb (is_empty (strip line)) && negb (startswith "#" line))).
    induction (readlines text) as [|line ls IH]; [reflexivity|].
    rewrite !omap_cons_eq, IH. unfold requirement_name.
    destruct (is_empty (strip line)), (startswith "#" line); reflexivity.
  - intros line _. unfold index. rewrite split_by_head. reflexivity.
Qed.

(** The installed-set parser never raises: blank lines are filtered
    before the first token is taken. *)
Lemma installed_packages_lines stdout :
  installed_packages stdout
  = inr (list_to_set
           (omap (fun line => lower <$> split_whitespace line !! 0)
                 (drop 2 (splitlines stdout)))).
Proof.
  unfold installed_packages.
  generalize (drop 2 (splitlines stdout)). intros ls.
  assert (Hc : comprehension
            (fun line =>
               match index (split_whitespace line) 0 with
               | inl e => inl e
               | inr name => inr (lower name)
               end)
            (List.filter (fun line => negb (is_empty (strip line))) ls)
          = inr (omap (fun line => lower <$> split_whitespace line !! 0) ls)).
  { induction ls as [|l ls IH]; [reflexivity|].
    rewrite omap_cons_eq. simpl.
    destruct (is_empty (strip l)) eqn:El; simpl.
    - rewrite (split_whitespace_blank l El). exact IH.
    - destruct (split_whitespace_nonblank l El) as (tok & rest & ->).
      simpl. rewrite IH. reflexivity. }
  rewrite Hc. reflexivity.
Qed.

End Parsing.

(** ** Running the operations *)

Ltac traces := rewrite <- ?app_assoc; reflexivity.

Section Operations.

Context {W : Type} `{Platform W}.

Local Abbreviation calm := (@calm W _).
Local Abbreviation quiet := (@quiet W _).

Lemma outdated_names_header (ls : list string) :
  length ls <= 2 -> outdated_names ls = inr [].
Proof.
  intros Hlen. unfold outdated_names.
  destruct (2 <? length ls) eqn:E; [|reflexivity].
  apply Nat.ltb_lt in E. lia.
Qed.


(** *** Stepping through a computation *)

Lemma bind_inr {A B} (m : M (state W) A) (k : A -> M (state W) B) st a st' :
  m st = (inr a, st') -> bind m k st = k a st'.
Proof. intros Hm. unfold bind. rewrite Hm. reflexivity. Qed.

Lemma bind_inl {A B} (m : M (state W) A) (k : A -> M (state W) B) st e st' :
  m st = (inl e, st') -> bind m k st = (inl e, st').
Proof. intros Hm. unfold bind. rewrite Hm. reflexivity. Qed.

Lemma log_run message (st : state W) :
  log message st
  = (inr tt, State (os st) (stdin st) (trace st ++ [Print ("[INFO] " +:+ message)])).
Proof. reflexivity. Qed.

Lemma Popen_some argv (st : state W) p w :
  spawn (os st) argv = (Some p, w) ->
  Popen argv st = (inr p, State w (stdin st) (trace st ++ [Spawn argv])).
Proof. intros Hspawn. unfold Popen. rewrite Hspawn. reflexivity. Qed.

Lemma Popen_none argv (st : state W) w :
  spawn (os st) argv = (None, w) ->
  Popen argv st = (inl FileNotFoundError, State w (stdin st) (trace st ++ [Spawn argv])).
Proof. intros Hspawn. unfold Popen. rewrite Hspawn. reflexivity. Qed.

(** *** Computations that never call [sys.exit] and never give input back *)

Lemma calm_ret {A} (a : A) : calm (ret a).
Proof. intros st. split; [discriminate | reflexivity]. Qed.

Lemma calm_raise {A} (e : exn) :
  (forall code, e <> SystemExit code) -> calm (raise (A:=A) e).
Proof. intros He st. split; [intros code [= ->]; eapply He; reflexivity | reflexivity]. Qed.

Lemma calm_lift {A} (r : exn + A) :
  (forall e, r = inl e -> e = IndexError) -> calm (lift r).
Proof.
  intros Hr st. split; [|reflexivity].
  intros code Hc. simpl in Hc. apply Hr in Hc. discriminate.
Qed.

Lemma calm_bind {A B} (m : M (state W) A) (k : A -> M (state W) B) :
  calm m -> (forall a, calm (k a)) -> calm (bind m k).
Proof.
  intros Hm Hk st. unfold bind.
  destruct (Hm st) as [Hm1 Hm2]. destruct (m st) as [[e|a] st'] eqn:E; simpl in *.
  - split; [|exact Hm2]. intros code [= ->]. eapply Hm1. reflexivity.
  - destruct (Hk a st') as [Hk1 Hk2]. split; [exact Hk1 | lia].
Qed.

Lemma calm_emit e : calm (emit e).
Proof. intros st. split; [discriminate | reflexivity]. Qed.

Lemma calm_input prompt : calm (input prompt).
Proof.
  intros st. unfold input. destruct (stdin st); simpl; split; try discriminate; lia.
Qed.

Lemma calm_Popen argv : calm (Popen argv).
Proof.
  intros st. unfold Popen. destruct (spawn (os st) argv) as [[p|] w]; simpl;
    split; try discriminate; lia.
Qed.

Lemma calm_run_checked argv : calm (run_checked argv).
Proof.
  apply calm_bind; [apply calm_Popen|]. intros p.
  destruct (returncode p =? 0)%Z; [apply calm_ret | apply calm_raise; discriminate].
Qed.

Lemma calm_os_path_exists path : calm (os_path_exists path).
Proof. intros st. split; [discriminate | reflexivity]. Qed.

Lemma calm_open_read path : calm (open_read path).
Proof.
  intros st. unfold open_read. destruct (read_text (os st) path); simpl;
    split; try discriminate; lia.
Qed.

Lemma calm_open_write path text : calm (open_write path text).
Proof. intros st. split; [discriminate | reflexivity]. Qed.

Lemma calm_os_remove path : calm (os_remove path).
Proof. intros st. split; [discriminate | reflexivity]. Qed.

Lemma calm_requests_get url : calm (requests_get url).
Proof.
  intros st. unfold requests_get. destruct (http_get (os st) url) as [[body| |] w];
    simpl; split; try discriminate; lia.
Qed.

Lemma calm_for_fold {A B} (body : B -> A -> M (state W) B) xs acc :
  (forall b x, calm (body b x)) -> calm (for_fold body xs acc).
Proof.
  intros Hbody. revert acc. induction xs as [|x xs IH]; intros acc; simpl.
  - apply calm_ret.
  - apply calm_bind; [apply Hbody | exact IH].
Qed.

Lemma calm_for_each {A} (body : A -> M (state W) unit) xs :
  (forall x, calm (body x)) -> calm (for_each body xs).
Proof. intros Hbody. apply calm_for_fold. intros _ x. apply Hbody. Qed.

Lemma calm_finally {A} (m : M (state W) A) cleanup :
  calm m -> calm cleanup -> calm (finally m cleanup).
Proof.
  intros Hm Hc st. unfold finally.
  destruct (Hm st) as [Hm1 Hm2]. destruct (m st) as [r st'] eqn:E; simpl in *.
  destruct (Hc st') as [Hc1 Hc2]. destruct (cleanup st') as [[e|u] st''] eqn:E'; simpl in *.
  - split; [|lia]. intros code [= ->]. eapply Hc1. reflexivity.
  - split; [exact Hm1 | lia].
Qed.

Lemma calm_try_except {A} (m : M (state W) A) caught handler :
  calm m -> calm handler -> calm (try_except m caught handler).
Proof.
  intros Hm Hh st. unfold try_except.
  destruct (Hm st) as [Hm1 Hm2]. destruct (m st) as [[e|a] st'] eqn:E; simpl in *.
  - destruct (caught e).
    + destruct (Hh st') as [Hh1 Hh2]. split; [exact Hh1 | lia].
    + split; [exact Hm1 | exact Hm2].
  - split; [discriminate | exact Hm2].
Qed.

Lemma calm_with_tqdm {A} total desc (body : M (state W) A) :
  calm body -> calm (with_tqdm total desc body).
Proof.
  intros Hbody. apply calm_bind; [apply calm_emit|]. intros _.
  apply calm_finally; [exact Hbody | apply calm_emit].
Qed.

Lemma marker_package_fault line e : marker_package line = inl e -> e = IndexError.
Proof.
  unfold marker_package.
  destruct (index (split_char " " line) 1) as [e1|field] eqn:E1.
  - intros [= <-]. eapply index_fault, E1.
  - destruct (index (split_char "[" field) 0) as [e2|name] eqn:E2; [|discriminate].
    intros [= <-]. eapply index_fault, E2.
Qed.

Lemma outdated_names_fault ls e : outdated_names ls = inl e -> e = IndexError.
Proof.
  unfold outdated_names. destruct (2 <? length ls); [|discriminate].
  apply comprehension_only. intros x e'. apply index_fault.
Qed.

Lemma freeze_names_fault ls e :
  comprehension (fun line => index (split_sep "==" line) 0) ls = inl e -> e = IndexError.
Proof. apply comprehension_only. intros x e'. apply index_fault. Qed.

Lemma installed_packages_fault stdout e : installed_packages stdout = inl e -> e = IndexError.
Proof. rewrite installed_packages_lines. discriminate. Qed.

Lemma parse_requirements_fault text e : parse_requirements text = inl e -> e = IndexError.
Proof. rewrite parse_requirements_lines. discriminate. Qed.

Lemma calm_read_local name value : calm (read_local name value).
Proof. destruct value; [apply calm_ret | apply calm_raise; discriminate]. Qed.

End Operations.

Create HintDb calm.

#[global] Hint Resolve calm_ret calm_emit calm_input calm_Popen calm_run_checked
  calm_os_path_exists calm_open_read calm_open_write calm_os_remove
  calm_requests_get calm_read_local : calm.
#[global] Hint Resolve marker_package_fault outdated_names_fault freeze_names_fault
  installed_packages_fault parse_requirements_fault : calm.

(** Walks through a computation built from the combinators above. *)
Ltac calm_step :=
  match goal with
  | |- calm (bind _ _) => apply calm_bind; [|intros ?]
  | |- calm (for_each _ _) => apply calm_for_each; intros ?
  | |- calm (for_fold _ _ _) => apply calm_for_fold; intros ? ?
  | |- calm (with_tqdm _ _ _) => apply calm_with_tqdm
  | |- calm (try_except _ _ _) => apply calm_try_except
  | |- calm (lift _) => apply calm_lift; eauto with calm
  | |- calm (raise _) => apply calm_raise; discriminate
  | |- calm (log _) => apply calm_emit
  | |- calm (print _) => apply calm_emit
  | |- calm (set_description _) => apply calm_emit
  | |- calm (update _) => apply calm_emit
  | |- calm (if ?b then _ else _) => destruct b
  | |- calm (match ?x with Some _ => _ | None => _ end) => destruct x
  | |- calm _ => solve [eauto with calm]
  end.

Ltac calm := repeat calm_step.

Section CalmOperations.

Context {W : Type} `{Platform W}.

Local Abbreviation calm := (@calm W _).
Local Abbreviation quiet := (@quiet W _).

Lemma calm_check_python : calm check_python.
Proof. unfold check_python. calm. Qed.

Lemma calm_download_python : calm download_python.
Proof. unfold download_python. calm. Qed.

Lemma calm_install_python : calm install_python.
Proof. unfold install_python. calm. Qed.

Lemma calm_create_virtual_env venv_name : calm (create_virtual_env venv_name).
Proof. unfold create_virtual_env. calm. Qed.

Lemma calm_ensure_virtual_env venv_name : calm (ensure_virtual_env venv_name).
Proof. unfold ensure_virtual_env. calm. apply calm_create_virtual_env. Qed.

Lemma calm_is_package_installed venv_name package_name :
  calm (is_package_installed venv_name package_name).
Proof. unfold is_package_installed. calm. Qed.

Lemma calm_install_package venv_name package_name :
  calm (install_package venv_name package_name).
Proof. unfold install_package. calm; apply calm_is_package_installed. Qed.

Lemma calm_install_from_requirements venv_name requirements_file :
  calm (install_from_requirements venv_name requirements_file).
Proof. unfold install_from_requirements, watch_batch_install. calm. Qed.

Lemma calm_follow_process marker label process :
  calm (follow_process marker label process).
Proof. unfold follow_process. calm. Qed.

Lemma calm_remove_package venv_name package_name :
  calm (remove_package venv_name package_name).
Proof. unfold remove_package. calm; apply calm_follow_process. Qed.

Lemma calm_remove_all_packages venv_name : calm (remove_all_packages venv_name).
Proof. unfold remove_all_packages. calm; apply calm_follow_process. Qed.

Lemma calm_update_packages venv_name packages :
  calm (update_packages venv_name packages).
Proof. unfold update_packages. calm; apply calm_follow_process. Qed.

Lemma calm_check_for_updates venv_name : calm (check_for_updates venv_name).
Proof. unfold check_for_updates. calm; apply calm_update_packages. Qed.

Lemma calm_check_internet : calm check_internet.
Proof. unfold check_internet. calm. Qed.

#[local] Hint Resolve calm_install_package calm_remove_package
  calm_remove_all_packages calm_install_from_requirements
  calm_check_for_updates : calm.

Lemma calm_menu_dispatch venv_name choice : calm (menu_dispatch venv_name choice).
Proof. unfold menu_dispatch. calm. Qed.

Lemma calm_menu_iteration venv_name : calm (menu_iteration venv_name).
Proof. unfold menu_iteration. calm. apply calm_menu_dispatch. Qed.

(** *** The menu loop ends *)

Lemma menu_iteration_eof venv_name (st : state W) :
  stdin st = [] ->
  menu_iteration venv_name st
  = (inl EOFError, State (os st) [] (trace st ++ menu_events)).
Proof.
  intros Hin. unfold menu_iteration, bind, for_each, print, emit, input. simpl.
  rewrite Hin. f_equal. f_equal. traces.
Qed.

Lemma menu_iteration_choice venv_name (st : state W) line rest :
  stdin st = line :: rest ->
  menu_iteration venv_name st
  = menu_dispatch venv_name (strip line)
      (State (os st) rest (trace st ++ menu_events)).
Proof.
  intros Hin. unfold menu_iteration, bind, for_each, print, emit, input. simpl.
  rewrite Hin. f_equal. f_equal. traces.
Qed.

(** A pass that returns has read its choice. *)
Lemma menu_iteration_reads venv_name (st : state W) go_on :
  fst (menu_iteration venv_name st) = inr go_on ->
  length (stdin (snd (menu_iteration venv_name st))) < length (stdin st).
Proof.
  destruct (stdin st) as [|line rest] eqn:Hin.
  - rewrite (menu_iteration_eof _ _ Hin). discriminate.
  - rewrite (menu_iteration_choice _ _ _ _ Hin). intros _.
    destruct (calm_menu_dispatch venv_name (strip line)
                (State (os st) rest (trace st ++ menu_events))) as [_ Hle].
    simpl in *. lia.
Qed.

Lemma menu_loop_total fuel venv_name (st : state W) :
  length (stdin st) < fuel ->
  exists r st', menu_loop fuel venv_name st = Some (r, st').
Proof.
  revert st. induction fuel as [|fuel IH]; intros st Hfuel; [lia|].
  simpl. pose proof (menu_iteration_reads venv_name st) as Hreads.
  destruct (menu_iteration venv_name st) as [[e|[|]] st']; simpl in *.
  - eauto.
  - apply IH. specialize (Hreads true eq_refl). lia.
  - eauto.
Qed.

Lemma menu_loop_no_exit fuel venv_name (st : state W) code st' :
  menu_loop fuel venv_name st <> Some (inl (SystemExit code), st').
Proof.
  revert st. induction fuel as [|fuel IH]; intros st; simpl; [discriminate|].
  destruct (calm_menu_iteration venv_name st) as [Hne _].
  destruct (menu_iteration venv_name st) as [[e|[|]] st1]; simpl in *.
  - intros [= -> _]. eapply Hne. reflexivity.
  - apply IH.
  - discriminate.
Qed.


(** *** The first steps of [main] *)

Lemma calm_prepare : calm prepare.
Proof.
  unfold prepare. calm;
    first [apply calm_check_python | apply calm_download_python
          | apply calm_install_python].
Qed.

Lemma calm_environment venv_name :
  calm (bind (ensure_virtual_env venv_name) (fun _ => check_for_updates venv_name)).
Proof. calm. apply calm_ensure_virtual_env. Qed.

Lemma session_total fuel venv_name (st : state W) :
  length (stdin st) < fuel ->
  exists r st', session fuel venv_name st = Some (r, st').
Proof.
  intros Hfuel. unfold session.
  destruct (calm_environment venv_name st) as [_ Hin].
  destruct (bind _ _ st) as [[e|u] st1]; simpl in Hin.
  - eauto.
  - apply menu_loop_total. lia.
Qed.

Lemma session_no_exit fuel venv_name (st : state W) code st' :
  session fuel venv_name st <> Some (inl (SystemExit code), st').
Proof.
  unfold session.
  destruct (calm_environment venv_name st) as [Hne _].
  destruct (bind _ _ st) as [[e|u] st1]; simpl in Hne.
  - intros [= -> _]. eapply Hne. reflexivity.
  - apply menu_loop_no_exit.
Qed.

Lemma startup_offline (st : state W) :
  fst (check_internet st) = inr false ->
  exists w, startup st
            = (inl (SystemExit 1), State w (stdin st) (trace st ++ offline_events)).
Proof.
  unfold startup, check_internet, try_except, bind, requests_get, log, print, emit, raise, ret.
  simpl. destruct (http_get (os st) "https://www.google.com") as [[body| |] w]; simpl;
    try discriminate.
  intros _. exists w. f_equal. f_equal. traces.
Qed.

Lemma startup_exit (st : state W) code :
  fst (startup st) = inl (SystemExit code) ->
  fst (check_internet st) = inr false /\ code = 1%Z.
Proof.
  unfold startup, bind.
  destruct (check_internet st) as [[e|[|]] st1] eqn:Eonline; simpl.
  - intros [= ->]. destruct (calm_check_internet st) as [Hne _].
    rewrite Eonline in Hne. exfalso. eapply Hne. reflexivity.
  - intros Hexit. exfalso. destruct (calm_prepare st1) as [Hne _].
    eapply Hne. exact Hexit.
  - unfold log, print, emit, raise. simpl. intros [= <-]. split; reflexivity.
Qed.

Lemma startup_stdin (st : state W) :
  length (stdin (snd (startup st))) <= length (stdin st).
Proof.
  unfold startup, bind.
  destruct (calm_check_internet st) as [_ Hin].
  destruct (check_internet st) as [[e|[|]] st1]; simpl in *; try exact Hin.
  destruct (calm_prepare st1) as [_ Hin']. lia.
Qed.

(** [main] always ends on a finite input: the fuel it takes is enough. *)
Lemma main_total (st : state W) : exists r st', main st = Some (r, st').
Proof.
  unfold main, main_with_fuel.
  pose proof (startup_stdin st) as Hin.
  destruct (startup st) as [[e|venv_name] st1]; simpl in Hin.
  - eauto.
  - apply session_total. lia.
Qed.

(** *** Single operations on given subprocess results *)

Lemma check_for_updates_none venv_name (st : state W) result w :
  spawn (os st) (pip venv_name ["list"; "--outdated"]) = (Some result, w) ->
  length (splitlines (proc_stdout result)) <= 2 ->
  check_for_updates venv_name st
  = (inr tt,
     State w (stdin st)
           (trace st ++ [Print "[INFO] Checking for outdated packages...";
                         Spawn (pip venv_name ["list"; "--outdated"]);
                         Print "[INFO] All packages are up to date."])).
Proof.
  intros Hspawn Hlen.
  unfold check_for_updates, bind, log, print, emit, Popen, lift. simpl.
  rewrite Hspawn. simpl.
  rewrite (outdated_names_header _ Hlen). simpl.
  f_equal. f_equal. traces.
Qed.

Lemma installed_packages_listed stdout :
  installed_packages stdout = inr (list_to_set (lower <$> listed_names stdout)).
Proof.
  rewrite installed_packages_lines. unfold listed_names. do 2 f_equal.
  induction (drop 2 (splitlines stdout)) as [|l ls IH]; [reflexivity|].
  rewrite !omap_cons_eq. destruct (split_whitespace l !! 0); simpl; rewrite IH; reflexivity.
Qed.

Lemma is_package_installed_run venv_name package_name (st : state W) result w :
  spawn (os st) (pip venv_name ["list"]) = (Some result, w) ->
  is_package_installed venv_name package_name st
  = (inr (bool_decide (lower package_name ∈ lower <$> listed_names (proc_stdout result))),
     State w (stdin st) (trace st ++ [Spawn (pip venv_name ["list"])])).
Proof.
  intros Hspawn. unfold is_package_installed, bind, Popen, lift, ret.
  rewrite Hspawn, installed_packages_listed. unfold member. do 2 f_equal.
  apply bool_decide_ext. apply elem_of_list_to_set.
Qed.

Lemma install_package_skip venv_name package_name (st : state W) result w :
  spawn (os st) (pip venv_name ["list"]) = (Some result, w) ->
  lower package_name ∈ lower <$> listed_names (proc_stdout result) ->
  install_package venv_name package_name st
  = (inr tt,
     State w (stdin st)
           (trace st ++ [Spawn (pip venv_name ["list"]);
                         Print ("[INFO] ERROR: " +:+ package_name
                                +:+ " (skipped, already installed)")])).
Proof.
  intros Hspawn Hin. unfold install_package, bind.
  rewrite (is_package_installed_run _ _ _ _ _ Hspawn).
  rewrite bool_decide_eq_true_2 by exact Hin.
  unfold log, print, emit. simpl. f_equal. f_equal. traces.
Qed.


Lemma for_fold_unmatched {A} (body : option string -> A -> M (state W) (option string))
      xs (st : state W) :
  (forall x, x ∈ xs -> forall cur st', body cur x st' = (inr cur, st')) ->
  for_fold body xs None st = (inr None, st).
Proof.
  generalize (@None string) as cur. revert st.
  induction xs as [|x xs IH]; intros st cur Hbody; simpl; [reflexivity|].
  unfold bind. rewrite Hbody by left. apply IH.
  intros y Hy. apply Hbody. right. exact Hy.
Qed.

(** *** Computations that start no subprocess *)

Lemma spawned_app (a b : list event) : spawned (a ++ b) = spawned a ++ spawned b.
Proof. apply omap_app. Qed.

Lemma spawned_Spawn argv events : spawned (Spawn argv :: events) = argv :: spawned events.
Proof. reflexivity. Qed.

Lemma spawned_Print line events : spawned (Print line :: events) = spawned events.
Proof. reflexivity. Qed.

Lemma spawned_nil : spawned [] = [].
Proof. reflexivity. Qed.

Lemma spawned_skipped installed packages :
  spawned (skipped_events installed packages) = [].
Proof.
  unfold skipped_events.
  induction (List.filter _ packages) as [|pkg l IH]; [reflexivity | exact IH].
Qed.

Lemma quiet_ret {A} (a : A) : quiet (ret a).
Proof. intros [w i t]. exists []. simpl. rewrite app_nil_r. split; reflexivity. Qed.

Lemma quiet_raise {A} e : quiet (raise (A:=A) e).
Proof. intros [w i t]. exists []. simpl. rewrite app_nil_r. split; reflexivity. Qed.

Lemma quiet_lift {A} (r : exn + A) : quiet (lift r).
Proof. intros [w i t]. exists []. simpl. rewrite app_nil_r. split; reflexivity. Qed.

Lemma quiet_emit e : spawned [e] = [] -> quiet (emit e).
Proof. intros He st. exists [e]. split; [reflexivity | exact He]. Qed.

Lemma quiet_bind {A B} (m : M (state W) A) (k : A -> M (state W) B) :
  quiet m -> (forall a, quiet (k a)) -> quiet (bind m k).
Proof.
  intros Hm Hk st. unfold bind.
  destruct (Hm st) as (new1 & E1 & S1). destruct (m st) as [[e|a] st1]; simpl in *.
  - eauto.
  - destruct (Hk a st1) as (new2 & E2 & S2). exists (new1 ++ new2).
    rewrite E2, E1. simpl. rewrite app_assoc. split; [reflexivity|].
    rewrite spawned_app, S1, S2. reflexivity.
Qed.

Lemma quiet_for_fold {A B} (body : B -> A -> M (state W) B) xs acc :
  (forall b x, quiet (body b x)) -> quiet (for_fold body xs acc).
Proof.
  intros Hbody. revert acc. induction xs as [|x xs IH]; intros acc; simpl.
  - apply quiet_ret.
  - apply quiet_bind; [apply Hbody | exact IH].
Qed.

Lemma quiet_for_each {A} (body : A -> M (state W) unit) xs :
  (forall x, quiet (body x)) -> quiet (for_each body xs).
Proof. intros Hbody. apply quiet_for_fold. intros _ x. apply Hbody. Qed.

Lemma quiet_finally {A} (m : M (state W) A) cleanup :
  quiet m -> quiet cleanup -> quiet (finally m cleanup).
Proof.
  intros Hm Hc st. unfold finally.
  destruct (Hm st) as (new1 & E1 & S1). destruct (m st) as [r st1]; simpl in *.
  destruct (Hc st1) as (new2 & E2 & S2). exists (new1 ++ new2).
  split; [|rewrite spawned_app, S1, S2; reflexivity].
  destruct (cleanup st1) as [[e|u] st2]; simpl in *;
    rewrite E2, E1; simpl; rewrite app_assoc; reflexivity.
Qed.

Lemma quiet_with_tqdm {A} total desc (body : M (state W) A) :
  quiet body -> quiet (with_tqdm total desc body).
Proof.
  intros Hbody. apply quiet_bind; [apply quiet_emit; reflexivity|]. intros _.
  apply quiet_finally; [exact Hbody | apply quiet_emit; reflexivity].
Qed.

End CalmOperations.

Ltac quiet_step :=
  match goal with
  | |- quiet (bind _ _) => apply quiet_bind; [|intros ?]
  | |- quiet (for_each _ _) => apply quiet_for_each; intros ?
  | |- quiet (for_fold _ _ _) => apply quiet_for_fold; intros ? ?
  | |- quiet (with_tqdm _ _ _) => apply quiet_with_tqdm
  | |- quiet (lift _) => apply quiet_lift
  | |- quiet (ret _) => apply quiet_ret
  | |- quiet (raise _) => apply quiet_raise
  | |- quiet (log _) => apply quiet_emit; reflexivity
  | |- quiet (print _) => apply quiet_emit; reflexivity
  | |- quiet (set_description _) => apply quiet_emit; reflexivity
  | |- quiet (update _) => apply quiet_emit; reflexivity
  | |- quiet (emit _) => apply quiet_emit; reflexivity
  | |- quiet (if ?b then _ else _) => destruct b
  | |- quiet (match ?x with Some _ => _ | None => _ end) => destruct x
  end.

Ltac quiet := repeat quiet_step.

Section QuietOperations.

Context {W : Type} `{Platform W}.

Local Abbreviation calm := (@calm W _).
Local Abbreviation quiet := (@quiet W _).

Lemma quiet_follow_process marker label process :
  quiet (follow_process marker label process).
Proof. unfold follow_process. quiet. Qed.

Lemma for_each_log (f : string -> string) xs (st : state W) :
  for_each (fun x => log (f x)) xs st
  = (inr tt,
     State (os st) (stdin st)
           (trace st ++ map (fun x => Print ("[INFO] " +:+ f x)) xs)).
Proof.
  revert st. induction xs as [|x xs IH]; intros [w i t]; simpl.
  - rewrite app_nil_r. reflexivity.
  - unfold for_each in *. simpl. unfold bind at 1. unfold log at 1, print, emit. simpl.
    rewrite IH. simpl. f_equal. f_equal. traces.
Qed.


Lemma quiet_watch_batch_install process : quiet (watch_batch_install process).
Proof. unfold watch_batch_install. quiet. Qed.

Lemma member_list_to_set x (names : list string) :
  member x (list_to_set names) = bool_decide (x ∈ names).
Proof. unfold member. apply bool_decide_ext, elem_of_list_to_set. Qed.

Lemma install_from_requirements_run venv_name requirements_file (st : state W)
      text packages listing w :
  path_exists (os st) requirements_file = true ->
  read_text (os st) requirements_file = Some text ->
  parse_requirements text = inr packages ->
  packages <> [] ->
  spawn (os st) (pip venv_name ["list"]) = (Some listing, w) ->
  let installed := lower <$> listed_names (proc_stdout listing) in
  let to_install :=
    List.filter (fun pkg => negb (bool_decide (lower pkg ∈ installed))) packages in
  let before :=
    [Print "[INFO] Checking for installed packages before installation...";
     Spawn (pip venv_name ["list"])] ++ skipped_events installed packages in
  (to_install = [] ->
   install_from_requirements venv_name requirements_file st
   = (inr tt,
      State w (stdin st)
            (trace st ++ before ++
             [Print "[INFO] All required packages are already installed. Nothing to install."])))
  /\ (to_install <> [] ->
      exists r w' new,
        install_from_requirements venv_name requirements_file st
        = (r, State w' (stdin st)
                    (trace st ++ before ++
                     [Print ("[INFO] Installing " +:+ str_of_nat (length to_install)
                             +:+ " packages from '" +:+ requirements_file +:+ "'...");
                      Spawn (pip venv_name ["install"; "-r"; requirements_file])] ++ new))
        /\ spawned new = []).
Proof.
  intros Hexists Hread Hparse Hne Hlist installed to_install before.
  unfold install_from_requirements.
  erewrite bind_inr by (unfold os_path_exists; rewrite Hexists; reflexivity).
  cbn [negb].
  erewrite bind_inr by (unfold open_read; rewrite Hread; reflexivity).
  erewrite bind_inr by (unfold lift; rewrite Hparse; reflexivity).
  rewrite bool_decide_eq_false_2 by exact Hne.
  erewrite bind_inr by apply log_run.
  erewrite bind_inr by (apply Popen_some; exact Hlist).
  erewrite bind_inr by (unfold lift; rewrite installed_packages_listed; reflexivity).
  fold installed.
  rewrite (filter_ext (fun pkg => negb (member (lower pkg) (list_to_set installed)))
                      (fun pkg => negb (bool_decide (lower pkg ∈ installed))))
    by (intros pkg; rewrite member_list_to_set; reflexivity).
  rewrite (filter_ext (fun pkg => member (lower pkg) (list_to_set installed))
                      (fun pkg => bool_decide (lower pkg ∈ installed)))
    by (intros pkg; rewrite member_list_to_set; reflexivity).
  fold to_install.
  erewrite bind_inr
    by apply (for_each_log (fun pkg => "INFO: " +:+ pkg +:+ " is already installed (skipping)")).
  cbn [os stdin trace]. split.
  - intros Hnone. rewrite bool_decide_eq_true_2 by exact Hnone.
    rewrite log_run. cbn [os stdin trace]. f_equal. f_equal.
    unfold before, skipped_events. traces.
  - intros Hsome. rewrite bool_decide_eq_false_2 by exact Hsome.
    erewrite bind_inr by apply log_run. cbn [os stdin trace].
    destruct (spawn w (pip venv_name ["install"; "-r"; requirements_file]))
      as [[process|] w'] eqn:Hinstall.
    + erewrite bind_inr by (apply Popen_some; exact Hinstall). cbn [os stdin trace].
      match goal with
      | |- context [watch_batch_install process ?s] =>
          destruct (quiet_watch_batch_install process s) as (new & Hfinal & Hnew);
          destruct (watch_batch_install process s) as [r st'] eqn:E
      end.
      simpl in Hfinal. subst st'. exists r, w', new. split; [|exact Hnew].
      f_equal. f_equal. unfold before, skipped_events. traces.
    + erewrite bind_inl by (apply Popen_none; exact Hinstall). cbn [os stdin trace].
      exists (inl FileNotFoundError), w', []. split; [|reflexivity].
      f_equal. f_equal. unfold before, skipped_events. rewrite app_nil_r. traces.
Qed.


Lemma check_for_updates_fault venv_name (st : state W) result w line :
  spawn (os st) (pip venv_name ["list"; "--outdated"]) = (Some result, w) ->
  line ∈ drop 2 (splitlines (proc_stdout result)) ->
  is_empty (strip line) = true ->
  check_for_updates venv_name st
  = (inl IndexError,
     State w (stdin st)
           (trace st ++ [Print "[INFO] Checking for outdated packages...";
                         Spawn (pip venv_name ["list"; "--outdated"])])).
Proof.
  intros Hspawn Hline Hblank.
  assert (Hnames : outdated_names (splitlines (proc_stdout result)) = inl IndexError).
  { unfold outdated_names.
    destruct (2 <? length (splitlines (proc_stdout result))) eqn:Elen.
    - apply comprehension_fault.
      + intros x e'. apply index_fault.
      + exists line, IndexError. split; [exact Hline|].
        rewrite (split_whitespace_blank _ Hblank). reflexivity.
    - apply Nat.ltb_ge in Elen. rewrite drop_ge in Hline by exact Elen. inversion Hline. }
  unfold check_for_updates.
  erewrite bind_inr by apply log_run.
  erewrite bind_inr by (apply Popen_some; exact Hspawn).
  erewrite bind_inl by (unfold lift; rewrite Hnames; reflexivity).
  cbn [os stdin trace]. f_equal. f_equal. traces.
Qed.

(** *** The environment step *)

Lemma ensure_virtual_env_present venv_name (st : state W) :
  path_exists (os st) venv_name = true ->
  ensure_virtual_env venv_name st = (inr tt, st).
Proof.
  intros Hexists. unfold ensure_virtual_env.
  erewrite bind_inr by (unfold os_path_exists; rewrite Hexists; reflexivity).
  reflexivity.
Qed.

Lemma ensure_virtual_env_absent venv_name (st : state W) :
  path_exists (os st) venv_name = false ->
  ensure_virtual_env venv_name st
  = match spawn (os st) (venv_command venv_name) with
    | (Some p, w) =>
        if (returncode p =? 0)%Z
        then (inr tt,
              State w (stdin st)
                    (trace st ++
                     [Print ("[INFO] Creating virtual environment: " +:+ venv_name +:+ "...");
                      Spawn (venv_command venv_name);
                      Print ("[INFO] Virtual environment '" +:+ venv_name
                             +:+ "' created successfully.")]))
        else (inl (CalledProcessError (returncode p) (venv_command venv_name)),
              State w (stdin st)
                    (trace st ++
                     [Print ("[INFO] Creating virtual environment: " +:+ venv_name +:+ "...");
                      Spawn (venv_command venv_name)]))
    | (None, w) =>
        (inl FileNotFoundError,
         State w (stdin st)
               (trace st ++
                [Print ("[INFO] Creating virtual environment: " +:+ venv_name +:+ "...");
                 Spawn (venv_command venv_name)]))
    end.
Proof.
  intros Habsent. unfold ensure_virtual_env.
  erewrite bind_inr by (unfold os_path_exists; rewrite Habsent; reflexivity).
  cbn [negb]. unfold create_virtual_env.
  erewrite bind_inr by apply log_run.
  unfold run_checked. fold (venv_command venv_name).
  destruct (spawn (os st) (venv_command venv_name)) as [[p|] w] eqn:Hspawn.
  - destruct (returncode p =? 0)%Z eqn:Hcode.
    + erewrite bind_inr
        by (erewrite bind_inr by (apply Popen_some; exact Hspawn);
            rewrite Hcode; reflexivity).
      rewrite log_run. cbn [os stdin trace]. f_equal. f_equal. traces.
    + erewrite bind_inl
        by (erewrite bind_inr by (apply Popen_some; exact Hspawn);
            rewrite Hcode; reflexivity).
      cbn [os stdin trace]. f_equal. f_equal. traces.
  - erewrite bind_inl
      by (erewrite bind_inl by (apply Popen_none; exact Hspawn); reflexivity).
    cbn [os stdin trace]. f_equal. f_equal. traces.
Qed.

End QuietOperations.

(** ** Exit codes and error streams of uninstall and upgrade processes *)

Section ExitCodes.

Context {W : Type} (P : Platform W) (f : list string -> completed -> Z * string).






Lemma for_each_pass {A} (xs : list A) (st : state W) :
  for_each (fun _ => ret tt) xs st = (inr tt, st).
Proof. induction xs as [|x xs IH]; [reflexivity | exact IH]. Qed.








End ExitCodes.

(** ** Progress ticks *)

Section Ticks.

Context {W : Type} `{Platform W}.

Local Abbreviation counted := (@counted W _).

Lemma ticks_app a b : ticks (a ++ b) = ticks a + ticks b.
Proof. unfold ticks. rewrite List.filter_app, length_app. reflexivity. Qed.

Lemma counted_eq {A} n n' (m : M (state W) A) : n = n' -> counted n m -> counted n' m.
Proof. intros ->. exact id. Qed.

Lemma counted_ret {A} (a : A) : counted 0 (ret a).
Proof. intros st. exists []. simpl. rewrite app_nil_r. split; reflexivity. Qed.

Lemma counted_raise {A} n e : counted n (raise (A:=A) e).
Proof. intros st. exists []. simpl. rewrite app_nil_r. split; [reflexivity | discriminate]. Qed.

Lemma counted_lift {A} (r : exn + A) : counted 0 (lift r).
Proof. intros st. exists []. simpl. rewrite app_nil_r. split; reflexivity. Qed.

Lemma counted_emit e : counted (ticks [e]) (emit e).
Proof. intros st. exists [e]. split; reflexivity. Qed.


Lemma counted_bind {A B} n n' (m : M (state W) A) (k : A -> M (state W) B) :
  counted n m -> (forall a, counted n' (k a)) -> counted (n + n') (bind m k).
Proof.
  intros Hm Hk st. unfold bind.
  destruct (Hm st) as (new1 & E1 & T1). destruct (m st) as [[e|a] st1]; simpl in *.
  - exists new1. split; [exact E1 | discriminate].
  - destruct (Hk a st1) as (new2 & E2 & T2). exists (new1 ++ new2).
    rewrite E2, E1, app_assoc. split; [reflexivity|].
    intros b Hb. rewrite ticks_app, (T1 a eq_refl), (T2 b Hb). reflexivity.
Qed.

Lemma counted_for_each {A} c (body : A -> M (state W) unit) xs :
  (forall x, counted c (body x)) -> counted (length xs * c) (for_each body xs).
Proof.
  intros Hbody. unfold for_each. generalize tt.
  induction xs as [|x xs IH]; intros u; simpl.
  - apply counted_ret.
  - apply counted_bind; [apply Hbody | exact IH].
Qed.

Lemma counted_finally {A} n (m : M (state W) A) cleanup :
  counted n m -> counted 0 cleanup -> counted n (finally m cleanup).
Proof.
  intros Hm Hc st. unfold finally.
  destruct (Hm st) as (new1 & E1 & T1). destruct (m st) as [r st1]; simpl in *.
  destruct (Hc st1) as (new2 & E2 & T2). exists (new1 ++ new2).
  destruct (cleanup st1) as [[e|u] st2]; simpl in *;
    rewrite E2, E1, app_assoc; (split; [reflexivity|]).
  - discriminate.
  - intros a Ha. rewrite ticks_app, (T1 a Ha), (T2 u eq_refl). lia.
Qed.

Lemma counted_with_tqdm {A} n total desc (body : M (state W) A) :
  counted n body -> counted n (with_tqdm total desc body).
Proof.
  intros Hbody. unfold with_tqdm.
  apply (counted_bind 0 n); [apply (counted_emit (TqdmOpen total desc))|]. intros _.
  apply counted_finally; [exact Hbody | apply (counted_emit TqdmClose)].
Qed.



Lemma counted_log n message (m : M (state W) unit) :
  counted n m ->
  forall st, fst (bind m (fun _ => log message) st) = inr tt ->
  exists new,
    trace (snd (bind m (fun _ => log message) st))
    = trace st ++ new ++ [Print ("[INFO] " +:+ message)]
    /\ ticks new = n.
Proof.
  intros Hm st. unfold bind.
  destruct (Hm st) as (new & E & T). destruct (m st) as [[e|[]] st1]; simpl in *.
  - discriminate.
  - intros _. exists new. rewrite E, app_assoc. split; [reflexivity | apply (T tt eq_refl)].
Qed.


Lemma comprehension_length {A B} (f : A -> exn + B) xs ys :
  comprehension f xs = inr ys -> length ys = length xs.
Proof.
  revert ys. induction xs as [|x xs IH]; simpl; intros ys.
  - intros [= <-]. reflexivity.
  - destruct (f x); [discriminate|]. destruct (comprehension f xs); [discriminate|].
    intros [= <-]. simpl. f_equal. apply IH. reflexivity.
Qed.



End Ticks.

(** ** Error paths of the menu *)

Section Menu.

Context {W : Type} `{Platform W}.

Lemma bind_returns {A B} (m : M (state W) A) (k : A -> M (state W) B) st b :
  fst (bind m k st) = inr b ->
  exists a st', m st = (inr a, st') /\ fst (k a st') = inr b.
Proof.
  unfold bind. destruct (m st) as [[e|a] st']; simpl; [discriminate|]. eauto.
Qed.

(** Only choice 8 leaves the loop: whatever else was chosen, a pass
    that returns goes on to the next one. *)
Lemma menu_dispatch_goes_on venv_name choice (st : state W) go_on :
  fst (menu_dispatch venv_name choice st) = inr go_on ->
  go_on = negb (String.eqb choice "8").
Proof.
  unfold menu_dispatch. intros Hret.
  repeat match type of Hret with
         | context [if String.eqb choice ?c then _ else _] =>
             destruct (String.eqb_spec choice c) as [->|?]
         end;
    repeat match type of Hret with
           | fst (bind _ _ _) = inr _ =>
               apply bind_returns in Hret as (? & ? & _ & Hret)
           end;
    simpl in Hret; injection Hret as <-; reflexivity.
Qed.

Lemma menu_dispatch_invalid venv_name choice (st : state W) :
  choice ∉ choices ->
  menu_dispatch venv_name choice st
  = (inr true,
     State (os st) (stdin st)
           (trace st ++ [Print "[INFO] Invalid choice. Please enter a number between 1 and 8."])).
Proof.
  intros Hbad. unfold menu_dispatch.
  repeat match goal with
         | |- context [if String.eqb choice ?c then _ else _] =>
             destruct (String.eqb_spec choice c) as [->|_];
               [exfalso; apply Hbad; unfold choices; set_solver|]
         end.
  reflexivity.
Qed.

Lemma install_from_requirements_missing venv_name requirements_file (st : state W) :
  path_exists (os st) requirements_file = false ->
  install_from_requirements venv_name requirements_file st
  = (inr tt,
     State (os st) (stdin st)
           (trace st ++ [Print ("[INFO] ERROR: '" +:+ requirements_file +:+ "' not found.")])).
Proof.
  intros Hmissing. unfold install_from_requirements.
  erewrite bind_inr by (unfold os_path_exists; rewrite Hmissing; reflexivity).
  reflexivity.
Qed.

Lemma install_from_requirements_empty venv_name requirements_file (st : state W) text :
  path_exists (os st) requirements_file = true ->
  read_text (os st) requirements_file = Some text ->
  parse_requirements text = inr [] ->
  install_from_requirements venv_name requirements_file st
  = (inr tt,
     State (os st) (stdin st)
           (trace st ++ [Print "[INFO] No valid packages found in requirements.txt."])).
Proof.
  intros Hexists Hread Hparse. unfold install_from_requirements.
  erewrite bind_inr by (unfold os_path_exists; rewrite Hexists; reflexivity).
  cbn [negb].
  erewrite bind_inr by (unfold open_read; rewrite Hread; reflexivity).
  erewrite bind_inr by (unfold lift; rewrite Hparse; reflexivity).
  destruct st; reflexivity.
Qed.

(** After a successful connectivity check [main] never ends in
    [SystemExit]. *)
Lemma main_exit (st : state W) code st' :
  main st = Some (inl (SystemExit code), st') ->
  fst (check_internet st) = inr false /\ code = 1%Z.
Proof.
  unfold main, main_with_fuel. intros Hmain.
  destruct (startup st) as [[e|venv_name] st1] eqn:Estart.
  - injection Hmain as -> _. apply startup_exit. rewrite Estart. reflexivity.
  - exfalso. eapply session_no_exit, Hmain.
Qed.

Lemma main_offline (st : state W) :
  fst (check_internet st) = inr false ->
  exists w, main st = Some (inl (SystemExit 1),
                            State w (stdin st) (trace st ++ offline_events)).
Proof.
  intros Hoff. destruct (startup_offline st Hoff) as (w & Estart).
  exists w. unfold main, main_with_fuel. rewrite Estart. reflexivity.
Qed.

End Menu.

(** ** Which subprocesses a session starts *)

Section Subprocesses.

Context {W : Type} `{Platform W}.

Local Abbreviation only_pip := (@only_pip W _).
Local Abbreviation quiet := (@quiet W _).

Lemma only_pip_quiet {A} (m : M (state W) A) : quiet m -> only_pip m.
Proof.
  intros Hm st. destruct (Hm st) as (new & E & S). exists new.
  rewrite E, S. split; reflexivity.
Qed.

Lemma only_pip_still {A} (m : M (state W) A) :
  (forall st, trace (snd (m st)) = trace st) -> only_pip m.
Proof. intros Hm st. exists []. rewrite Hm, app_nil_r. split; reflexivity. Qed.

Lemma only_pip_input prompt : only_pip (input prompt).
Proof.
  intros st. exists [Prompt prompt]. unfold input.
  destruct (stdin st); split; reflexivity.
Qed.

Lemma only_pip_Popen argv : is_pip argv = true -> only_pip (Popen argv).
Proof.
  intros Hpip st. exists [Spawn argv]. unfold Popen.
  destruct (spawn (os st) argv) as [[p|] w]; (split; [reflexivity|]);
    rewrite spawned_Spawn; simpl; rewrite Hpip; reflexivity.
Qed.

Lemma only_pip_bind {A B} (m : M (state W) A) (k : A -> M (state W) B) :
  only_pip m -> (forall a, only_pip (k a)) -> only_pip (bind m k).
Proof.
  intros Hm Hk st. unfold bind.
  destruct (Hm st) as (new1 & E1 & S1). destruct (m st) as [[e|a] st1]; simpl in *.
  - eauto.
  - destruct (Hk a st1) as (new2 & E2 & S2). exists (new1 ++ new2).
    rewrite E2, E1, app_assoc. split; [reflexivity|].
    rewrite spawned_app, forallb_app, S1, S2. reflexivity.
Qed.

Lemma only_pip_for_each {A} (body : A -> M (state W) unit) xs :
  (forall x, only_pip (body x)) -> only_pip (for_each body xs).
Proof.
  intros Hbody. unfold for_each. generalize tt.
  induction xs as [|x xs IH]; intros u; simpl.
  - apply only_pip_quiet, quiet_ret.
  - apply only_pip_bind; [apply Hbody | exact IH].
Qed.

Lemma only_pip_with_tqdm {A} total desc (body : M (state W) A) :
  only_pip body -> only_pip (with_tqdm total desc body).
Proof.
  intros Hbody. apply only_pip_bind; [apply only_pip_quiet, quiet_emit; reflexivity|].
  intros _ st. unfold finally.
  destruct (Hbody st) as (new & E & S). destruct (body st) as [r st1]; simpl in *.
  exists (new ++ [TqdmClose]). rewrite E, app_assoc. split; [reflexivity|].
  rewrite spawned_app, forallb_app, S. reflexivity.
Qed.

End Subprocesses.

Ltac only_pip_step :=
  match goal with
  | |- only_pip (bind _ _) => apply only_pip_bind; [|intros ?]
  | |- only_pip (for_each _ _) => apply only_pip_for_each; intros ?
  | |- only_pip (with_tqdm _ _ _) => apply only_pip_with_tqdm
  | |- only_pip (Popen (pip _ _)) => apply only_pip_Popen; reflexivity
  | |- only_pip (input _) => apply only_pip_input
  | |- only_pip (follow_process _ _ _) => apply only_pip_quiet, quiet_follow_process
  | |- only_pip (watch_batch_install _) => apply only_pip_quiet, quiet_watch_batch_install
  | |- only_pip (os_path_exists _) => apply only_pip_still; reflexivity
  | |- only_pip (open_write _ _) => apply only_pip_still; reflexivity
  | |- only_pip (open_read _) =>
      apply only_pip_still; intros ?; unfold open_read;
      destruct (read_text _ _); reflexivity
  | |- only_pip (if ?b then _ else _) => destruct b
  | |- only_pip _ => apply only_pip_quiet; solve [quiet]
  end.

Ltac only_pip := repeat only_pip_step.

Section SessionSubprocesses.

Context {W : Type} `{Platform W}.

Local Abbreviation only_pip := (@only_pip W _).

Lemma only_pip_install_package venv_name package_name :
  only_pip (install_package venv_name package_name).
Proof. unfold install_package, is_package_installed, read_local. only_pip. Qed.

Lemma only_pip_install_from_requirements venv_name requirements_file :
  only_pip (install_from_requirements venv_name requirements_file).
Proof. unfold install_from_requirements. only_pip. Qed.

Lemma only_pip_remove_package venv_name package_name :
  only_pip (remove_package venv_name package_name).
Proof. unfold remove_package. only_pip. Qed.

Lemma only_pip_remove_all_packages venv_name : only_pip (remove_all_packages venv_name).
Proof. unfold remove_all_packages. only_pip. Qed.

Lemma only_pip_update_packages venv_name packages :
  only_pip (update_packages venv_name packages).
Proof. unfold update_packages. only_pip. Qed.

Lemma only_pip_check_for_updates venv_name : only_pip (check_for_updates venv_name).
Proof. unfold check_for_updates. only_pip. apply only_pip_update_packages. Qed.

Lemma only_pip_menu_dispatch venv_name choice : only_pip (menu_dispatch venv_name choice).
Proof.
  unfold menu_dispatch. only_pip;
    first [apply only_pip_install_package | apply only_pip_remove_package
          | apply only_pip_remove_all_packages | apply only_pip_install_from_requirements
          | apply only_pip_check_for_updates].
Qed.

Lemma only_pip_menu_iteration venv_name : only_pip (menu_iteration venv_name).
Proof. unfold menu_iteration. only_pip. apply only_pip_menu_dispatch. Qed.

Lemma menu_loop_only_pip fuel venv_name (st : state W) r st' :
  menu_loop fuel venv_name st = Some (r, st') ->
  exists new, trace st' = trace st ++ new /\ forallb is_pip (spawned new) = true.
Proof.
  revert st. induction fuel as [|fuel IH]; intros st; simpl; [discriminate|].
  destruct (only_pip_menu_iteration venv_name st) as (new1 & E1 & S1).
  destruct (menu_iteration venv_name st) as [[e|[|]] st1]; simpl in E1.
  - intros [= <- <-]. eauto.
  - intros Hloop. destruct (IH _ Hloop) as (new2 & E2 & S2).
    exists (new1 ++ new2). rewrite E2, E1, app_assoc. split; [reflexivity|].
    rewrite spawned_app, forallb_app, S1, S2. reflexivity.
  - intros [= <- <-]. eauto.
Qed.

Lemma pip_is_no_creation venv_name (commands : list (list string)) :
  forallb is_pip commands = true ->
  List.filter (fun argv => bool_decide (argv = venv_command venv_name)) commands = [].
Proof.
  induction commands as [|argv commands IH]; simpl; [reflexivity|].
  intros Hall. apply andb_true_iff in Hall as [Hpip Hrest].
  rewrite bool_decide_eq_false_2; [exact (IH Hrest)|].
  intros ->. discriminate Hpip.
Qed.

(** After the environment step a session starts the package manager
    and nothing else. *)
Lemma session_spawned fuel venv_name (st : state W) r st' :
  session fuel venv_name st = Some (r, st') ->
  exists new rest,
    trace st' = trace st ++ new
    /\ spawned new
       = (if path_exists (os st) venv_name then [] else [venv_command venv_name]) ++ rest
    /\ forallb is_pip rest = true.
Proof.
  unfold session. intros Hsession.
  assert (Hafter : forall st1 new1,
             trace st1 = trace st ++ new1 ->
             match check_for_updates venv_name st1 with
             | (inr _, st2) => menu_loop fuel venv_name st2
             | (inl e, st2) => Some (inl e, st2)
             end = Some (r, st') ->
             exists rest,
               trace st' = trace st ++ new1 ++ rest
               /\ forallb is_pip (spawned rest) = true).
  { intros st1 new1 E1 Hrest.
    destruct (only_pip_check_for_updates venv_name st1) as (new2 & E2 & S2).
    destruct (check_for_updates venv_name st1) as [[e|u] st2]; simpl in E2.
    - injection Hrest as <- <-. exists new2. rewrite E2, E1, app_assoc. eauto.
    - destruct (menu_loop_only_pip _ _ _ _ _ Hrest) as (new3 & E3 & S3).
      exists (new2 ++ new3). rewrite E3, E2, E1, !app_assoc. split; [reflexivity|].
      rewrite spawned_app, forallb_app, S2, S3. reflexivity. }
  unfold bind in Hsession.
  destruct (path_exists (os st) venv_name) eqn:Hexists.
  - rewrite (ensure_virtual_env_present _ _ Hexists) in Hsession.
    destruct (Hafter st [] ltac:(rewrite app_nil_r; reflexivity) Hsession)
      as (rest & Etrace & Hrest).
    exists rest, (spawned rest). split; [exact Etrace|]. split; [reflexivity | exact Hrest].
  - rewrite (ensure_virtual_env_absent _ _ Hexists) in Hsession.
    destruct (spawn (os st) (venv_command venv_name)) as [[p|] w].
    + destruct (returncode p =? 0)%Z.
      * eapply Hafter in Hsession; [|cbn [trace]; reflexivity].
        destruct Hsession as (rest & Etrace & Hrest).
        eexists _, (spawned rest). split; [exact Etrace|].
        split; [|exact Hrest].
        rewrite spawned_app, spawned_Print, spawned_Spawn, spawned_Print. reflexivity.
      * injection Hsession as <- <-. eexists _, []. split; [reflexivity|].
        split; reflexivity.
    + injection Hsession as <- <-. eexists _, []. split; [reflexivity|].
      split; reflexivity.
Qed.

End SessionSubprocesses.

(** * The properties of the specification *)

Section Claims.

Context {W : Type} `{Platform W}.

(** C2.  In [install_package], when no line of the output of
    [pip install] matches [Collecting <name>], the variable
    [current_package] is never assigned, and reading it for the final
    label raises [UnboundLocalError] (a [NameError]), whatever the exit
    status of the subprocess: the label is not updated. *)
Theorem install_package_unbound venv_name package_name (st : state W)
        listing w process w' :
  spawn (os st) (pip venv_name ["list"]) = (Some listing, w) ->
  lower package_name ∉ lower <$> listed_names (proc_stdout listing) ->
  spawn w (pip venv_name ["install"; package_name]) = (Some process, w') ->
  (forall line, line ∈ readlines (proc_stdout process) ->
                search_collecting (strip line) = None) ->
  install_package venv_name package_name st
  = (inl (UnboundLocalError "current_package"),
     State w' (stdin st)
           (trace st ++ [Spawn (pip venv_name ["list"]);
                         Print ("[INFO] Installing: " +:+ package_name +:+ "...");
                         Spawn (pip venv_name ["install"; package_name]);
                         TqdmOpen None ("Installing " +:+ package_name);
                         TqdmClose])).
Proof.
  intros Hlist Hnew Hinstall Hquiet. unfold install_package.
  erewrite bind_inr by (apply is_package_installed_run; exact Hlist).
  rewrite bool_decide_eq_false_2 by exact Hnew.
  erewrite bind_inr by apply log_run.
  erewrite bind_inr by (apply Popen_some; exact Hinstall).
  erewrite bind_inr.
  2: { unfold with_tqdm. erewrite bind_inr by reflexivity.
       unfold finally. rewrite for_fold_unmatched; [reflexivity|].
       intros line Hline cur st'. rewrite (Hquiet line Hline). reflexivity. }
  cbn [os stdin trace].
  destruct (returncode process =? 0)%Z; (erewrite bind_inl by reflexivity);
    f_equal; f_equal; traces.
Qed.

(** C5.  When the lower-cased name of the requested package equals the
    lower-cased first token of a line that [pip list] prints after its
    two header lines, [install_package] logs the skip message and
    returns: the list query is the only subprocess it starts. *)
Theorem install_package_already_installed venv_name package_name (st : state W)
        listing w name :
  spawn (os st) (pip venv_name ["list"]) = (Some listing, w) ->
  name ∈ listed_names (proc_stdout listing) ->
  lower name = lower package_name ->
  install_package venv_name package_name st
  = (inr tt,
     State w (stdin st)
           (trace st ++ [Spawn (pip venv_name ["list"]);
                         Print ("[INFO] ERROR: " +:+ package_name
                                +:+ " (skipped, already installed)")])).
Proof.
  intros Hlist Hname Hlower. apply (install_package_skip _ _ _ _ _ Hlist).
  rewrite <- Hlower. apply list_elem_of_fmap_2, Hname.
Qed.

(** C7.  When [pip list --outdated] prints its two header lines and
    nothing else, [check_for_updates] logs that all packages are up to
    date and returns: it reads no input and starts no other
    subprocess. *)
Theorem check_for_updates_header_only venv_name (st : state W) result w :
  spawn (os st) (pip venv_name ["list"; "--outdated"]) = (Some result, w) ->
  length (splitlines (proc_stdout result)) = 2 ->
  check_for_updates venv_name st
  = (inr tt,
     State w (stdin st)
           (trace st ++ [Print "[INFO] Checking for outdated packages...";
                         Spawn (pip venv_name ["list"; "--outdated"]);
                         Print "[INFO] All packages are up to date."])).
Proof.
  intros Hspawn Hlen. apply (check_for_updates_none _ _ _ _ Hspawn). lia.
Qed.

(** C8 (amended).  The environment step of [main] asks
    [os.path.exists], not whether [E] is a directory.  When no path
    [E] exists it starts [python -m venv E] exactly once, reads no
    input, and leaves the file system as that command left it, so a
    directory [E] exists afterwards exactly when the command made one.
    The step returns when the command exits with status 0; it raises
    [CalledProcessError] when the command exits with another status
    and [FileNotFoundError] when [python] cannot be started, and only
    a step that returns logs that the environment was created.  When
    a path [E] exists, the step starts nothing and changes nothing; a
    directory is such a path, and so is a regular file named [E].
    Nothing that [main] does after this step starts that command: from
    the step to the end of the run it is started once when [E] was
    absent and never when [E] was there. *)
Theorem ensure_virtual_env_once venv_name (st : state W) :
  (path_exists (os st) venv_name = false ->
   exists r st' new,
     ensure_virtual_env venv_name st = (r, st')
     /\ trace st' = trace st ++ new
     /\ spawned new = [venv_command venv_name]
     /\ stdin st' = stdin st
     /\ os st' = snd (spawn (os st) (venv_command venv_name))
     /\ r = match fst (spawn (os st) (venv_command venv_name)) with
            | Some p =>
                if (returncode p =? 0)%Z then inr tt
                else inl (CalledProcessError (returncode p) (venv_command venv_name))
            | None => inl FileNotFoundError
            end
     /\ (Print ("[INFO] Virtual environment '" +:+ venv_name
                +:+ "' created successfully.") ∈ new
         <-> r = inr tt))
  /\ (path_exists (os st) venv_name = true ->
      ensure_virtual_env venv_name st = (inr tt, st))
  /\ (forall isdir : W -> string -> bool,
         (forall w path, isdir w path = true -> path_exists w path = true) ->
         isdir (os st) venv_name = true ->
         ensure_virtual_env venv_name st = (inr tt, st))
  /\ (forall fuel r st',
         session fuel venv_name st = Some (r, st') ->
         exists new,
           trace st' = trace st ++ new
           /\ creations venv_name new
              = if path_exists (os st) venv_name then 0 else 1).
Proof.
  split; [|split; [|split]].
  - intros Habsent. rewrite (ensure_virtual_env_absent _ _ Habsent).
    destruct (spawn (os st) (venv_command venv_name)) as [[p|] w] eqn:Hspawn;
      [destruct (returncode p =? 0)%Z eqn:Hcode|];
      do 3 eexists; (split; [reflexivity|]); (split; [reflexivity|]);
      (split; [reflexivity|]); (split; [reflexivity|]); (split; [reflexivity|]);
      cbn [fst]; rewrite ?Hcode; (split; [reflexivity|]).
    + split; [reflexivity|]. intros _.
      do 2 (apply elem_of_cons; right). apply elem_of_cons. left. reflexivity.
    + split; [|discriminate]. intros Hin.
      apply elem_of_cons in Hin as [Hin|Hin]; [discriminate Hin|].
      apply elem_of_cons in Hin as [Hin|Hin]; [discriminate Hin|].
      inversion Hin.
    + split; [|discriminate]. intros Hin.
      apply elem_of_cons in Hin as [Hin|Hin]; [discriminate Hin|].
      apply elem_of_cons in Hin as [Hin|Hin]; [discriminate Hin|].
      inversion Hin.
  - apply ensure_virtual_env_present.
  - intros isdir Hdir Hthere. apply ensure_virtual_env_present, Hdir, Hthere.
  - intros fuel r st' Hsession.
    destruct (session_spawned _ _ _ _ _ Hsession) as (new & rest & Etrace & Espawned & Hrest).
    exists new. split; [exact Etrace|].
    unfold creations. rewrite Espawned, List.filter_app, length_app.
    rewrite (pip_is_no_creation _ _ Hrest), Nat.add_0_r.
    destruct (path_exists (os st) venv_name); [reflexivity|].
    simpl. rewrite bool_decide_eq_true_2 by reflexivity. reflexivity.
Qed.

(** C9.  When a line after the two header lines of
    [pip list --outdated] is empty or all white space,
    [check_for_updates] raises [IndexError] on the first token of that
    line; the parser of [pip list] drops such lines first and returns
    a set for every output. *)
Theorem blank_line_in_listing venv_name (st : state W) result w line :
  spawn (os st) (pip venv_name ["list"; "--outdated"]) = (Some result, w) ->
  2 < length (splitlines (proc_stdout result)) ->
  line ∈ drop 2 (splitlines (proc_stdout result)) ->
  is_empty (strip line) = true ->
  fst (check_for_updates venv_name st) = inl IndexError
  /\ (forall stdout, exists names, installed_packages stdout = inr names)
  /\ (forall package_name listing w',
         spawn (os st) (pip venv_name ["list"]) = (Some listing, w') ->
         exists answer, fst (is_package_installed venv_name package_name st) = inr answer).
Proof.
  intros Hspawn _ Hline Hblank. split; [|split].
  - rewrite (check_for_updates_fault _ _ _ _ _ Hspawn Hline Hblank). reflexivity.
  - intros stdout. rewrite installed_packages_lines. eauto.
  - intros package_name listing w' Hlist.
    rewrite (is_package_installed_run _ _ _ _ _ Hlist). eauto.
Qed.

(** C3.  In [install_from_requirements] on an existing manifest: with
    the names [a], [b], [c], of which [b] is installed and [a] or [c]
    is not, the operation logs [b] as already installed and starts,
    after the list query, exactly one subprocess,
    [pip install -r <manifest>] on the path it was given; and whenever
    all names of a manifest are installed it logs that and returns
    after the list query alone. *)
Theorem install_from_requirements_batch venv_name requirements_file (st : state W)
        text packages listing w :
  path_exists (os st) requirements_file = true ->
  read_text (os st) requirements_file = Some text ->
  parse_requirements text = inr packages ->
  spawn (os st) (pip venv_name ["list"]) = (Some listing, w) ->
  let installed := lower <$> listed_names (proc_stdout listing) in
  exists r st' new,
    install_from_requirements venv_name requirements_file st = (r, st')
    /\ trace st' = trace st ++ new
    /\ (packages = ["a"; "b"; "c"] -> "b" ∈ installed ->
        "a" ∉ installed \/ "c" ∉ installed ->
        Print "[INFO] INFO: b is already installed (skipping)" ∈ new
        /\ spawned new = [pip venv_name ["list"];
                          pip venv_name ["install"; "-r"; requirements_file]])
    /\ (packages <> [] -> Forall (fun pkg => lower pkg ∈ installed) packages ->
        r = inr tt
        /\ spawned new = [pip venv_name ["list"]]
        /\ last new
           = Some (Print "[INFO] All required packages are already installed. Nothing to install.")).
Proof.
  intros Hexists Hread Hparse Hlist installed.
  destruct (decide (packages = [])) as [->|Hne].
  - rewrite (install_from_requirements_empty _ _ _ _ Hexists Hread Hparse).
    do 3 eexists. split; [reflexivity|]. split; [reflexivity|].
    split; [discriminate | congruence].
  - destruct (install_from_requirements_run _ _ _ _ _ _ _ Hexists Hread Hparse Hne Hlist)
      as [Hnone Hsome]. fold installed in Hnone, Hsome.
    destruct (decide (List.filter
                        (fun pkg => negb (bool_decide (lower pkg ∈ installed))) packages = []))
      as [Hall|Hleft].
    + rewrite (Hnone Hall). do 3 eexists. split; [reflexivity|]. split; [reflexivity|].
      split.
      * intros -> Hb [Ha|Hc]; exfalso; revert Hall; simpl;
          repeat case_bool_decide; simpl; try discriminate; tauto.
      * intros _ _. split; [reflexivity|]. split.
        -- rewrite !spawned_app, !spawned_Print, spawned_Spawn, spawned_nil,
             spawned_skipped.
           reflexivity.
        -- apply last_snoc.
    + destruct (Hsome Hleft) as (r & w' & new & Hrun & Hquiet). rewrite Hrun.
      do 3 eexists. split; [reflexivity|]. split; [reflexivity|].
      split.
      * intros -> Hb _. split.
        -- apply elem_of_app. left. apply elem_of_app. right.
           unfold skipped_events. apply list_elem_of_In.
           apply (in_map
                    (fun pkg => Print ("[INFO] INFO: " +:+ pkg
                                       +:+ " is already installed (skipping)"))
                    _ "b").
           apply filter_In. split; [simpl; tauto|].
           apply bool_decide_eq_true_2. exact Hb.
        -- rewrite !spawned_app, !spawned_Print, !spawned_Spawn, spawned_nil,
             spawned_skipped, Hquiet.
           reflexivity.
      * intros _ Hall. exfalso. apply Hleft.
        clear -Hall. induction Hall as [|pkg l Hpkg _ IH]; [reflexivity|].
        simpl. rewrite (bool_decide_eq_true_2 _ Hpkg). exact IH.
Qed.


(** C6.  Every line of a manifest gives at most one package name, and
    parsing never fails.  The line [foo>=1.2.3] gives [foo]; a line
    [# comment] and an empty line give nothing.  A name is the stripped
    line up to its first [=], [<] or [>]. *)
Theorem manifest_line_names :
  (forall text, parse_requirements text = inr (omap requirement_name (readlines text)))
  /\ requirement_name "foo>=1.2.3" = Some "foo"
  /\ requirement_name "# comment" = None
  /\ requirement_name "" = None
  /\ parse_requirements
       ("foo>=1.2.3" +:+ String LF "# comment" +:+ String LF (String LF ""))
     = inr ["foo"]
  /\ (forall line name,
         requirement_name line = Some name ->
         exists rest,
           strip line = name +:+ rest
           /\ Forall (fun c => is_version_operator c = false) (list_ascii_of_string name)
           /\ match rest with
              | EmptyString => True
              | String c _ => is_version_operator c = true
              end).
Proof.
  split; [exact parse_requirements_lines|].
  repeat split; try reflexivity.
  intros line name. unfold requirement_name.
  destruct (is_empty (strip line) || startswith "#" line); [discriminate|].
  intros [= <-].
  destruct (take_while_split (fun c => negb (is_version_operator c)) (strip line))
    as (rest & Hsplit & Hrest).
  exists rest. split; [exact Hsplit|]. split.
  - eapply Forall_impl; [apply take_while_all|].
    intros c Hc. simpl in Hc. apply negb_true_iff in Hc. exact Hc.
  - destruct rest; [exact I|]. apply negb_false_iff in Hrest. exact Hrest.
Qed.

(** C10.  A manifest line whose comment marker comes after leading
    white space is not skipped: the test for the marker looks at the
    raw line, so the line gives a name, and the name begins with the
    marker. *)
Theorem indented_comment_is_parsed text line :
  line ∈ readlines text ->
  startswith "#" line = false ->
  startswith "#" (strip line) = true ->
  exists names name,
    parse_requirements text = inr names
    /\ name ∈ names
    /\ requirement_name line = Some name
    /\ startswith "#" name = true.
Proof.
  intros Hline Hraw Hstripped.
  assert (Hname : requirement_name line
                  = Some (take_while (fun c => negb (is_version_operator c)) (strip line))).
  { unfold requirement_name. rewrite Hraw.
    destruct (strip line); [discriminate | reflexivity]. }
  do 2 eexists. split; [apply parse_requirements_lines|].
  split; [|split; [exact Hname|]].
  - apply list_elem_of_omap. exists line. split; [exact Hline | exact Hname].
  - apply startswith_hash in Hstripped as (t & ->).
    change (take_while (fun c => negb (is_version_operator c)) (String "#" t))
      with (String "#" (take_while (fun c => negb (is_version_operator c)) t)).
    apply startswith_hash_cons.
Qed.

(** C1, as the program has it.  [main] always ends.  It ends in
    [sys.exit] exactly when the connectivity check fails, and then with
    status 1; any other non-zero status is that of an exception that
    left [main] uncaught, as [CalledProcessError] does when a command
    run with [check=True] fails.  The error paths that log go back to
    the menu: only choice 8 leaves the loop, an unknown choice is
    answered by one message, and a missing manifest, a manifest
    without names, a package that is installed already and an empty
    list of outdated packages each log one line and return. *)
Theorem main_exit_status (st : state W) :
  (exists r st',
      main st = Some (r, st')
      /\ (fst (check_internet st) = inr false -> r = inl (SystemExit 1))
      /\ (forall code, r = inl (SystemExit code) ->
                       fst (check_internet st) = inr false /\ code = 1%Z)
      /\ (exit_status r <> 0%Z -> fst (check_internet st) <> inr false ->
          exists e, r = inl e /\ forall code, e <> SystemExit code))
  /\ (forall venv_name choice go_on,
         fst (menu_dispatch venv_name choice st) = inr go_on ->
         go_on = negb (String.eqb choice "8"))
  /\ (forall venv_name choice,
         choice ∉ choices ->
         menu_dispatch venv_name choice st
         = (inr true,
            State (os st) (stdin st)
                  (trace st ++
                   [Print "[INFO] Invalid choice. Please enter a number between 1 and 8."])))
  /\ (forall venv_name requirements_file,
         path_exists (os st) requirements_file = false ->
         install_from_requirements venv_name requirements_file st
         = (inr tt,
            State (os st) (stdin st)
                  (trace st ++
                   [Print ("[INFO] ERROR: '" +:+ requirements_file +:+ "' not found.")])))
  /\ (forall venv_name requirements_file text,
         path_exists (os st) requirements_file = true ->
         read_text (os st) requirements_file = Some text ->
         parse_requirements text = inr [] ->
         install_from_requirements venv_name requirements_file st
         = (inr tt,
            State (os st) (stdin st)
                  (trace st ++ [Print "[INFO] No valid packages found in requirements.txt."])))
  /\ (forall venv_name package_name listing w,
         spawn (os st) (pip venv_name ["list"]) = (Some listing, w) ->
         lower package_name ∈ lower <$> listed_names (proc_stdout listing) ->
         install_package venv_name package_name st
         = (inr tt,
            State w (stdin st)
                  (trace st ++ [Spawn (pip venv_name ["list"]);
                                Print ("[INFO] ERROR: " +:+ package_name
                                       +:+ " (skipped, already installed)")])))
  /\ (forall venv_name result w,
         spawn (os st) (pip venv_name ["list"; "--outdated"]) = (Some result, w) ->
         length (splitlines (proc_stdout result)) <= 2 ->
         check_for_updates venv_name st
         = (inr tt,
            State w (stdin st)
                  (trace st ++ [Print "[INFO] Checking for outdated packages...";
                                Spawn (pip venv_name ["list"; "--outdated"]);
                                Print "[INFO] All packages are up to date."]))).
Proof.
  split.
  { destruct (main_total st) as (r & st' & Hmain). exists r, st'.
    split; [exact Hmain|]. split; [|split].
    - intros Hoff. destruct (main_offline st Hoff) as (w & Hmain').
      rewrite Hmain in Hmain'. congruence.
    - intros code ->. eapply main_exit, Hmain.
    - intros Hstatus Hon. destruct r as [e|[]]; [|contradiction Hstatus; reflexivity].
      exists e. split; [reflexivity|]. intros code ->.
      apply Hon. eapply main_exit, Hmain. }
  split; [intros venv_name choice go_on; apply menu_dispatch_goes_on|].
  split; [intros venv_name choice; apply menu_dispatch_invalid|].
  split; [intros venv_name file; apply install_from_requirements_missing|].
  split; [intros venv_name file text; apply install_from_requirements_empty|].
  split; [intros venv_name package_name listing w; apply install_package_skip|].
  intros venv_name result w. apply check_for_updates_none.
Qed.

End Claims.

(** * Further properties of the program *)

(** ** More on strings *)

Lemma rstrip_rstrip s : rstrip (rstrip s) = rstrip s.
Proof.
  induction s as [|c t IH]; [reflexivity|].
  simpl. destruct (rstrip t) as [|d u] eqn:Et.
  - destruct (isspace c) eqn:Ec; [reflexivity|]. simpl. rewrite Ec. reflexivity.
  - change (rstrip (String c (String d u))) with
      (match rstrip (String d u) with
       | EmptyString => if isspace c then EmptyString else String c EmptyString
       | t' => String c t'
       end).
    rewrite IH. reflexivity.
Qed.

Lemma lstrip_rstrip_head c t :
  isspace c = false -> lstrip (rstrip (String c t)) = rstrip (String c t).
Proof.
  intros Hc. simpl. destruct (rstrip t); rewrite ?Hc; simpl; rewrite Hc; reflexivity.
Qed.

Lemma strip_strip s : strip (strip s) = strip s.
Proof.
  unfold strip. destruct (lstrip s) as [|c t] eqn:El; [reflexivity|].
  rewrite lstrip_rstrip_head by (eapply lstrip_head, El).
  apply rstrip_rstrip.
Qed.

Lemma has_space_snoc tok c : has_space (snoc tok c) = has_space tok || isspace c.
Proof.
  unfold snoc. induction tok as [|d u IH]; simpl.
  - apply orb_false_r.
  - rewrite ?append_cons. simpl. rewrite IH. destruct (isspace d), (has_space u); reflexivity.
Qed.

Lemma isspace_lower_char c : isspace (lower_char c) = isspace c.
Proof. destruct c as [[] [] [] [] [] [] [] []]; reflexivity. Qed.

Lemma has_space_lower s : has_space (lower s) = has_space s.
Proof.
  induction s as [|c t IH]; [reflexivity|].
  simpl. rewrite isspace_lower_char, IH. reflexivity.
Qed.

Lemma is_empty_lower s : is_empty (lower s) = is_empty s.
Proof. destruct s; reflexivity. Qed.

(** The tokens of [split] are not empty and have no white space. *)
Lemma split_whitespace_from_tokens tok s t :
  has_space tok = false ->
  t ∈ split_whitespace_from tok s ->
  has_space t = false /\ is_empty t = false.
Proof.
  revert tok. induction s as [|c u IH]; intros tok Htok; simpl.
  - destruct (is_empty tok) eqn:Ee; [intros Hin; inversion Hin|].
    intros Hin. apply list_elem_of_singleton in Hin. subst t. split; assumption.
  - destruct (isspace c) eqn:Ec.
    + destruct (is_empty tok) eqn:Ee.
      * apply IH. reflexivity.
      * intros Hin. apply elem_of_cons in Hin as [->|Hin]; [split; assumption|].
        revert Hin. apply IH. reflexivity.
    + apply IH. rewrite has_space_snoc, Htok, Ec. reflexivity.
Qed.

Lemma split_whitespace_tokens s t :
  t ∈ split_whitespace s -> has_space t = false /\ is_empty t = false.
Proof. apply split_whitespace_from_tokens. reflexivity. Qed.

Lemma prefix_empty s : String.prefix "" s = true.
Proof. destruct s; reflexivity. Qed.

Lemma split_sep_from_absent sep s :
  contains sep s = false -> split_sep_from sep 0 s = [s].
Proof.
  induction s as [|c t IH]; [reflexivity|].
  cbn [contains split_sep_from]. intros Habsent.
  apply orb_false_iff in Habsent as [Hhere Hlater].
  rewrite Hhere, (IH Hlater). reflexivity.
Qed.

Lemma split_sep_from_head sep skip s : exists h r, split_sep_from sep skip s = h :: r.
Proof.
  revert skip. induction s as [|c t IH]; intros skip; [simpl; eauto|].
  cbn [split_sep_from]. destruct skip as [|k]; [|apply IH].
  destruct (String.prefix sep (String c t)); [eauto|].
  destruct (IH 0) as (h & r & ->). eauto.
Qed.

Lemma split_by_second p s :
  split_by p s !! 1 = None <-> existsb p (list_ascii_of_string s) = false.
Proof.
  induction s as [|c t IH]; simpl; [tauto|].
  destruct (p c) eqn:Ec; simpl.
  - rewrite split_by_head. split; discriminate.
  - destruct (split_by p t) as [|h r] eqn:Et; simpl in *; exact IH.
Qed.

(** ** The runtime and the environment name *)

Ltac spawns :=
  rewrite ?spawned_app, ?spawned_Spawn, ?spawned_Print, ?spawned_nil, ?app_nil_r;
  reflexivity.

Section Provisioning.

Context {W : Type} `{Platform W}.

(** X1.  [check_python] answers [False] exactly when the executable
    [python] cannot be found, and [True] exactly when the version
    command exits with status 0; when the command exits with another
    status the exception of [check=True] is not caught and leaves the
    function. *)
Theorem check_python_outcomes (st : state W) :
  (fst (check_python st) = inr false <-> fst (spawn (os st) version_command) = None)
  /\ (fst (check_python st) = inr true
      <-> exists p, fst (spawn (os st) version_command) = Some p /\ returncode p = 0%Z)
  /\ (forall p, fst (spawn (os st) version_command) = Some p -> returncode p <> 0%Z ->
                fst (check_python st) = inl (CalledProcessError (returncode p) version_command))
  /\ spawned (trace (snd (check_python st))) = spawned (trace st) ++ [version_command].
Proof.
  unfold check_python, try_except, run_checked, bind, Popen, log, print, emit, ret, raise.
  fold version_command.
  destruct (spawn (os st) version_command) as [[p|] w]; cbn [fst snd].
  - destruct (returncode p =? 0)%Z eqn:Hcode; cbn [fst snd is_FileNotFoundError trace].
    + apply Z.eqb_eq in Hcode. repeat split; try discriminate; try (intros; eauto; fail).
      * intros q [= <-] Hq. contradiction.
      * spawns.
    + apply Z.eqb_neq in Hcode. repeat split; try discriminate.
      * intros (q & [= <-] & Hq). contradiction.
      * intros q [= <-] _. reflexivity.
      * spawns.
  - cbn [is_FileNotFoundError fst snd trace]. repeat split; try discriminate.
    + intros (q & Hq & _). discriminate.
    + spawns.
Qed.

Lemma requests_get_response url (st : state W) body w :
  http_get (os st) url = (HttpResponse body, w) ->
  requests_get url st = (inr body, State w (stdin st) (trace st ++ [Request url])).
Proof. intros Hget. unfold requests_get. rewrite Hget. reflexivity. Qed.

Lemma check_python_absent (st : state W) w :
  spawn (os st) version_command = (None, w) ->
  check_python st = (inr false, State w (stdin st) (trace st ++ [Spawn version_command])).
Proof.
  intros Hspawn. unfold check_python, try_except, run_checked.
  fold version_command.
  erewrite bind_inl by (erewrite bind_inl by (apply Popen_none; exact Hspawn); reflexivity).
  reflexivity.
Qed.

Lemma check_python_present (st : state W) p w :
  spawn (os st) version_command = (Some p, w) -> returncode p = 0%Z ->
  check_python st
  = (inr true,
     State w (stdin st)
           (trace st ++ [Spawn version_command; Print "[INFO] Python is already installed."])).
Proof.
  intros Hspawn Hcode. unfold check_python, try_except, run_checked.
  fold version_command.
  erewrite bind_inr.
  2: { erewrite bind_inr by (apply Popen_some; exact Hspawn).
       rewrite Hcode. reflexivity. }
  erewrite bind_inr by apply log_run. cbn [ret os stdin trace].
  f_equal. f_equal. traces.
Qed.

(** X2.  Provisioning the runtime: when [python] cannot be found, the
    installer is downloaded from the fixed address, written to the
    working directory before it is run, and removed after a
    successful run; only then is the environment name asked for.  When
    the installer exits with another status than 0,
    [CalledProcessError] leaves the function and the installer file is
    not removed. *)
Theorem prepare_installs_runtime (st : state W) w1 body w2 p w3 :
  spawn (os st) version_command = (None, w1) ->
  http_get w1 PYTHON_URL = (HttpResponse body, w2) ->
  spawn (write_file w2 PYTHON_INSTALLER body) installer_command = (Some p, w3) ->
  let before :=
    [Spawn version_command;
     Print "[INFO] Python is not installed. Downloading and installing...";
     Print ("[INFO] Downloading " +:+ PYTHON_INSTALLER +:+ "...");
     Request PYTHON_URL;
     Print "[INFO] Python installer downloaded.";
     Print "[INFO] Installing Python...";
     Spawn installer_command] in
  (returncode p <> 0%Z ->
   prepare st
   = (inl (CalledProcessError (returncode p) installer_command),
      State w3 (stdin st) (trace st ++ before)))
  /\ (returncode p = 0%Z ->
      forall line rest,
        stdin st = line :: rest ->
        prepare st
        = (inr (environment_name line),
           State (remove_file w3 PYTHON_INSTALLER) rest
                 (trace st ++ before ++
                  [Print "[INFO] Python installed successfully!";
                   Prompt "Enter the virtual environment name (default: venv): "]))).
Proof.
  intros Hversion Hget Hinstall before. unfold prepare.
  erewrite bind_inr by (apply check_python_absent; exact Hversion).
  cbn [negb].
  assert (Hdownload :
            download_python (State w1 (stdin st) (trace st ++ [Spawn version_command]
                                                  ++ [Print "[INFO] Python is not installed. Downloading and installing..."]))
            = (inr tt,
               State (write_file w2 PYTHON_INSTALLER body) (stdin st)
                     (trace st ++ [Spawn version_command;
                                   Print "[INFO] Python is not installed. Downloading and installing...";
                                   Print ("[INFO] Downloading " +:+ PYTHON_INSTALLER +:+ "...");
                                   Request PYTHON_URL;
                                   Print "[INFO] Python installer downloaded."]))).
  { unfold download_python.
    erewrite bind_inr by apply log_run.
    erewrite bind_inr by (apply requests_get_response; exact Hget).
    erewrite bind_inr by reflexivity.
    rewrite log_run. cbn [os stdin trace open_write]. f_equal. f_equal. traces. }
  split.
  - intros Hcode. apply Z.eqb_neq in Hcode.
    erewrite bind_inl; [reflexivity|].
    erewrite bind_inr by apply log_run.
    erewrite bind_inr.
    2: { cbn [os stdin trace]. rewrite <- app_assoc. exact Hdownload. }
    unfold install_python. erewrite bind_inr by apply log_run.
    unfold run_checked. fold installer_command.
    erewrite bind_inl.
    2: { erewrite bind_inr by (apply Popen_some; exact Hinstall). rewrite Hcode. reflexivity. }
    cbn [os stdin trace]. f_equal. f_equal. unfold before. traces.
  - intros Hcode line rest Hin. revert line rest Hin.
    erewrite bind_inr.
    2: { erewrite bind_inr by apply log_run.
         erewrite bind_inr.
         2: { cbn [os stdin trace]. rewrite <- app_assoc. exact Hdownload. }
         unfold install_python. erewrite bind_inr by apply log_run.
         unfold run_checked. fold installer_command.
         erewrite bind_inr.
         2: { erewrite bind_inr by (apply Popen_some; exact Hinstall).
              rewrite Hcode. reflexivity. }
         erewrite bind_inr by reflexivity.
         apply log_run. }
    intros line rest Hin.
    erewrite bind_inr by (unfold input; cbn [os stdin trace os_remove]; rewrite Hin; reflexivity).
    unfold ret, environment_name. f_equal. f_equal. unfold before. traces.
Qed.


(** X4.  The connectivity check catches [requests.ConnectionError]
    only.  When the request ends in another exception of the library
    (a read timeout, say), the exception leaves [main] at once: nothing
    is logged, and the process ends with status 1. *)
Theorem main_probe_exception (st : state W) w :
  http_get (os st) "https://www.google.com" = (HttpOtherError, w) ->
  main st
  = Some (inl RequestException,
          State w (stdin st) (trace st ++ [Request "https://www.google.com"]))
  /\ process_status st = Some 1%Z.
Proof.
  intros Hget.
  assert (Hmain : main st
                  = Some (inl RequestException,
                          State w (stdin st) (trace st ++ [Request "https://www.google.com"]))).
  { unfold main, main_with_fuel, startup, check_internet, try_except, bind, requests_get.
    rewrite Hget. reflexivity. }
  split; [exact Hmain|]. unfold process_status. rewrite Hmain. reflexivity.
Qed.

Lemma environment_name_stripped line :
  is_empty (environment_name line) = false
  /\ strip (environment_name line) = environment_name line.
Proof.
  unfold environment_name. destruct (is_empty (strip line)) eqn:Hline.
  - split; reflexivity.
  - split; [exact Hline | apply strip_strip].
Qed.

(** X5.  The environment name that [main] works with is never empty
    and has no white space at either end: it is the stripped line that
    was typed, or [venv] when that is empty. *)
Theorem prepare_environment_name (st : state W) name :
  fst (prepare st) = inr name ->
  is_empty name = false
  /\ strip name = name
  /\ exists line, line ∈ stdin st /\ name = environment_name line.
Proof.
  unfold prepare. intros Hret.
  apply bind_returns in Hret as (have_python & st1 & Hcheck & Hret).
  apply bind_returns in Hret as (u & st2 & Hinstall & Hret).
  apply bind_returns in Hret as (line & st3 & Hinput & Hret).
  injection Hret as <-.
  fold (environment_name line).
  destruct (environment_name_stripped line) as [Hne Hstrip].
  split; [exact Hne|]. split; [exact Hstrip|].
  exists line. split; [|reflexivity].
  assert (Hin1 : stdin st1 = stdin st).
  { revert Hcheck. unfold check_python, try_except, run_checked, bind, Popen, log, print,
      emit, ret, raise.
    destruct (spawn (os st) ["python"; "--version"]) as [[p|] w]; cbn.
    - destruct (returncode p =? 0)%Z; cbn; intros [= _ <-]; reflexivity.
    - intros [= _ <-]. reflexivity. }
  assert (Hin2 : stdin st2 = stdin st1).
  { revert Hinstall. destruct (negb have_python); [|intros [= _ <-]; reflexivity].
    intros Hinstall.
    assert (Hkeep : forall s, stdin (snd ((log "Python is not installed. Downloading and installing..." ;;;
                                     download_python ;;; install_python) s)) = stdin s).
    { intros s. unfold download_python, install_python, run_checked, bind, log, print, emit,
        requests_get, open_write, os_remove, Popen, ret, raise. cbn.
      destruct (http_get _ _) as [[body| |] w]; cbn; try reflexivity.
      destruct (spawn _ _) as [[p|] w']; cbn; try reflexivity.
      destruct (returncode p =? 0)%Z; reflexivity. }
    specialize (Hkeep st1). rewrite Hinstall in Hkeep. exact Hkeep. }
  revert Hinput. unfold input. rewrite Hin2, Hin1.
  destruct (stdin st) as [|l rest]; [discriminate|].
  intros [= <- _]. left.
Qed.

End Provisioning.

(** ** Lines that name a package *)

Section Labels.

Context {W : Type} `{Platform W}.

Lemma prefix_char c d t :
  String.prefix (String c EmptyString) (String d t) = Ascii.eqb c d.
Proof.
  cbn [String.prefix]. destruct (ascii_dec c d) as [->|Hne].
  - rewrite Ascii.eqb_refl. apply prefix_empty.
  - symmetry. apply Ascii.eqb_neq, Hne.
Qed.

Lemma contains_char c s :
  contains (String c EmptyString) s = existsb (Ascii.eqb c) (list_ascii_of_string s).
Proof.
  induction s as [|d t IH]; [reflexivity|].
  cbn [contains list_ascii_of_string existsb]. rewrite prefix_char, IH. reflexivity.
Qed.

Lemma marker_package_space text :
  marker_package text = inl IndexError <-> contains " " text = false.
Proof.
  rewrite contains_char, <- split_by_second.
  unfold marker_package, index, split_char.
  destruct (split_by (Ascii.eqb " ") text !! 1) as [field|].
  - rewrite split_by_head. split; discriminate.
  - split; reflexivity.
Qed.

Lemma for_each_fault {A} (body : A -> M (state W) unit) xs x e (st : state W) :
  x ∈ xs ->
  (forall s, fst (body x s) = inl e) ->
  (forall y s e', fst (body y s) = inl e' -> e' = e) ->
  fst (for_each body xs st) = inl e.
Proof.
  intros Hx Hfault Honly. unfold for_each. generalize tt. revert st.
  induction xs as [|y ys IH]; intros st u; [inversion Hx|].
  simpl. unfold bind.
  destruct (body y st) as [[e'|u'] st'] eqn:Ey.
  - simpl. f_equal. eapply (Honly y st). rewrite Ey. reflexivity.
  - apply elem_of_cons in Hx as [->|Hx].
    + specialize (Hfault st). rewrite Ey in Hfault. discriminate.
    + apply IH, Hx.
Qed.

(** The events of a progress loop are labels. *)
Lemma follow_process_labels marker label process (st : state W) :
  exists labels,
    snd (follow_process marker label process st)
    = State (os st) (stdin st) (trace st ++ map TqdmDesc labels).
Proof.
  unfold follow_process, bind.
  assert (Hloop : forall lines (s : state W),
             exists labels,
               snd (for_each
                      (fun stdout_line =>
                         if contains marker stdout_line
                         then bind (lift (marker_package stdout_line))
                                   (fun name => set_description (label +:+ name))
                         else ret tt) lines s)
               = State (os s) (stdin s) (trace s ++ map TqdmDesc labels)).
  { unfold for_each.
    induction lines as [|line lines IH]; intros s.
    - exists []. destruct s. simpl. rewrite app_nil_r. reflexivity.
    - simpl. unfold bind at 1.
      destruct (contains marker line).
      + unfold bind at 1. unfold lift at 1. destruct (marker_package line) as [e|name].
        * exists []. destruct s. simpl. rewrite app_nil_r. reflexivity.
        * cbn [set_description emit].
          destruct (IH (State (os s) (stdin s) (trace s ++ [TqdmDesc (label +:+ name)])))
            as (labels & Hlabels).
          exists ((label +:+ name) :: labels). rewrite Hlabels. cbn [os stdin trace map].
          f_equal. traces.
      + cbn [ret]. apply IH. }
  destruct (Hloop (readlines (proc_stdout process)) st) as (labels & Hlabels).
  exists labels. revert Hlabels.
  destruct (for_each _ (readlines (proc_stdout process)) st) as [[e|u] st1]; cbn [snd].
  - exact id.
  - intros ->. rewrite for_each_pass. reflexivity.
Qed.

Lemma follow_process_fault marker label process (st : state W) line :
  line ∈ readlines (proc_stdout process) ->
  contains marker line = true ->
  contains " " line = false ->
  fst (follow_process marker label process st) = inl IndexError.
Proof.
  intros Hline Hmarker Hspace. unfold follow_process.
  match goal with
  | |- fst (bind (for_each ?b ?l) _ _) = _ =>
      assert (Hfault : fst (for_each b l st) = inl IndexError)
  end.
  { apply (for_each_fault _ _ line); [exact Hline| |].
    - intros s. rewrite Hmarker. unfold bind, lift.
      rewrite (proj2 (marker_package_space line) Hspace). reflexivity.
    - intros y s e'. destruct (contains marker y); [|discriminate].
      unfold bind, lift. destruct (marker_package y) as [e0|name] eqn:Ey; [|discriminate].
      cbn [fst]. intros [= <-]. eapply marker_package_fault, Ey. }
  unfold bind at 1.
  destruct (for_each _ (readlines (proc_stdout process)) st) as [[e|u] st1];
    cbn [fst] in *; [exact Hfault | discriminate Hfault].
Qed.

(** X6.  The expression that reads a package name off a [Collecting]
    or [Uninstalling] line takes the second field between spaces: it
    raises [IndexError] exactly when the line has no space.  In
    [remove_package] a line with the marker and without a space ends
    the operation: the bar is closed without its tick, and the success
    message is not logged. *)
Theorem marker_line_without_space venv_name package_name (st : state W) p w line :
  spawn (os st) (pip venv_name ["uninstall"; "-y"; package_name]) = (Some p, w) ->
  line ∈ readlines (proc_stdout p) ->
  contains "Uninstalling" line = true ->
  contains " " line = false ->
  (forall text, marker_package text = inl IndexError <-> contains " " text = false)
  /\ exists labels,
      remove_package venv_name package_name st
      = (inl IndexError,
         State w (stdin st)
               (trace st ++
                [Print ("[INFO] Removing package: " +:+ package_name +:+ "...");
                 Spawn (pip venv_name ["uninstall"; "-y"; package_name]);
                 TqdmOpen (Some 1) ("Removing " +:+ package_name)]
                ++ map TqdmDesc labels ++ [TqdmClose])).
Proof.
  intros Hspawn Hline Hmarker Hspace. split; [exact marker_package_space|].
  unfold remove_package.
  erewrite bind_inr by apply log_run.
  erewrite bind_inr by (apply Popen_some; exact Hspawn).
  cbn [os stdin trace]. unfold with_tqdm.
  unfold bind at 1. unfold bind at 1. cbn [emit os stdin trace].
  unfold finally. unfold bind at 1.
  match goal with
  | |- context [follow_process ?m ?l p ?s] =>
      pose proof (follow_process_fault m l p s line Hline Hmarker Hspace) as Hfault;
      destruct (follow_process_labels m l p s) as (labels & Hlabels);
      destruct (follow_process m l p s) as [r st3]
  end.
  cbn [fst snd] in Hfault, Hlabels. subst r st3. exists labels.
  cbn [emit os stdin trace]. f_equal. f_equal. traces.
Qed.

End Labels.

(** ** Installing *)

Section Installing.

Context {W : Type} `{Platform W}.

Lemma for_fold_collecting lines (cur : option string) (st : state W) :
  for_fold
    (fun current line =>
       match search_collecting (strip line) with
       | Some name =>
           bind (set_description ("Installing: " +:+ name))
                (fun _ => bind (update 1) (fun _ => ret (Some name)))
       | None => ret current
       end) lines cur st
  = (inr (last (option_list cur
                ++ omap (fun line => search_collecting (strip line)) lines)),
     State (os st) (stdin st)
           (trace st ++ collecting_events
                          (omap (fun line => search_collecting (strip line)) lines))).
Proof.
  revert cur st. induction lines as [|line lines IH]; intros cur st.
  - simpl. rewrite !app_nil_r. destruct cur, st; reflexivity.
  - cbn [for_fold]. rewrite omap_cons_eq.
    destruct (search_collecting (strip line)) as [name|].
    + unfold bind at 1. unfold bind at 1. unfold bind at 1.
      cbn [set_description update emit ret os stdin trace].
      rewrite IH. cbn [os stdin trace option_list]. f_equal.
      * f_equal. destruct cur as [c|]; [|reflexivity].
        exact (eq_sym (last_cons_cons c name _)).
      * f_equal. cbn [collecting_events flat_map]. traces.
    + unfold bind at 1. cbn [ret]. apply IH.
Qed.

(** X7.  When [pip install] prints [Collecting] lines and the package
    was not installed, [install_package] shows a label and a tick for
    each of them and ends with the label of the last one, not of the
    package that was asked for, marked by the exit status. *)
Theorem install_package_collected venv_name package_name (st : state W)
        listing w process w' names final :
  spawn (os st) (pip venv_name ["list"]) = (Some listing, w) ->
  lower package_name ∉ lower <$> listed_names (proc_stdout listing) ->
  spawn w (pip venv_name ["install"; package_name]) = (Some process, w') ->
  collected (proc_stdout process) = names ++ [final] ->
  install_package venv_name package_name st
  = (inr tt,
     State w' (stdin st)
           (trace st ++
            [Spawn (pip venv_name ["list"]);
             Print ("[INFO] Installing: " +:+ package_name +:+ "...");
             Spawn (pip venv_name ["install"; package_name]);
             TqdmOpen None ("Installing " +:+ package_name)]
            ++ collecting_events (names ++ [final])
            ++ [TqdmClose;
                TqdmDesc ("Installing: " +:+ final +:+
                          (if (returncode process =? 0)%Z then " (success)" else " (failed)"))])).
Proof.
  intros Hlist Hnew Hinstall Hcollected. unfold install_package.
  erewrite bind_inr by (apply is_package_installed_run; exact Hlist).
  rewrite bool_decide_eq_false_2 by exact Hnew.
  erewrite bind_inr by apply log_run.
  erewrite bind_inr by (apply Popen_some; exact Hinstall).
  erewrite bind_inr.
  2: { unfold with_tqdm. erewrite bind_inr by reflexivity.
       unfold finally. rewrite for_fold_collecting.
       fold (collected (proc_stdout process)). rewrite Hcollected.
       change (option_list None ++ (names ++ [final])) with (names ++ [final]).
       rewrite last_snoc. reflexivity. }
  cbn [os stdin trace emit read_local].
  destruct (returncode process =? 0)%Z;
    (erewrite bind_inr by reflexivity); unfold set_description, emit;
    cbn [os stdin trace]; f_equal; f_equal; traces.
Qed.

(** X8.  The batch installation of a manifest ticks the bar once for
    every line that [pip install -r] prints, and its last log line
    follows the exit status: completion for 0, the error message
    otherwise. *)
Theorem watch_batch_install_reports process (st : state W) :
  fst (watch_batch_install process st) = inr tt ->
  exists new,
    trace (snd (watch_batch_install process st))
    = trace st ++ new
      ++ [Print (if (returncode process =? 0)%Z
                 then "[INFO] Installation process complete."
                 else "[INFO] ERROR: Installation failed for some packages. Check the output for details.")]
    /\ ticks new = length (readlines (proc_stdout process)).
Proof.
  unfold watch_batch_install.
  assert (Hbar : @counted W unit (length (readlines (proc_stdout process)))
                   (with_tqdm None "Installing packages"
                      (for_each
                         (fun stdout_line =>
                            bind (if contains "Collecting" (strip stdout_line)
                                  then bind (lift (marker_package (strip stdout_line)))
                                            (fun current_pkg =>
                                               set_description ("Installing: " +:+ current_pkg))
                                  else ret tt)
                                 (fun _ => update 1))
                         (readlines (proc_stdout process))))).
  { apply counted_with_tqdm. eapply counted_eq; [|apply (counted_for_each 1)]; [lia|].
    intros line. apply (counted_bind 0 1); [|intros _; apply (counted_emit (TqdmUpdate 1))].
    destruct (contains "Collecting" (strip line)); [|apply counted_ret].
    apply (counted_bind 0 0); [apply counted_lift|]. intros name.
    apply (counted_emit (TqdmDesc _)). }
  destruct (returncode process =? 0)%Z; apply (counted_log _ _ _ Hbar).
Qed.

End Installing.

(** ** The subprocesses of the loops over packages *)

Section Launching.

Context {W : Type} `{Platform W}.

Local Abbreviation launching := (@launching W _).
Local Abbreviation quiet := (@quiet W _).

Lemma launching_quiet {A} (m : M (state W) A) : quiet m -> launching [] m.
Proof.
  intros Hm st a _. destruct (Hm st) as (new & E & S).
  exists new. rewrite E. split; [reflexivity | exact S].
Qed.

Lemma launching_Popen argv : launching [argv] (Popen argv).
Proof.
  intros st p _. exists [Spawn argv]. unfold Popen.
  destruct (spawn (os st) argv) as [[q|] w]; split; reflexivity.
Qed.

Lemma launching_bind {A B} c1 c2 (m : M (state W) A) (k : A -> M (state W) B) :
  launching c1 m -> (forall a, launching c2 (k a)) -> launching (c1 ++ c2) (bind m k).
Proof.
  intros Hm Hk st b. unfold bind.
  specialize (Hm st). destruct (m st) as [[e|a] st1]; cbn [fst snd] in *; [discriminate|].
  destruct (Hm a eq_refl) as (new1 & E1 & S1).
  intros Hb. destruct (Hk a st1 b Hb) as (new2 & E2 & S2).
  exists (new1 ++ new2). rewrite E2, E1, app_assoc, spawned_app, S1, S2.
  split; reflexivity.
Qed.

Lemma launching_for_each {A} (command : A -> list string)
      (body : A -> M (state W) unit) xs :
  (forall x, launching [command x] (body x)) ->
  launching (map command xs) (for_each body xs).
Proof.
  intros Hbody. unfold for_each. generalize tt.
  induction xs as [|x xs IH]; intros u.
  - apply launching_quiet, quiet_ret.
  - apply (launching_bind [command x] (map command xs)); [apply Hbody | exact IH].
Qed.

Lemma launching_with_tqdm {A} cmds total desc (body : M (state W) A) :
  launching cmds body -> launching cmds (with_tqdm total desc body).
Proof.
  intros Hbody st a. unfold with_tqdm, bind, finally. cbn [emit fst snd].
  specialize (Hbody (State (os st) (stdin st) (trace st ++ [TqdmOpen total desc]))).
  destruct (body _) as [r st1]; cbn [fst snd os stdin trace] in *.
  intros ->. destruct (Hbody a eq_refl) as (new & E & S).
  exists ([TqdmOpen total desc] ++ new ++ [TqdmClose]).
  rewrite E. split; [traces|].
  rewrite !spawned_app, S. apply app_nil_r.
Qed.

Lemma launching_package_step argv marker label :
  launching [argv]
    (bind (Popen argv)
          (fun process => bind (follow_process marker label process) (fun _ => update 1))).
Proof.
  apply (launching_bind [argv] []); [apply launching_Popen|]. intros process.
  apply launching_quiet. quiet. apply quiet_follow_process.
Qed.

Lemma frozen_names_comprehension stdout :
  comprehension (fun line => index (split_sep "==" line) 0) (splitlines stdout)
  = inr (frozen_names stdout).
Proof.
  unfold frozen_names. apply comprehension_map. intros line _.
  unfold index, split_sep.
  destruct (split_sep_from_head "==" 0 line) as (h & r & ->). reflexivity.
Qed.

(** X9.  [remove_all_packages] takes the package names from the lines
    of [pip freeze], each up to its first [==]; a line without [==]
    (an editable or a direct-reference requirement) is taken whole.
    With no lines it logs that there is nothing to remove and starts no
    uninstall.  Otherwise, when it returns, it has started one
    [pip uninstall -y] for every line, in the order of the lines. *)
Theorem remove_all_packages_commands venv_name (st : state W) frozen w :
  spawn (os st) (pip venv_name ["freeze"]) = (Some frozen, w) ->
  (splitlines (proc_stdout frozen) = [] ->
   remove_all_packages venv_name st
   = (inr tt,
      State w (stdin st)
            (trace st ++ [Print "[INFO] Removing all installed packages...";
                          Spawn (pip venv_name ["freeze"]);
                          Print "[INFO] No packages to remove."])))
  /\ (fst (remove_all_packages venv_name st) = inr tt ->
      exists new,
        trace (snd (remove_all_packages venv_name st)) = trace st ++ new
        /\ spawned new
           = pip venv_name ["freeze"]
             :: map (fun package => pip venv_name ["uninstall"; "-y"; package])
                    (frozen_names (proc_stdout frozen)))
  /\ (forall line, line ∈ splitlines (proc_stdout frozen) ->
                   contains "==" line = false ->
                   line ∈ frozen_names (proc_stdout frozen)).
Proof.
  intros Hspawn. split; [|split].
  - intros Hnone. unfold remove_all_packages.
    erewrite bind_inr by apply log_run.
    erewrite bind_inr by (apply Popen_some; exact Hspawn).
    erewrite bind_inr by (unfold lift; rewrite Hnone; reflexivity).
    rewrite bool_decide_eq_true_2 by reflexivity.
    rewrite log_run. cbn [os stdin trace]. f_equal. f_equal. traces.
  - unfold remove_all_packages.
    erewrite bind_inr by apply log_run.
    erewrite bind_inr by (apply Popen_some; exact Hspawn).
    erewrite bind_inr by (unfold lift; rewrite frozen_names_comprehension; reflexivity).
    destruct (bool_decide (frozen_names (proc_stdout frozen) = [])) eqn:Hempty.
    + apply bool_decide_eq_true_1 in Hempty. rewrite Hempty. intros _.
      eexists. rewrite log_run. cbn [snd os stdin trace].
      split; [rewrite <- !app_assoc; reflexivity|]. spawns.
    + intros Hdone.
      pose proof (launching_bind
                    (map (fun package => pip venv_name ["uninstall"; "-y"; package])
                         (frozen_names (proc_stdout frozen))) []
                    (with_tqdm (Some (length (frozen_names (proc_stdout frozen))))
                       "Removing packages"
                       (for_each
                          (fun package =>
                             bind (Popen (pip venv_name ["uninstall"; "-y"; package]))
                                  (fun process =>
                                     bind (follow_process "Uninstalling" "Removing: " process)
                                          (fun _ => update 1)))
                          (frozen_names (proc_stdout frozen))))
                    (fun _ => log "All packages removed successfully.")) as Hloop.
      edestruct Hloop as (new & Etrace & Hnew); [| |exact Hdone|].
      * apply launching_with_tqdm.
        apply (launching_for_each
                 (fun package => pip venv_name ["uninstall"; "-y"; package])).
        intros package. apply launching_package_step.
      * intros _. apply launching_quiet. quiet.
      * eexists. split; [rewrite Etrace; cbn [trace]; rewrite <- !app_assoc; reflexivity|].
        rewrite !spawned_app, Hnew, app_nil_r. reflexivity.
  - intros line Hline Habsent. unfold frozen_names.
    apply list_elem_of_fmap. exists line. split; [|exact Hline].
    unfold split_sep. rewrite (split_sep_from_absent _ _ Habsent). reflexivity.
Qed.

(** X10.  [update_packages], when it returns, has started one
    [pip install --upgrade] for every package it was given, in the
    order it was given them; for an empty list it starts nothing and
    still logs that all selected packages were updated. *)
Theorem update_packages_commands venv_name packages (st : state W) :
  (fst (update_packages venv_name packages st) = inr tt ->
   exists new,
     trace (snd (update_packages venv_name packages st)) = trace st ++ new
     /\ spawned new
        = map (fun package => pip venv_name ["install"; "--upgrade"; package]) packages)
  /\ (packages = [] ->
      update_packages venv_name packages st
      = (inr tt,
         State (os st) (stdin st)
               (trace st ++ [TqdmOpen (Some 0) "Updating packages"; TqdmClose;
                             Print "[INFO] All selected packages updated successfully."]))).
Proof.
  split.
  - intros Hdone. unfold update_packages in *.
    pose proof (launching_bind
                  (map (fun package => pip venv_name ["install"; "--upgrade"; package]) packages)
                  []
                  (with_tqdm (Some (length packages)) "Updating packages"
                     (for_each
                        (fun package =>
                           bind (Popen (pip venv_name ["install"; "--upgrade"; package]))
                                (fun process =>
                                   bind (follow_process "Collecting" "Updating: " process)
                                        (fun _ => update 1)))
                        packages))
                  (fun _ => log "All selected packages updated successfully.")) as Hloop.
    edestruct Hloop as (new & Etrace & Hnew); [| |exact Hdone|].
    + apply launching_with_tqdm.
      apply (launching_for_each
               (fun package => pip venv_name ["install"; "--upgrade"; package])).
      intros package. apply launching_package_step.
    + intros _. apply launching_quiet. quiet.
    + exists new. split; [exact Etrace|]. rewrite Hnew, app_nil_r. reflexivity.
  - intros ->. destruct st as [w i t].
    unfold update_packages, with_tqdm, bind, finally, log, print, emit.
    cbn. f_equal. f_equal. traces.
Qed.

End Launching.

(** ** Outdated packages and names that cannot match *)

Section Updates.

Context {W : Type} `{Platform W}.

Lemma comprehension_first_tokens ls names :
  comprehension (fun line => index (split_whitespace line) 0) ls = inr names ->
  names = omap (fun line => split_whitespace line !! 0) ls.
Proof.
  revert names. induction ls as [|l ls IH]; intros names.
  - intros [= <-]. reflexivity.
  - cbn [comprehension]. rewrite omap_cons_eq. unfold index at 1.
    destruct (split_whitespace l !! 0) as [tok|]; [|discriminate].
    destruct (comprehension _ ls) as [e|rest]; [discriminate|].
    intros [= <-]. rewrite (IH rest eq_refl). reflexivity.
Qed.

Lemma outdated_names_listed stdout names :
  outdated_names (splitlines stdout) = inr names ->
  names = listed_names stdout
  /\ length names = length (splitlines stdout) - 2.
Proof.
  unfold outdated_names, listed_names.
  destruct (2 <? length (splitlines stdout)) eqn:Elen.
  - intros Hnames. split; [apply comprehension_first_tokens, Hnames|].
    apply comprehension_length in Hnames. rewrite Hnames, length_drop. reflexivity.
  - intros [= <-]. apply Nat.ltb_ge in Elen.
    rewrite drop_ge by exact Elen. split; [reflexivity | simpl; lia].
Qed.

(** X11.  When [pip list --outdated] names packages, [check_for_updates]
    reports their number, which is the number of lines after the two
    header lines, and asks once.  The answer is stripped and
    lower-cased: [y] hands exactly the listed names to
    [update_packages], any other answer returns without a further
    subprocess, and the end of the input raises [EOFError]. *)
Theorem check_for_updates_asks venv_name (st : state W) result w names :
  spawn (os st) (pip venv_name ["list"; "--outdated"]) = (Some result, w) ->
  outdated_names (splitlines (proc_stdout result)) = inr names ->
  names <> [] ->
  let asked :=
    trace st ++
    [Print "[INFO] Checking for outdated packages...";
     Spawn (pip venv_name ["list"; "--outdated"]);
     Print ("[INFO] Found "
            +:+ str_of_nat (length (splitlines (proc_stdout result)) - 2)
            +:+ " outdated package(s).");
     Prompt "Do you want to update all outdated packages? (y/n): "] in
  names = listed_names (proc_stdout result)
  /\ (stdin st = [] ->
      check_for_updates venv_name st = (inl EOFError, State w [] asked))
  /\ (forall answer rest,
         stdin st = answer :: rest ->
         check_for_updates venv_name st
         = if String.eqb (lower (strip answer)) "y"
           then update_packages venv_name names (State w rest asked)
           else (inr tt, State w rest asked)).
Proof.
  intros Hspawn Hnames Hne asked.
  destruct (outdated_names_listed _ _ Hnames) as [Hlisted Hlength].
  split; [exact Hlisted|].
  assert (Hstart : forall k : string -> M (state W) unit,
             check_for_updates venv_name st
             = bind (input "Do you want to update all outdated packages? (y/n): ")
                    (fun answer =>
                       if String.eqb (lower (strip answer)) "y"
                       then update_packages venv_name names
                       else ret tt)
                    (State w (stdin st)
                           (trace st ++
                            [Print "[INFO] Checking for outdated packages...";
                             Spawn (pip venv_name ["list"; "--outdated"]);
                             Print ("[INFO] Found "
                                    +:+ str_of_nat (length (splitlines (proc_stdout result)) - 2)
                                    +:+ " outdated package(s).")]))).
  { intros _. unfold check_for_updates.
    erewrite bind_inr by apply log_run.
    erewrite bind_inr by (apply Popen_some; exact Hspawn).
    erewrite bind_inr by (unfold lift; rewrite Hnames; reflexivity).
    rewrite bool_decide_eq_false_2 by exact Hne.
    erewrite bind_inr by apply log_run.
    cbn [os stdin trace]. rewrite Hlength. f_equal. f_equal. traces. }
  rewrite (Hstart (fun _ => ret tt)). split.
  - intros Hin. unfold bind, input. cbn [os stdin trace]. rewrite Hin.
    f_equal. f_equal. unfold asked. traces.
  - intros answer rest Hin. unfold bind, input. cbn [os stdin trace]. rewrite Hin.
    replace ((trace st ++
              [Print "[INFO] Checking for outdated packages...";
               Spawn (pip venv_name ["list"; "--outdated"]);
               Print ("[INFO] Found "
                      +:+ str_of_nat (length (splitlines (proc_stdout result)) - 2)
                      +:+ " outdated package(s).")]) ++
             [Prompt "Do you want to update all outdated packages? (y/n): "])
      with asked by (unfold asked; traces).
    destruct (String.eqb (lower (strip answer)) "y"); reflexivity.
Qed.

Lemma listed_names_tokens stdout name :
  name ∈ listed_names stdout -> has_space name = false /\ is_empty name = false.
Proof.
  unfold listed_names. intros Hin.
  apply list_elem_of_omap in Hin as (line & _ & Htok).
  apply (split_whitespace_tokens line).
  apply list_elem_of_lookup. eauto.
Qed.

Lemma unlisted_name stdout package_name :
  has_space package_name = true \/ package_name = "" ->
  lower package_name ∉ lower <$> listed_names stdout.
Proof.
  intros Hbad Hin. apply list_elem_of_fmap in Hin as (name & Hlower & Hname).
  destruct (listed_names_tokens _ _ Hname) as [Hspace Hempty].
  destruct Hbad as [Hbad| ->].
  - rewrite <- has_space_lower, Hlower, has_space_lower, Hspace in Hbad. discriminate.
  - rewrite <- is_empty_lower, <- Hlower in Hempty. discriminate.
Qed.

(** X12.  A package name that is empty or has white space in it is
    never found installed, whatever [pip list] prints: the names read
    there are tokens without white space.  So a manifest with such a
    name in it (a line with a space before its version operator gives
    one) is always installed as a whole, by one [pip install -r]. *)
Theorem name_with_space_not_installed venv_name (st : state W) listing w package_name :
  spawn (os st) (pip venv_name ["list"]) = (Some listing, w) ->
  has_space package_name = true \/ package_name = "" ->
  is_package_installed venv_name package_name st
  = (inr false, State w (stdin st) (trace st ++ [Spawn (pip venv_name ["list"])]))
  /\ (forall requirements_file text packages,
         path_exists (os st) requirements_file = true ->
         read_text (os st) requirements_file = Some text ->
         parse_requirements text = inr packages ->
         package_name ∈ packages ->
         exists r st' new,
           install_from_requirements venv_name requirements_file st = (r, st')
           /\ trace st' = trace st ++ new
           /\ spawned new = [pip venv_name ["list"];
                             pip venv_name ["install"; "-r"; requirements_file]]).
Proof.
  intros Hlist Hbad. split.
  - rewrite (is_package_installed_run _ _ _ _ _ Hlist).
    rewrite bool_decide_eq_false_2 by (apply unlisted_name, Hbad). reflexivity.
  - intros file text packages Hexists Hread Hparse Hin.
    assert (Hne : packages <> []) by (intros ->; inversion Hin).
    destruct (install_from_requirements_run _ _ _ _ _ _ _ Hexists Hread Hparse Hne Hlist)
      as [_ Hsome].
    destruct Hsome as (r & w' & new & Hrun & Hquiet).
    + intros Hnone.
      assert (Hpkg : package_name ∈
                       List.filter
                         (fun pkg => negb (bool_decide
                                             (lower pkg ∈ lower <$> listed_names (proc_stdout listing))))
                         packages).
      { apply list_elem_of_In, filter_In. split; [apply list_elem_of_In, Hin|].
        rewrite bool_decide_eq_false_2 by (apply unlisted_name, Hbad). reflexivity. }
      rewrite Hnone in Hpkg. inversion Hpkg.
    + rewrite Hrun. do 3 eexists. split; [reflexivity|]. split; [reflexivity|].
      rewrite !spawned_app, !spawned_Print, !spawned_Spawn, spawned_nil,
        spawned_skipped, Hquiet.
      reflexivity.
Qed.

End Updates.

(** ** Choices of the menu *)

Section Choices.

Context {W : Type} `{Platform W}.

Lemma input_line prompt (st : state W) line rest :
  stdin st = line :: rest ->
  input prompt st = (inr line, State (os st) rest (trace st ++ [Prompt prompt])).
Proof. intros Hin. unfold input. rewrite Hin. reflexivity. Qed.

(** X13.  The guards of the menu: an empty or blank package name after
    choice 1 or 2, an empty or blank path after choice 4, and any
    answer but [y] (in either case, with blanks around it) after
    choice 3 lead to no operation at all: the line is read, nothing
    is logged or started, and the menu comes again. *)
Theorem menu_guards venv_name (st : state W) line rest :
  stdin st = line :: rest ->
  (is_empty (strip line) = true ->
   menu_dispatch venv_name "1" st
   = (inr true, State (os st) rest (trace st ++ [Prompt "Enter package name to install: "]))
   /\ menu_dispatch venv_name "2" st
      = (inr true, State (os st) rest (trace st ++ [Prompt "Enter package name to remove: "]))
   /\ menu_dispatch venv_name "4" st
      = (inr true,
         State (os st) rest (trace st ++ [Prompt "Enter the path to requirements.txt: "])))
  /\ (String.eqb (lower (strip line)) "y" = false ->
      menu_dispatch venv_name "3" st
      = (inr true,
         State (os st) rest
               (trace st ++ [Prompt "Are you sure you want to remove all packages? (y/n): "]))).
Proof.
  intros Hin. split.
  - intros Hblank. repeat split; unfold menu_dispatch; cbn [String.eqb Ascii.eqb Bool.eqb];
      (erewrite bind_inr by (apply input_line; exact Hin));
      rewrite Hblank; reflexivity.
  - intros Hno. unfold menu_dispatch. cbn [String.eqb Ascii.eqb Bool.eqb].
    erewrite bind_inr by (apply input_line; exact Hin).
    rewrite Hno. reflexivity.
Qed.

(** X14.  Choice 6 empties [requirements.txt] before it starts
    [pip freeze].  When [pip freeze] has run, the file holds what it
    printed and success is logged, whatever its exit code; when it
    cannot be started, [FileNotFoundError] leaves the menu and the
    file stays empty. *)
Theorem generate_requirements venv_name (st : state W) :
  let emptied := write_file (os st) "requirements.txt" "" in
  (forall frozen w,
      spawn emptied (pip venv_name ["freeze"]) = (Some frozen, w) ->
      menu_dispatch venv_name "6" st
      = (inr true,
         State (write_file w "requirements.txt" (proc_stdout frozen)) (stdin st)
               (trace st ++ [Print "[INFO] Generating requirements.txt...";
                             Spawn (pip venv_name ["freeze"]);
                             Print "[INFO] requirements.txt created successfully."])))
  /\ (forall w,
         spawn emptied (pip venv_name ["freeze"]) = (None, w) ->
         menu_dispatch venv_name "6" st
         = (inl FileNotFoundError,
            State w (stdin st)
                  (trace st ++ [Print "[INFO] Generating requirements.txt...";
                                Spawn (pip venv_name ["freeze"])]))).
Proof.
  intros emptied. split.
  - intros frozen w Hspawn. unfold menu_dispatch. cbn [String.eqb Ascii.eqb Bool.eqb].
    erewrite bind_inr by apply log_run.
    erewrite bind_inr by reflexivity.
    erewrite bind_inr by (apply Popen_some; exact Hspawn).
    erewrite bind_inr by reflexivity.
    erewrite bind_inr by apply log_run.
    cbn [ret os stdin trace]. f_equal. f_equal. traces.
  - intros w Hspawn. unfold menu_dispatch. cbn [String.eqb Ascii.eqb Bool.eqb].
    erewrite bind_inr by apply log_run.
    erewrite bind_inr by reflexivity.
    erewrite bind_inl by (apply Popen_none; exact Hspawn).
    cbn [os stdin trace]. f_equal. f_equal. traces.
Qed.

End Choices.

(** ** What is left of the input *)

Section Reading.

Context {W : Type} `{Platform W}.

Local Abbreviation reading := (@reading W _).

Lemma reading_same {A} (m : M (state W) A) :
  (forall st, stdin (snd (m st)) = stdin st) -> reading m.
Proof. intros Hm st. rewrite Hm. reflexivity. Qed.

Lemma reading_input prompt : reading (input prompt).
Proof.
  intros st. unfold input. destruct (stdin st) as [|line rest]; cbn [snd stdin].
  - reflexivity.
  - apply suffix_cons_r. reflexivity.
Qed.

Lemma reading_Popen argv : reading (Popen argv).
Proof.
  apply reading_same. intros st. unfold Popen.
  destruct (spawn (os st) argv) as [[p|] w]; reflexivity.
Qed.

Lemma reading_bind {A B} (m : M (state W) A) (k : A -> M (state W) B) :
  reading m -> (forall a, reading (k a)) -> reading (bind m k).
Proof.
  intros Hm Hk st. unfold bind. specialize (Hm st).
  destruct (m st) as [[e|a] st1]; cbn [snd] in *; [exact Hm|].
  etrans; [apply Hk | exact Hm].
Qed.

Lemma reading_for_fold {A B} (body : B -> A -> M (state W) B) xs acc :
  (forall b x, reading (body b x)) -> reading (for_fold body xs acc).
Proof.
  intros Hbody. revert acc. induction xs as [|x xs IH]; intros acc; simpl.
  - apply reading_same. reflexivity.
  - apply reading_bind; [apply Hbody | exact IH].
Qed.

Lemma reading_for_each {A} (body : A -> M (state W) unit) xs :
  (forall x, reading (body x)) -> reading (for_each body xs).
Proof. intros Hbody. apply reading_for_fold. intros _ x. apply Hbody. Qed.

Lemma reading_with_tqdm {A} total desc (body : M (state W) A) :
  reading body -> reading (with_tqdm total desc body).
Proof.
  intros Hbody st. unfold with_tqdm, bind, finally. cbn [emit].
  specialize (Hbody (State (os st) (stdin st) (trace st ++ [TqdmOpen total desc]))).
  destruct (body _) as [r st1]; cbn [snd stdin] in *. exact Hbody.
Qed.

Lemma reading_try_except {A} (m : M (state W) A) caught handler :
  reading m -> reading handler -> reading (try_except m caught handler).
Proof.
  intros Hm Hh st. unfold try_except. specialize (Hm st).
  destruct (m st) as [[e|a] st1]; cbn [snd] in *; [|exact Hm].
  destruct (caught e); [|exact Hm]. etrans; [apply Hh | exact Hm].
Qed.

Lemma reading_quiet {A} (m : M (state W) A) : @quiet W A m -> reading m.
Proof.
  intros Hm st. destruct (Hm st) as (new & E & _). rewrite E. reflexivity.
Qed.

End Reading.

Ltac reading_step :=
  match goal with
  | |- reading (bind _ _) => apply reading_bind; [|intros ?]
  | |- reading (for_each _ _) => apply reading_for_each; intros ?
  | |- reading (for_fold _ _ _) => apply reading_for_fold; intros ? ?
  | |- reading (with_tqdm _ _ _) => apply reading_with_tqdm
  | |- reading (try_except _ _ _) => apply reading_try_except
  | |- reading (Popen _) => apply reading_Popen
  | |- reading (input _) => apply reading_input
  | |- reading (follow_process _ _ _) => apply reading_quiet, quiet_follow_process
  | |- reading (watch_batch_install _) => apply reading_quiet, quiet_watch_batch_install
  | |- reading (run_checked _) => unfold run_checked
  | |- reading (open_read _) =>
      apply reading_same; intros ?; unfold open_read;
      destruct (read_text _ _); reflexivity
  | |- reading (requests_get _) =>
      apply reading_same; intros ?; unfold requests_get;
      destruct (http_get _ _) as [[?| |] ?]; reflexivity
  | |- reading (if ?b then _ else _) => destruct b
  | |- reading (match ?x with Some _ => _ | None => _ end) => destruct x
  | |- reading _ => apply reading_same; reflexivity
  end.

Ltac reading := repeat reading_step.

Section NormalEnd.

Context {W : Type} `{Platform W}.

Local Abbreviation reading := (@reading W _).

Lemma reading_check_for_updates venv_name : reading (check_for_updates venv_name).
Proof. unfold check_for_updates, update_packages. reading. Qed.

Lemma reading_menu_dispatch venv_name choice : reading (menu_dispatch venv_name choice).
Proof.
  unfold menu_dispatch, install_package, is_package_installed, read_local, remove_package,
    remove_all_packages, install_from_requirements.
  reading; apply reading_check_for_updates.
Qed.

Lemma reading_startup : reading startup.
Proof.
  unfold startup, check_internet, prepare, check_python, download_python, install_python.
  reading.
Qed.

Lemma reading_environment venv_name :
  reading (bind (ensure_virtual_env venv_name) (fun _ => check_for_updates venv_name)).
Proof.
  unfold ensure_virtual_env, create_virtual_env. reading. apply reading_check_for_updates.
Qed.

Lemma menu_loop_returns fuel venv_name (st st' : state W) :
  menu_loop fuel venv_name st = Some (inr tt, st') ->
  exists line, line ∈ stdin st /\ strip line = "8".
Proof.
  revert st. induction fuel as [|fuel IH]; intros st; [discriminate|].
  cbn [menu_loop].
  destruct (stdin st) as [|line rest] eqn:Hin.
  - rewrite (menu_iteration_eof _ _ Hin). discriminate.
  - rewrite (menu_iteration_choice _ _ _ _ Hin).
    pose proof (reading_menu_dispatch venv_name (strip line)
                  (State (os st) rest (trace st ++ menu_events))) as Hrest.
    pose proof (menu_dispatch_goes_on venv_name (strip line)
                  (State (os st) rest (trace st ++ menu_events))) as Hgo.
    destruct (menu_dispatch venv_name (strip line) _) as [[e|[|]] st1];
      cbn [fst snd stdin] in *.
    + discriminate.
    + intros Hloop. destruct (IH _ Hloop) as (chosen & Hchosen & Height).
      exists chosen. split; [|exact Height].
      right. eapply elem_of_suffix; [exact Hchosen | exact Hrest].
    + intros _. exists line. split; [left|].
      specialize (Hgo false eq_refl). symmetry in Hgo.
      apply negb_false_iff, String.eqb_eq in Hgo. exact Hgo.
Qed.

(** X15.  The process ends with status 0 only through choice 8: when
    [main] returns, one of the lines of the input, stripped, is [8];
    an input that ends before gives [EOFError] and status 1. *)
Theorem main_returns_by_choice (st : state W) :
  (forall st', main st = Some (inr tt, st') ->
               exists line, line ∈ stdin st /\ strip line = "8")
  /\ (process_status st = Some 0%Z ->
      exists line, line ∈ stdin st /\ strip line = "8")
  /\ (forall venv_name fuel,
         stdin st = [] ->
         menu_loop (S fuel) venv_name st
         = Some (inl EOFError, State (os st) [] (trace st ++ menu_events))).
Proof.
  assert (Hmain : forall st', main st = Some (inr tt, st') ->
                              exists line, line ∈ stdin st /\ strip line = "8").
  { intros st'. unfold main, main_with_fuel, session.
    pose proof (reading_startup st) as Hstart.
    destruct (startup st) as [[e|venv_name] st1]; cbn [snd] in Hstart; [discriminate|].
    pose proof (reading_environment venv_name st1) as Henv.
    destruct (bind _ _ st1) as [[e|u] st2]; cbn [snd] in Henv; [discriminate|].
    intros Hloop. destruct (menu_loop_returns _ _ _ _ Hloop) as (line & Hline & Height).
    exists line. split; [|exact Height].
    eapply elem_of_suffix; [|exact Hstart]. eapply elem_of_suffix; [exact Hline | exact Henv]. }
  split; [exact Hmain|]. split.
  - unfold process_status. destruct (main st) as [[[e|[]] st']|] eqn:Emain; [| |discriminate].
    + destruct e; try discriminate. cbn [exit_status].
      intros [= ->]. destruct (main_exit _ _ _ Emain) as [_ Hcode]. discriminate.
    + intros _. apply (Hmain st'). reflexivity.
  - intros venv_name fuel Hin. cbn [menu_loop].
    rewrite (menu_iteration_eof _ _ Hin). reflexivity.
Qed.

End NormalEnd.

(** ** A whole run *)

Section WholeRun.

Context {W : Type} `{Platform W}.

Lemma startup_ready (st : state W) body w1 p w2 line rest :
  http_get (os st) "https://www.google.com" = (HttpResponse body, w1) ->
  spawn w1 version_command = (Some p, w2) ->
  returncode p = 0%Z ->
  stdin st = line :: rest ->
  startup st
  = (inr (environment_name line),
     State w2 rest
           (trace st ++
            [Request "https://www.google.com";
             Spawn version_command;
             Print "[INFO] Python is already installed.";
             Prompt "Enter the virtual environment name (default: venv): "])).
Proof.
  intros Hget Hversion Hcode Hin. unfold startup.
  erewrite bind_inr.
  2: { unfold check_internet, try_except.
       erewrite bind_inr by (apply requests_get_response; exact Hget). reflexivity. }
  erewrite bind_inr by reflexivity.
  unfold prepare.
  erewrite bind_inr by (eapply check_python_present; [exact Hversion | exact Hcode]).
  erewrite bind_inr by reflexivity.
  erewrite bind_inr by (apply input_line; exact Hin).
  unfold ret, environment_name. cbn [os stdin trace]. f_equal. f_equal. traces.
Qed.

(** X16.  A first run that ends at once: with the network up and
    [python] present, an environment that does not exist yet is
    created by one [python -m venv], the first check for updates finds
    only the header, and choice 8 ends the loop.  The version check,
    the creation and the list query are the only subprocesses of the
    run, the rest of the input is left unread, and the process ends
    with status 0. *)
Theorem first_run_exits_cleanly (st : state W)
        body w1 p w2 line choice rest q w3 result w4 :
  http_get (os st) "https://www.google.com" = (HttpResponse body, w1) ->
  spawn w1 version_command = (Some p, w2) ->
  returncode p = 0%Z ->
  stdin st = line :: choice :: rest ->
  strip choice = "8" ->
  let venv_name := environment_name line in
  path_exists w2 venv_name = false ->
  spawn w2 (venv_command venv_name) = (Some q, w3) ->
  returncode q = 0%Z ->
  spawn w3 (pip venv_name ["list"; "--outdated"]) = (Some result, w4) ->
  length (splitlines (proc_stdout result)) <= 2 ->
  exists new,
    main st = Some (inr tt, State w4 rest (trace st ++ new))
    /\ spawned new
       = [version_command; venv_command venv_name; pip venv_name ["list"; "--outdated"]]
    /\ last new = Some (Print "[INFO] Exiting... Goodbye!")
    /\ process_status st = Some 0%Z.
Proof.
  intros Hget Hversion Hp Hin Hchoice venv_name Habsent Hcreate Hq Hlist Hheader.
  assert (Hmain :
            main st
            = Some (inr tt,
                    State w4 rest
                          (trace st ++
                           [Request "https://www.google.com";
                            Spawn version_command;
                            Print "[INFO] Python is already installed.";
                            Prompt "Enter the virtual environment name (default: venv): ";
                            Print ("[INFO] Creating virtual environment: " +:+ venv_name +:+ "...");
                            Spawn (venv_command venv_name);
                            Print ("[INFO] Virtual environment '" +:+ venv_name
                                   +:+ "' created successfully.");
                            Print "[INFO] Checking for outdated packages...";
                            Spawn (pip venv_name ["list"; "--outdated"]);
                            Print "[INFO] All packages are up to date."]
                           ++ menu_events ++ [Print "[INFO] Exiting... Goodbye!"]))).
  { unfold main, main_with_fuel. rewrite Hin.
    rewrite (startup_ready st body w1 p w2 line (choice :: rest) Hget Hversion Hp Hin).
    fold venv_name. unfold session.
    erewrite bind_inr.
    2: { rewrite ensure_virtual_env_absent by exact Habsent.
         cbn [os]. rewrite Hcreate. apply Z.eqb_eq in Hq. rewrite Hq. reflexivity. }
    rewrite (check_for_updates_none venv_name _ result w4) by (first [exact Hlist | exact Hheader]).
    cbn [length menu_loop].
    erewrite menu_iteration_choice by reflexivity.
    rewrite Hchoice. unfold menu_dispatch. cbn [String.eqb Ascii.eqb Bool.eqb].
    erewrite bind_inr by apply log_run.
    cbn [ret os stdin trace]. do 3 f_equal. traces. }
  eexists. split; [exact Hmain|]. split; [|split].
  - unfold menu_events, menu_text. reflexivity.
  - rewrite !app_assoc. apply last_snoc.
  - unfold process_status. rewrite Hmain. reflexivity.
Qed.

End WholeRun.

(** ** The interpreter of the environment *)

Section Confinement.

Context {W : Type} `{Platform W}.

Local Abbreviation confined := (@confined W _).

Lemma confined_quiet {A} P (m : M (state W) A) : @quiet W A m -> confined P m.
Proof.
  intros Hm st. destruct (Hm st) as (new & E & S). exists new.
  rewrite E, S. split; [reflexivity | constructor].
Qed.

Lemma confined_still {A} P (m : M (state W) A) :
  (forall st, trace (snd (m st)) = trace st) -> confined P m.
Proof. intros Hm st. exists []. rewrite Hm, app_nil_r. split; [reflexivity | constructor]. Qed.

Lemma confined_input P prompt : confined P (input prompt).
Proof.
  intros st. exists [Prompt prompt]. unfold input.
  destruct (stdin st); (split; [reflexivity | constructor]).
Qed.

Lemma confined_Popen (P : list string -> Prop) argv : P argv -> confined P (Popen argv).
Proof.
  intros Hargv st. exists [Spawn argv]. unfold Popen.
  destruct (spawn (os st) argv) as [[p|] w]; (split; [reflexivity|]);
    rewrite spawned_Spawn; repeat constructor; exact Hargv.
Qed.

Lemma confined_bind {A B} P (m : M (state W) A) (k : A -> M (state W) B) :
  confined P m -> (forall a, confined P (k a)) -> confined P (bind m k).
Proof.
  intros Hm Hk st. unfold bind.
  destruct (Hm st) as (new1 & E1 & S1). destruct (m st) as [[e|a] st1]; simpl in *.
  - eauto.
  - destruct (Hk a st1) as (new2 & E2 & S2). exists (new1 ++ new2).
    rewrite E2, E1, app_assoc. split; [reflexivity|].
    rewrite spawned_app. apply Forall_app. split; assumption.
Qed.

Lemma confined_for_each {A} P (body : A -> M (state W) unit) xs :
  (forall x, confined P (body x)) -> confined P (for_each body xs).
Proof.
  intros Hbody. unfold for_each. generalize tt.
  induction xs as [|x xs IH]; intros u; simpl.
  - apply confined_quiet, quiet_ret.
  - apply confined_bind; [apply Hbody | exact IH].
Qed.

Lemma confined_with_tqdm {A} P total desc (body : M (state W) A) :
  confined P body -> confined P (with_tqdm total desc body).
Proof.
  intros Hbody. apply confined_bind; [apply confined_quiet, quiet_emit; reflexivity|].
  intros _ st. unfold finally.
  destruct (Hbody st) as (new & E & S). destruct (body st) as [r st1]; simpl in *.
  exists (new ++ [TqdmClose]). rewrite E, app_assoc. split; [reflexivity|].
  rewrite spawned_app. apply Forall_app. split; [exact S | constructor].
Qed.

End Confinement.

Ltac confined_step :=
  match goal with
  | |- confined _ (bind _ _) => apply confined_bind; [|intros ?]
  | |- confined _ (for_each _ _) => apply confined_for_each; intros ?
  | |- confined _ (with_tqdm _ _ _) => apply confined_with_tqdm
  | |- confined _ (Popen (pip _ ?args)) => apply confined_Popen; exists args; reflexivity
  | |- confined _ (input _) => apply confined_input
  | |- confined _ (follow_process _ _ _) => apply confined_quiet, quiet_follow_process
  | |- confined _ (watch_batch_install _) => apply confined_quiet, quiet_watch_batch_install
  | |- confined _ (os_path_exists _) => apply confined_still; reflexivity
  | |- confined _ (open_write _ _) => apply confined_still; reflexivity
  | |- confined _ (open_read _) =>
      apply confined_still; intros ?; unfold open_read;
      destruct (read_text _ _); reflexivity
  | |- confined _ (if ?b then _ else _) => destruct b
  | |- confined _ _ => apply confined_quiet; solve [quiet]
  end.

Ltac confined := repeat confined_step.

Section Isolation.

Context {W : Type} `{Platform W}.

(** The command lines that run [pip] with the interpreter of the
    environment [venv_name]. *)
Local Abbreviation inside venv_name :=
  (fun argv : list string => exists args, argv = pip venv_name args).

Lemma confined_check_for_updates venv_name :
  @confined W unit (inside venv_name) (check_for_updates venv_name).
Proof. unfold check_for_updates, update_packages. confined. Qed.

Lemma confined_menu_dispatch venv_name choice :
  @confined W bool (inside venv_name) (menu_dispatch venv_name choice).
Proof.
  unfold menu_dispatch, install_package, is_package_installed, read_local, remove_package,
    remove_all_packages, install_from_requirements.
  confined; apply confined_check_for_updates.
Qed.

Lemma confined_menu_iteration venv_name :
  @confined W bool (inside venv_name) (menu_iteration venv_name).
Proof. unfold menu_iteration. confined. apply confined_menu_dispatch. Qed.

(** X17.  Whatever is chosen in the menu, every subprocess that the
    loop starts runs [pip] as a module of the interpreter of the
    chosen environment, [get_python_executable venv_name], never
    another interpreter and never another program. *)
Theorem menu_loop_uses_environment fuel venv_name (st : state W) r st' :
  menu_loop fuel venv_name st = Some (r, st') ->
  exists new,
    trace st' = trace st ++ new
    /\ Forall (fun argv =>
                 exists args,
                   argv = get_python_executable venv_name :: "-m" :: "pip" :: args)
              (spawned new).
Proof.
  revert st. induction fuel as [|fuel IH]; intros st; simpl; [discriminate|].
  destruct (confined_menu_iteration venv_name st) as (new1 & E1 & S1).
  destruct (menu_iteration venv_name st) as [[e|[|]] st1]; simpl in E1.
  - intros [= <- <-]. eauto.
  - intros Hloop. destruct (IH _ Hloop) as (new2 & E2 & S2).
    exists (new1 ++ new2). rewrite E2, E1, app_assoc. split; [reflexivity|].
    rewrite spawned_app. apply Forall_app. split; assumption.
  - intros [= <- <-]. eauto.
Qed.

End Isolation.

(** ** Operations that do not ask *)

Section Unasked.

Context {W : Type} `{Platform W}.

Local Abbreviation unasked := (@unasked W _).

Lemma unasked_bind {A B} (m : M (state W) A) (k : A -> M (state W) B) :
  unasked m -> (forall a, unasked (k a)) -> unasked (bind m k).
Proof.
  intros Hm Hk st. unfold bind. specialize (Hm st).
  destruct (m st) as [[e|a] st1]; cbn [snd] in *; [exact Hm|].
  rewrite Hk. exact Hm.
Qed.

Lemma unasked_for_fold {A B} (body : B -> A -> M (state W) B) xs acc :
  (forall b x, unasked (body b x)) -> unasked (for_fold body xs acc).
Proof.
  intros Hbody. revert acc. induction xs as [|x xs IH]; intros acc; simpl.
  - intros st. reflexivity.
  - apply unasked_bind; [apply Hbody | exact IH].
Qed.

Lemma unasked_for_each {A} (body : A -> M (state W) unit) xs :
  (forall x, unasked (body x)) -> unasked (for_each body xs).
Proof. intros Hbody. apply unasked_for_fold. intros _ x. apply Hbody. Qed.

Lemma unasked_with_tqdm {A} total desc (body : M (state W) A) :
  unasked body -> unasked (with_tqdm total desc body).
Proof.
  intros Hbody st. unfold with_tqdm, bind, finally. cbn [emit].
  specialize (Hbody (State (os st) (stdin st) (trace st ++ [TqdmOpen total desc]))).
  destruct (body _) as [r st1]; cbn [snd stdin] in *. exact Hbody.
Qed.

Lemma unasked_Popen argv : unasked (Popen argv).
Proof.
  intros st. unfold Popen. destruct (spawn (os st) argv) as [[p|] w]; reflexivity.
Qed.

Lemma unasked_quiet {A} (m : M (state W) A) : @quiet W A m -> unasked m.
Proof. intros Hm st. destruct (Hm st) as (new & E & _). rewrite E. reflexivity. Qed.

End Unasked.

Ltac unasked_step :=
  match goal with
  | |- unasked (bind _ _) => apply unasked_bind; [|intros ?]
  | |- unasked (for_each _ _) => apply unasked_for_each; intros ?
  | |- unasked (for_fold _ _ _) => apply unasked_for_fold; intros ? ?
  | |- unasked (with_tqdm _ _ _) => apply unasked_with_tqdm
  | |- unasked (Popen _) => apply unasked_Popen
  | |- unasked (follow_process _ _ _) => apply unasked_quiet, quiet_follow_process
  | |- unasked (watch_batch_install _) => apply unasked_quiet, quiet_watch_batch_install
  | |- unasked (open_read _) =>
      intros ?; unfold open_read; destruct (read_text _ _); reflexivity
  | |- unasked (if ?b then _ else _) => destruct b
  | |- unasked (match ?x with Some _ => _ | None => _ end) => destruct x
  | |- unasked _ => intros ?; reflexivity
  end.

Ltac unasked := repeat unasked_step.

Section NoQuestions.

Context {W : Type} `{Platform W}.

(** X18.  Installing, removing and updating packages never read from
    standard input: the uninstall commands carry [-y], and none of
    these operations asks for anything, on success or on failure. *)
Theorem package_operations_do_not_ask venv_name (st : state W) :
  (forall package_name,
      stdin (snd (install_package venv_name package_name st)) = stdin st)
  /\ (forall requirements_file,
         stdin (snd (install_from_requirements venv_name requirements_file st)) = stdin st)
  /\ (forall package_name,
         stdin (snd (remove_package venv_name package_name st)) = stdin st
         /\ exists new,
             trace (snd (remove_package venv_name package_name st)) = trace st ++ new
             /\ Forall (fun argv =>
                          argv = pip venv_name ["uninstall"; "-y"; package_name])
                       (spawned new))
  /\ stdin (snd (remove_all_packages venv_name st)) = stdin st
  /\ (forall packages,
         stdin (snd (update_packages venv_name packages st)) = stdin st).
Proof.
  split; [|split; [|split; [|split]]].
  - intros package_name. revert st.
    change (@unasked W unit (install_package venv_name package_name)).
    unfold install_package, is_package_installed, read_local. unasked.
  - intros file. revert st.
    change (@unasked W unit (install_from_requirements venv_name file)).
    unfold install_from_requirements. unasked.
  - intros package_name. split.
    + revert st. change (@unasked W unit (remove_package venv_name package_name)).
      unfold remove_package. unasked.
    + revert st.
      change (@confined W unit
                (fun argv => argv = pip venv_name ["uninstall"; "-y"; package_name])
                (remove_package venv_name package_name)).
      unfold remove_package.
      apply confined_bind; [apply confined_quiet; quiet|]. intros _.
      apply confined_bind; [apply confined_Popen; reflexivity|]. intros process.
      apply confined_quiet. quiet. apply quiet_follow_process.
  - revert st. change (@unasked W unit (remove_all_packages venv_name)).
    unfold remove_all_packages. unasked.
  - intros packages. revert st.
    change (@unasked W unit (update_packages venv_name packages)).
    unfold update_packages. unasked.
Qed.

End NoQuestions.

(** * Runs on the example machines *)

Section Runs.

Import Demo.

(** On the example machines a directory is a path that exists, and a
    successful [python -m venv E] makes the directory [E]. *)
Lemma is_directory_exists (m : machine) path :
  is_directory m path = true -> path_exists m path = true.
Proof.
  unfold is_directory, path_exists, demo_platform. intros ->. reflexivity.
Qed.

Lemma demo_venv_contract name (m : machine) p m' :
  spawn m (venv_command name) = (Some p, m') ->
  returncode p = 0%Z -> is_directory m' name = true.
Proof.
  unfold spawn, is_directory, demo_platform, run_command, venv_command.
  destruct (lookup_command _ m) as [q|]; [|discriminate].
  destruct (returncode q =? 0)%Z eqn:Hq.
  - intros [= <- <-] _. cbn [paths existsb]. rewrite String.eqb_refl. reflexivity.
  - intros [= <- <-] Hp. apply Z.eqb_neq in Hq. contradiction.
Qed.

(** C1 fails as stated: with the network up, [python] present and no
    directory [venv], a failing [python -m venv venv] raises
    [CalledProcessError] out of [main], and the process ends with
    status 1. *)
Lemma failing_venv_exit_status :
  fst (check_internet (start readonly_machine ["venv"])) = inr true
  /\ process_status (start readonly_machine ["venv"]) = Some 1%Z
  /\ ~ nonzero_status_only_offline.
Proof.
  split; [reflexivity|]. split; [reflexivity|].
  intros Hclaim.
  specialize (Hclaim machine demo_platform (start readonly_machine ["venv"]) 1%Z
                     eq_refl ltac:(discriminate)).
  discriminate Hclaim.
Qed.

Lemma main_exit_status_witness :
  exists r st',
    main (start offline_machine []) = Some (r, st')
    /\ r = inl (SystemExit 1)
    /\ menu_dispatch "venv" "9" (start offline_machine [])
       = (inr true,
          State offline_machine []
                [Print "[INFO] Invalid choice. Please enter a number between 1 and 8."]).
Proof.
  destruct (main_exit_status (start offline_machine [])) as
    ((r & st' & Hmain & Hoff & _) & _ & Hinvalid & _).
  exists r, st'. split; [exact Hmain|]. split; [apply Hoff; reflexivity|].
  apply (Hinvalid "venv" "9"). unfold choices. intros Hin.
  repeat (apply elem_of_cons in Hin as [Hin|Hin]; [discriminate|]). inversion Hin.
Defined.

Lemma install_package_unbound_witness :
  install_package "venv" "six" (start satisfied_machine [])
  = (inl (UnboundLocalError "current_package"),
     State satisfied_machine []
           [Spawn [py; "-m"; "pip"; "list"];
            Print "[INFO] Installing: six...";
            Spawn [py; "-m"; "pip"; "install"; "six"];
            TqdmOpen None "Installing six";
            TqdmClose]).
Proof.
  refine (install_package_unbound "venv" "six" (start satisfied_machine [])
            (ok header) satisfied_machine
            (ok (lines ["Requirement already satisfied: six in ./venv/lib"]))
            satisfied_machine _ _ _ _).
  - reflexivity.
  - vm_compute. intros Hin. inversion Hin.
  - reflexivity.
  - intros line Hline. vm_compute in Hline.
    apply list_elem_of_singleton in Hline. subst line. reflexivity.
Defined.

Ltac not_listed :=
  let Hin := fresh "Hin" in
  intros Hin;
  repeat (apply elem_of_cons in Hin as [Hin|Hin]; [discriminate|]);
  inversion Hin.

Lemma install_from_requirements_batch_witness :
  exists r st' new,
    install_from_requirements "venv" "abc.txt" (start manifest_machine []) = (r, st')
    /\ trace st' = new
    /\ Print "[INFO] INFO: b is already installed (skipping)" ∈ new
    /\ spawned new = [[py; "-m"; "pip"; "list"];
                      [py; "-m"; "pip"; "install"; "-r"; "abc.txt"]].
Proof.
  destruct (install_from_requirements_batch (H:=demo_platform)
              "venv" "abc.txt" (start manifest_machine [])
              (lines ["a"; "b"; "c"]) ["a"; "b"; "c"]
              (ok (header +:+ lines ["b          1.0"])) manifest_machine
              ltac:(reflexivity) ltac:(reflexivity) ltac:(reflexivity) ltac:(reflexivity))
    as (r & st' & new & Hrun & Htrace & Habc & _).
  exists r, st', new. split; [exact Hrun|]. split; [exact Htrace|].
  apply Habc.
  - reflexivity.
  - vm_compute. left.
  - left. vm_compute. not_listed.
Defined.


Lemma install_package_already_installed_witness :
  install_package "venv" "NumPy" (start numpy_machine [])
  = (inr tt,
     State numpy_machine []
           [Spawn [py; "-m"; "pip"; "list"];
            Print "[INFO] ERROR: NumPy (skipped, already installed)"]).
Proof.
  refine (install_package_already_installed "venv" "NumPy" (start numpy_machine [])
            (ok numpy_listing) numpy_machine "numpy" _ _ _).
  - reflexivity.
  - vm_compute. left.
  - reflexivity.
Defined.

Lemma check_for_updates_header_only_witness :
  check_for_updates "venv" (start current_machine [])
  = (inr tt,
     State current_machine []
           [Print "[INFO] Checking for outdated packages...";
            Spawn [py; "-m"; "pip"; "list"; "--outdated"];
            Print "[INFO] All packages are up to date."]).
Proof.
  refine (check_for_updates_header_only "venv" (start current_machine [])
            (ok ("Package Version Latest Type" +:+ String LF "------- ------- ------ ----"
                 +:+ String LF ""))
            current_machine _ _).
  - reflexivity.
  - reflexivity.
Defined.

(** C8 fails as stated, in two ways.  Where no [venv] exists and
    [python -m venv venv] fails, the step starts the command once and
    raises [CalledProcessError]: nothing named [venv] exists
    afterwards.  Where [venv] is a regular file, no directory [venv]
    exists, and yet the step starts nothing and leaves it so. *)
Lemma failing_venv_leaves_no_directory :
  (is_directory readonly_machine "venv" = false
   /\ exists st',
       ensure_virtual_env "venv" (start readonly_machine [])
       = (inl (CalledProcessError 1 ["python"; "-m"; "venv"; "venv"]), st')
       /\ creations "venv" (trace st') = 1
       /\ path_exists (os st') "venv" = false)
  /\ (is_directory occupied_machine "venv" = false
      /\ ensure_virtual_env "venv" (start occupied_machine [])
         = (inr tt, start occupied_machine []))
  /\ ~ directory_created_once.
Proof.
  split; [|split].
  - split; [reflexivity|]. eexists. split; [reflexivity|]. split; reflexivity.
  - split; reflexivity.
  - intros Hclaim.
    destruct (Hclaim machine demo_platform is_directory is_directory_exists
                     "venv" (start readonly_machine [])) as [Habsent _].
    destruct (Habsent eq_refl) as [_ Hdirectory].
    discriminate Hdirectory.
Qed.

Lemma ensure_virtual_env_once_witness :
  (exists st',
      ensure_virtual_env "venv" (start fresh_machine []) = (inr tt, st')
      /\ spawned (trace st') = [["python"; "-m"; "venv"; "venv"]]
      /\ is_directory (os st') "venv" = true)
  /\ ensure_virtual_env "venv" (start numpy_machine []) = (inr tt, start numpy_machine []).
Proof.
  split.
  - destruct (ensure_virtual_env_once "venv" (start fresh_machine [])) as [Habsent _].
    destruct (Habsent eq_refl)
      as (r & st' & new & Hrun & Htrace & Hspawned & _ & Hos & Hr & _).
    exists st'. rewrite Hrun, Hr. split; [reflexivity|].
    rewrite Htrace, Hos. split; [exact Hspawned|].
    apply (demo_venv_contract "venv" fresh_machine (ok "")); reflexivity.
  - destruct (ensure_virtual_env_once "venv" (start numpy_machine [])) as (_ & Hpresent & _).
    apply Hpresent. reflexivity.
Defined.

Lemma blank_line_in_listing_witness :
  fst (check_for_updates "venv" (start gap_machine [])) = inl IndexError.
Proof.
  refine (proj1 (blank_line_in_listing "venv" (start gap_machine [])
                   (ok (lines ["Package Version Latest Type"; "------- ------- ------ ----";
                               "six     1.15.0  1.16.0 wheel"; "";
                               "idna    3.3     3.7    wheel"]))
                   gap_machine "" _ _ _ _)).
  - reflexivity.
  - vm_compute. lia.
  - vm_compute. right. left.
  - reflexivity.
Defined.

Lemma manifest_line_names_witness :
  exists rest,
    strip "  foo>=1.2.3 " = "foo" +:+ rest
    /\ match rest with
       | EmptyString => True
       | String c _ => is_version_operator c = true
       end.
Proof.
  destruct manifest_line_names as (_ & _ & _ & _ & _ & Hname).
  destruct (Hname "  foo>=1.2.3 " "foo" eq_refl) as (rest & Hstrip & _ & Hrest).
  exists rest. split; [exact Hstrip | exact Hrest].
Defined.

Lemma indented_comment_is_parsed_witness :
  exists names name,
    parse_requirements "  # comment" = inr names
    /\ name ∈ names
    /\ requirement_name "  # comment" = Some name
    /\ startswith "#" name = true.
Proof.
  refine (indented_comment_is_parsed "  # comment" "  # comment" _ _ _).
  - vm_compute. left.
  - reflexivity.
  - reflexivity.
Defined.

(** The same runs, evaluated. *)
Example indented_comment_names :
  parse_requirements ("flask" +:+ String LF "  # comment" +:+ String LF "# comment")
  = inr ["flask"; "# comment"].
Proof. reflexivity. Qed.

Example stubborn_removal :
  remove_package "venv" "six" (start stubborn_machine [])
  = (inr tt,
     State stubborn_machine []
           [Print "[INFO] Removing package: six...";
            Spawn [py; "-m"; "pip"; "uninstall"; "-y"; "six"];
            TqdmOpen (Some 1) "Removing six";
            TqdmUpdate 1;
            TqdmClose;
            Print "[INFO] Package 'six' removed successfully."]).
Proof. reflexivity. Qed.

(** ** Runs for the further properties *)

Lemma check_python_outcomes_witness :
  fst (check_python (start fresh_machine [])) = inr true
  /\ fst (check_python (start offline_machine [])) = inr false.
Proof.
  split.
  - apply (proj1 (proj2 (check_python_outcomes (start fresh_machine [])))).
    exists (ok "Python 3.10.6"). split; reflexivity.
  - apply (proj1 (check_python_outcomes (start offline_machine []))). reflexivity.
Defined.

Lemma prepare_installs_runtime_witness :
  fst (prepare (start broken_installer_machine ["venv"]))
  = inl (CalledProcessError 1603 posix_installer)
  /\ fst (prepare (start bare_machine ["  my env "])) = inr "my env".
Proof.
  split.
  - destruct (prepare_installs_runtime (H:=demo_platform)
                (start broken_installer_machine ["venv"])
                broken_installer_machine "MZ" broken_installer_machine
                (failed 1603 "")
                (write_file broken_installer_machine "python-3.10.6-amd64.exe" "MZ")
                ltac:(reflexivity) ltac:(reflexivity) ltac:(reflexivity)) as [Hfails _].
    rewrite Hfails by discriminate. reflexivity.
  - destruct (prepare_installs_runtime (H:=demo_platform)
                (start bare_machine ["  my env "])
                bare_machine "MZ" bare_machine (ok "")
                (write_file bare_machine "python-3.10.6-amd64.exe" "MZ")
                ltac:(reflexivity) ltac:(reflexivity) ltac:(reflexivity)) as [_ Hworks].
    rewrite (Hworks eq_refl "  my env " [] eq_refl). reflexivity.
Defined.


Lemma main_probe_exception_witness :
  process_status (start timeout_machine ["venv"; "8"]) = Some 1%Z.
Proof.
  apply (main_probe_exception (H:=demo_platform) (start timeout_machine ["venv"; "8"])
           timeout_machine).
  reflexivity.
Defined.

Lemma prepare_environment_name_witness :
  is_empty "my env" = false /\ strip "my env" = "my env"
  /\ exists line, line ∈ ["  my env "; "8"] /\ "my env" = environment_name line.
Proof.
  apply (prepare_environment_name (H:=demo_platform) (start fresh_machine ["  my env "; "8"])).
  reflexivity.
Defined.

Lemma marker_line_without_space_witness :
  exists labels,
    remove_package "venv" "six" (start terse_machine [])
    = (inl IndexError,
       State terse_machine []
             ([Print "[INFO] Removing package: six...";
               Spawn [py; "-m"; "pip"; "uninstall"; "-y"; "six"];
               TqdmOpen (Some 1) "Removing six"]
              ++ map TqdmDesc labels ++ [TqdmClose])).
Proof.
  refine (proj2 (marker_line_without_space (H:=demo_platform) "venv" "six"
                   (start terse_machine [])
                   (ok (lines ["Found existing installation: six 1.16.0"; "Uninstalling"]))
                   terse_machine (String.append "Uninstalling" (String LF ""))
                   _ _ _ _)).
  - reflexivity.
  - vm_compute. right. left.
  - reflexivity.
  - reflexivity.
Defined.

Lemma install_package_collected_witness :
  install_package "venv" "flask" (start flask_machine [])
  = (inr tt,
     State flask_machine []
           [Spawn [py; "-m"; "pip"; "list"];
            Print "[INFO] Installing: flask...";
            Spawn [py; "-m"; "pip"; "install"; "flask"];
            TqdmOpen None "Installing flask";
            TqdmDesc "Installing: flask"; TqdmUpdate 1;
            TqdmDesc "Installing: click>=8.0"; TqdmUpdate 1;
            TqdmClose;
            TqdmDesc "Installing: click>=8.0 (success)"]).
Proof.
  refine (install_package_collected (H:=demo_platform) "venv" "flask" (start flask_machine [])
            (ok header) flask_machine (ok flask_output) flask_machine
            ["flask"] "click>=8.0" _ _ _ _).
  - reflexivity.
  - vm_compute. intros Hin. inversion Hin.
  - reflexivity.
  - reflexivity.
Defined.

Lemma watch_batch_install_reports_witness :
  exists new,
    trace (snd (watch_batch_install (Completed 1 flask_output "") (start flask_machine [])))
    = new ++ [Print "[INFO] ERROR: Installation failed for some packages. Check the output for details."]
    /\ ticks new = 4.
Proof.
  apply (watch_batch_install_reports (W:=machine) (Completed 1 flask_output "")
           (start flask_machine [])).
  reflexivity.
Defined.

Lemma remove_all_packages_commands_witness :
  (exists new,
      trace (snd (remove_all_packages "venv" (start frozen_machine []))) = new
      /\ spawned new
         = [[py; "-m"; "pip"; "freeze"];
            [py; "-m"; "pip"; "uninstall"; "-y"; "six"];
            [py; "-m"; "pip"; "uninstall"; "-y";
             "-e git+https://example.org/tool.git#egg=tool"]])
  /\ "-e git+https://example.org/tool.git#egg=tool" ∈ frozen_names frozen_output.
Proof.
  destruct (remove_all_packages_commands (H:=demo_platform) "venv" (start frozen_machine [])
              (ok frozen_output) frozen_machine ltac:(reflexivity))
    as (_ & Hcommands & Hwhole).
  split.
  - apply Hcommands. reflexivity.
  - apply Hwhole; [vm_compute; right; left | reflexivity].
Defined.

Lemma update_packages_commands_witness :
  exists new,
    trace (snd (update_packages "venv" ["six"] (start outdated_machine []))) = new
    /\ spawned new = [[py; "-m"; "pip"; "install"; "--upgrade"; "six"]].
Proof.
  apply (update_packages_commands (H:=demo_platform) "venv" ["six"] (start outdated_machine [])).
  reflexivity.
Defined.

Lemma check_for_updates_asks_witness :
  check_for_updates "venv" (start outdated_machine [" N "; "8"])
  = (inr tt,
     State outdated_machine ["8"]
           [Print "[INFO] Checking for outdated packages...";
            Spawn [py; "-m"; "pip"; "list"; "--outdated"];
            Print "[INFO] Found 1 outdated package(s).";
            Prompt "Do you want to update all outdated packages? (y/n): "]).
Proof.
  destruct (check_for_updates_asks (H:=demo_platform) "venv"
              (start outdated_machine [" N "; "8"]) (ok outdated_output) outdated_machine
              ["six"] ltac:(reflexivity) ltac:(reflexivity) ltac:(discriminate))
    as (_ & _ & Hanswer).
  rewrite (Hanswer " N " ["8"] eq_refl). reflexivity.
Defined.

Lemma name_with_space_not_installed_witness :
  requirement_name "requests >= 2.0" = Some "requests "
  /\ exists r st' new,
      install_from_requirements "venv" "spaced.txt" (start spaced_machine []) = (r, st')
      /\ trace st' = new
      /\ spawned new = [[py; "-m"; "pip"; "list"];
                        [py; "-m"; "pip"; "install"; "-r"; "spaced.txt"]].
Proof.
  split; [reflexivity|].
  destruct (name_with_space_not_installed (H:=demo_platform) "venv" (start spaced_machine [])
              (ok numpy_listing) spaced_machine "requests "
              ltac:(reflexivity) ltac:(left; reflexivity)) as [_ Hbatch].
  apply (Hbatch "spaced.txt" (lines ["requests >= 2.0"]) ["requests "]);
    try reflexivity.
  left.
Defined.

Lemma menu_guards_witness :
  menu_dispatch "venv" "2" (start numpy_machine ["   "; "8"])
  = (inr true, State numpy_machine ["8"] [Prompt "Enter package name to remove: "])
  /\ menu_dispatch "venv" "3" (start numpy_machine ["yes"; "8"])
     = (inr true,
        State numpy_machine ["8"]
              [Prompt "Are you sure you want to remove all packages? (y/n): "]).
Proof.
  split.
  - apply (menu_guards (H:=demo_platform) "venv" (start numpy_machine ["   "; "8"])
             "   " ["8"] eq_refl).
    reflexivity.
  - apply (menu_guards (H:=demo_platform) "venv" (start numpy_machine ["yes"; "8"])
             "yes" ["8"] eq_refl).
    reflexivity.
Defined.

Lemma generate_requirements_witness :
  fst (menu_dispatch "venv" "6" (start frozen_machine [])) = inr true
  /\ read_text (os (snd (menu_dispatch "venv" "6" (start frozen_machine []))))
               "requirements.txt"
     = Some frozen_output
  /\ fst (menu_dispatch "venv" "6" (start numpy_machine [])) = inl FileNotFoundError
  /\ read_text (os (snd (menu_dispatch "venv" "6" (start numpy_machine []))))
               "requirements.txt"
     = Some "".
Proof.
  destruct (generate_requirements (H:=demo_platform) "venv" (start frozen_machine []))
    as [Hwritten _].
  destruct (generate_requirements (H:=demo_platform) "venv" (start numpy_machine []))
    as [_ Hempty].
  rewrite (Hwritten (ok frozen_output)
                    (write_file frozen_machine "requirements.txt" "") eq_refl).
  rewrite (Hempty (write_file numpy_machine "requirements.txt" "") eq_refl).
  repeat split; reflexivity.
Defined.

Lemma main_returns_by_choice_witness :
  exists line, line ∈ [""; " 8 "; "1"] /\ strip line = "8".
Proof.
  apply (proj1 (proj2 (main_returns_by_choice (H:=demo_platform)
                         (start first_run_machine [""; " 8 "; "1"])))).
  reflexivity.
Defined.

Lemma first_run_exits_cleanly_witness :
  exists new,
    main (start first_run_machine [""; " 8 "; "1"])
    = Some (inr tt,
            State (Machine (HttpResponse "") ["venv"] [] (commands first_run_machine))
                  ["1"] new)
    /\ spawned new
       = [["python"; "--version"]; ["python"; "-m"; "venv"; "venv"];
          [py; "-m"; "pip"; "list"; "--outdated"]]
    /\ last new = Some (Print "[INFO] Exiting... Goodbye!")
    /\ process_status (start first_run_machine [""; " 8 "; "1"]) = Some 0%Z.
Proof.
  refine (first_run_exits_cleanly (H:=demo_platform)
            (start first_run_machine [""; " 8 "; "1"])
            "" first_run_machine (ok "Python 3.10.6") first_run_machine
            "" " 8 " ["1"] (ok "")
            (Machine (HttpResponse "") ["venv"] [] (commands first_run_machine))
            (ok header)
            (Machine (HttpResponse "") ["venv"] [] (commands first_run_machine))
            _ _ _ _ _ _ _ _ _ _); reflexivity.
Defined.

Lemma menu_loop_uses_environment_witness :
  match menu_loop 2 "venv" (start numpy_machine ["1"; "NumPy"; "8"]) with
  | Some (r, st') =>
      r = inr tt
      /\ Forall (fun argv => exists args, argv = py :: "-m" :: "pip" :: args)
                (spawned (trace st'))
  | None => False
  end.
Proof.
  destruct (menu_loop 2 "venv" (start numpy_machine ["1"; "NumPy"; "8"]))
    as [[r st']|] eqn:Hloop.
  - split; [vm_compute in Hloop; congruence|].
    destruct (menu_loop_uses_environment (H:=demo_platform) _ _ _ _ _ Hloop)
      as (new & Htrace & Hall).
    rewrite Htrace. exact Hall.
  - vm_compute in Hloop. discriminate.
Defined.

Lemma package_operations_do_not_ask_witness :
  stdin (snd (remove_package "venv" "six" (start stubborn_machine ["n"; "8"]))) = ["n"; "8"].
Proof.
  destruct (package_operations_do_not_ask (H:=demo_platform) "venv"
              (start stubborn_machine ["n"; "8"])) as (_ & _ & Hremove & _).
  apply (Hremove "six").
Defined.

End Runs.
